(** * Housing retrofit ETL: the bronze / silver / gold pipeline

    A shallow embedding of the three SQL stages of [src/etl] and of the
    orchestrator that runs them, followed by the properties the
    specification states about them.

    - [bronze.run] loads the CSV file verbatim into [bronze.epc_raw];
    - [silver.run] deduplicates on LMK_KEY, casts the columns and scores
      data quality, giving [silver.epc_clean];
    - [gold.run] derives the retrofit features, [gold.epc_features], and
      the grouped aggregate, [gold.portfolio_agg].

    Tables are lists of rows.  An SQL NULL is [None].  DOUBLE columns are
    IEEE binary64 values, computed with the reference operations of
    [SpecFloat].  The engine's casts from text and its LOWER and UPPER are
    interfaces: the properties hold for every function that meets them. *)

From Stdlib Require Import ZArith Zpower List Bool Ascii String OrderedTypeEx Lia SpecFloat.
From stdpp Require Import gmap strings list pretty.

Local Open Scope string_scope.
Local Open Scope list_scope.
Local Open Scope Z_scope.

(** ** The query engine: values and scalar functions *)

(** *** DOUBLE: binary64 *)

Definition prec : Z := 53.
Definition emax : Z := 1024.

Abbreviation double := spec_float.

Definition dadd : double -> double -> double := SFadd prec emax.
Definition dsub : double -> double -> double := SFsub prec emax.
Definition dmul : double -> double -> double := SFmul prec emax.
Definition ddiv : double -> double -> double := SFdiv prec emax.

(** CAST(n AS DOUBLE), round to nearest even. *)
Definition double_of_Z (n : Z) : double := binary_normalize prec emax n 0 false.

(** The mantissa of the double that holds the integer [n] exactly. *)
Definition mantissa53 (n : positive) : positive :=
  Z.to_pos (Zpos n * 2 ^ (53 - Zdigits2 (Zpos n))).

(** The double nearest to [n / d]; the divisor is a positive integer. *)
Definition double_of_ratio (n : Z) (d : positive) : double :=
  match n with
  | Z0 => S754_zero false
  | _ =>
    let '(q, e, l) := SFdiv_core_binary prec emax (Z.abs n) 0 (Zpos d) 0 in
    binary_round_aux prec emax (n <? 0) q e l
  end.

(** The decimal numeral [m / 10^k] as a double, e.g. [decimal 21 1] is 2.1. *)
Definition decimal (m : Z) (k : nat) : double :=
  double_of_ratio m (Z.to_pos (10 ^ Z.of_nat k)).

Definition is_nan_or_inf (x : double) : bool :=
  match x with
  | S754_nan | S754_infinity _ => true
  | _ => false
  end.

(** C's [round]: to the nearest integer, halfway cases away from zero. *)
Definition round_half_away (x : double) : double :=
  match x with
  | S754_finite s m e =>
    if 0 <=? e then x
    else
      let d := 2 ^ (- e) in
      let q := Zpos m / d in
      let r := Zpos m mod d in
      let n := if d <=? 2 * r then q + 1 else q in
      binary_normalize prec emax (cond_Zopp s n) 0 s
  | _ => x
  end.

(** ROUND(x, p) on a DOUBLE for a precision [p >= 0]: scale by [10^p],
    round, scale back; a result that is not finite gives [x] back. *)
Definition round_double (x : double) (p : nat) : double :=
  let modifier := double_of_Z (10 ^ Z.of_nat p) in
  let rounded := ddiv (round_half_away (dmul x modifier)) modifier in
  if is_nan_or_inf rounded then x else rounded.

(** *** NULL and three-valued logic *)

Definition COALESCE {A : Type} (x : option A) (d : A) : A :=
  match x with
  | Some v => v
  | None => d
  end.

Definition IS_NOT_NULL {A : Type} (x : option A) : bool :=
  match x with
  | Some _ => true
  | None => false
  end.

(** A scalar operator gives NULL as soon as one operand is NULL. *)
Definition lift2 {A B C : Type} (f : A -> B -> C) (x : option A) (y : option B)
  : option C :=
  match x, y with
  | Some a, Some b => Some (f a b)
  | _, _ => None
  end.

Definition sql_and (p q : option bool) : option bool :=
  match p, q with
  | Some false, _ | _, Some false => Some false
  | Some true, Some true => Some true
  | _, _ => None
  end.

(** A WHERE clause keeps a row when its condition is TRUE, not when it is
    FALSE or NULL; so does a WHEN branch. *)
Definition is_true3 (p : option bool) : bool :=
  match p with
  | Some true => true
  | _ => false
  end.

Definition sql_ge (x : option Z) (k : Z) : option bool :=
  match x with
  | Some v => Some (k <=? v)
  | None => None
  end.

(** [x BETWEEN lo AND hi] is [x >= lo AND x <= hi]. *)
Definition BETWEEN (x : option Z) (lo hi : Z) : option bool :=
  sql_and (sql_ge x lo) (match x with Some v => Some (v <=? hi) | None => None end).

Definition ROUND (x : option double) (p : nat) : option double :=
  match x with
  | Some v => Some (round_double v p)
  | None => None
  end.

(** *** VARCHAR functions *)

Definition lower_ascii (c : ascii) : ascii :=
  let n := nat_of_ascii c in
  if (65 <=? n)%nat && (n <=? 90)%nat then ascii_of_nat (n + 32) else c.

Definition upper_ascii (c : ascii) : ascii :=
  let n := nat_of_ascii c in
  if (97 <=? n)%nat && (n <=? 122)%nat then ascii_of_nat (n - 32) else c.

Fixpoint map_string (f : ascii -> ascii) (s : string) : string :=
  match s with
  | EmptyString => EmptyString
  | String c s' => String (f c) (map_string f s')
  end.

(** A text of ASCII characters. *)
Definition is_ascii_char (c : ascii) : bool := (nat_of_ascii c <? 128)%nat.

Fixpoint is_ascii (s : string) : bool :=
  match s with
  | EmptyString => true
  | String c s' => is_ascii_char c && is_ascii s'
  end.

(** LOWER and UPPER.  The engine's two functions map the letters of every
    script of Unicode.  They are taken as an interface, with what they do to
    a text of ASCII characters: its only letters are A to Z and a to z, and
    these are mapped character by character, everything else being kept.  The
    development is stated for every such pair of functions. *)
Class CaseFunctions := {
  LOWER : string -> string;
  UPPER : string -> string;
  LOWER_ascii : forall s, is_ascii s = true -> LOWER s = map_string lower_ascii s;
  UPPER_ascii : forall s, is_ascii s = true -> UPPER s = map_string upper_ascii s;
}.

(** An instance for the examples, whose texts are ASCII: the two maps on the
    ASCII letters, every other character kept. *)
Definition ascii_case : CaseFunctions :=
  {| LOWER := map_string lower_ascii;
     UPPER := map_string upper_ascii;
     LOWER_ascii := fun _ _ => eq_refl;
     UPPER_ascii := fun _ _ => eq_refl |}.

Fixpoint ltrim (s : string) : string :=
  match s with
  | String " " s' => ltrim s'
  | _ => s
  end.

Fixpoint rtrim (s : string) : string :=
  match s with
  | EmptyString => EmptyString
  | String c s' =>
    match c, rtrim s' with
    | " "%char, EmptyString => EmptyString
    | _, t => String c t
    end
  end.

(** TRIM removes the spaces at both ends. *)
Definition TRIM (s : string) : string := rtrim (ltrim s).

(** CONCAT skips its NULL arguments. *)
Fixpoint CONCAT (args : list (option string)) : string :=
  match args with
  | [] => ""
  | Some s :: rest => s +:+ CONCAT rest
  | None :: rest => CONCAT rest
  end.

(** CAST(n AS VARCHAR) for an INTEGER. *)
Definition varchar_of_Z (n : Z) : string := pretty n.

(** *** Aggregates *)

(** COUNT( * ). *)
Definition COUNT_star {A : Type} (rows : list A) : Z := Z.of_nat (length rows).

(** The non-NULL inputs of an aggregate. *)
Definition non_null {A : Type} (xs : list (option A)) : list A := omap id xs.

Definition sum_Z (xs : list Z) : Z := foldr Z.add 0 xs.

(** AVG over an INTEGER column: NULL inputs are skipped, the exact integer
    sum is divided by the count as DOUBLE; no input at all gives NULL. *)
Definition AVG_integer (xs : list (option Z)) : option double :=
  match non_null xs with
  | [] => None
  | vs => Some (ddiv (double_of_Z (sum_Z vs)) (double_of_Z (COUNT_star vs)))
  end.

(** *** TRY_CAST

    The engine's casts from VARCHAR are taken as an interface: a text either
    has a value of the target type or it has none, and TRY_CAST gives NULL in
    the second case.  The development is stated for every such pair of casts. *)
Class TryCast := {
  cast_integer : string -> option Z;
  cast_double : string -> option double;
}.

Definition TRY_CAST_INTEGER `{TryCast} (x : option string) : option Z :=
  match x with
  | Some s => cast_integer s
  | None => None
  end.

Definition TRY_CAST_DOUBLE `{TryCast} (x : option string) : option double :=
  match x with
  | Some s => cast_double s
  | None => None
  end.

(** An instance for the examples, whose numbers are plain numerals: an
    optional sign and decimal digits, with one optional decimal point for a
    DOUBLE; INTEGER is 32 bits wide.  It is not the engine's pair of casts,
    which reads more texts (exponents, a decimal rounded to an INTEGER,
    digit separators, inf and nan); no theorem is stated for this instance
    alone. *)
Definition digit_of (c : ascii) : option Z :=
  let n := nat_of_ascii c in
  if (48 <=? n)%nat && (n <=? 57)%nat then Some (Z.of_nat (n - 48)) else None.

Fixpoint digits_value (acc : Z) (s : string) : option Z :=
  match s with
  | EmptyString => Some acc
  | String c s' =>
    match digit_of c with
    | Some d => digits_value (10 * acc + d) s'
    | None => None
    end
  end.

Definition unsigned_numeral (s : string) : option Z :=
  match s with
  | EmptyString => None
  | _ => digits_value 0 s
  end.

Fixpoint split_point (s : string) : string * string :=
  match s with
  | EmptyString => (EmptyString, EmptyString)
  | String "." s' => (EmptyString, s')
  | String c s' => let '(a, b) := split_point s' in (String c a, b)
  end.

Definition signed {A : Type} (neg : A -> A) (parse : string -> option A)
  (s : string) : option A :=
  match s with
  | String "-" s' => option_map neg (parse s')
  | String "+" s' => parse s'
  | _ => parse s
  end.

Definition integer_numeral (s : string) : option Z :=
  match signed Z.opp unsigned_numeral (TRIM s) with
  | Some n => if (- 2 ^ 31 <=? n) && (n <? 2 ^ 31) then Some n else None
  | None => None
  end.

Definition unsigned_decimal (s : string) : option double :=
  let '(a, b) := split_point s in
  match unsigned_numeral (a +:+ b) with
  | Some m => Some (decimal m (String.length b))
  | None => None
  end.

Definition double_numeral (s : string) : option double :=
  signed (SFopp) unsigned_decimal (TRIM s).

Definition numeral_casts : TryCast :=
  {| cast_integer := integer_numeral; cast_double := double_numeral |}.

(** ** Bronze: the landing table

    [read_csv_auto(..., header=true, all_varchar=true)] gives one row per
    record of the file, every column as text; a row is the finite map from
    the column names to the texts, an empty field being NULL (no entry).
    The header holds the names that the reader gives the columns. *)
Abbreviation RawRow := (gmap string string).

Record CsvFile := {
  header : list string;
  records : list RawRow;
}.

Record RawTable := {
  columns : list string;
  rows : list RawRow;
}.

(** [SELECT *, '{csv_path}' AS _source_file, CURRENT_TIMESTAMP AS _ingested_at].
    The time of the run, a timestamp in the engine, is carried as its text
    [now]; no query of the stages reads the column. *)
Definition landing_row (csv_path now : string) (r : RawRow) : RawRow :=
  <["_ingested_at" := now]> (<["_source_file" := csv_path]> r).

(** [CREATE TABLE bronze.epc_raw AS ...], on a file that could be read. *)
Definition bronze_epc_raw (csv_path now : string) (f : CsvFile) : RawTable :=
  {| columns := header f ++ ["_source_file"; "_ingested_at"];
     rows := map (landing_row csv_path now) (records f) |}.

(** ** Silver: the clean table *)

(** The columns of [silver.epc_clean] that the gold stage or a derived
    column reads.  The remaining columns of the source query (addresses,
    authority and constituency labels, flags, dates, the six efficiency
    labels) are renamed copies of landing columns and are left out. *)
Module Clean.
Record CleanRecord := {
  lmk_key : option string;
  property_type : option string;
  built_form : option string;
  construction_age_band : option string;
  tenure : option string;
  total_floor_area : option double;
  current_rating : option string;
  potential_rating : option string;
  current_efficiency : option Z;
  potential_efficiency : option Z;
  co2_current : option double;
  co2_potential : option double;
  heating_cost_current : option double;
  heating_cost_potential : option double;
  hot_water_cost_current : option double;
  hot_water_cost_potential : option double;
  lighting_cost_current : option double;
  lighting_cost_potential : option double;
  walls_description : option string;
  roof_description : option string;
  windows_description : option string;
  heating_description : option string;
  main_fuel : option string;
  walls_eff_score : option Z;
  roof_eff_score : option Z;
  windows_eff_score : option Z;
  heating_eff_score : option Z;
  hot_water_eff_score : option Z;
  lighting_eff_score : option Z;
  data_quality_score : option double;
}.
End Clean.
Export Clean(CleanRecord).

(** [ORDER BY LODGEMENT_DATETIME DESC] on the text column, NULLs last:
    does the timestamp [a] sort strictly before [b]? *)
Definition sorts_before (a b : option string) : bool :=
  match a, b with
  | Some x, Some y => String.ltb y x
  | Some _, None => true
  | None, _ => false
  end.

(** [PARTITION BY LMK_KEY]; the rows with a NULL key form one partition. *)
Definition same_partition (r r' : RawRow) : bool :=
  bool_decide (r !! "LMK_KEY" = r' !! "LMK_KEY").

Definition lodged (r : RawRow) : option string := r !! "LODGEMENT_DATETIME".

(** ROW_NUMBER() of the row [r] standing between the rows [before] and
    [after] of the landing table: one more than the number of rows of its
    partition that the window order puts in front of it.  Rows with equal
    timestamps keep their table order. *)
Definition row_number (before : list RawRow) (r : RawRow) (after : list RawRow)
  : nat :=
  S (length (List.filter
               (fun r' => same_partition r r' && negb (sorts_before (lodged r) (lodged r')))
               before)
     + length (List.filter
                 (fun r' => same_partition r r' && sorts_before (lodged r') (lodged r))
                 after)).

Fixpoint number_rows (before rest : list RawRow) : list (RawRow * nat) :=
  match rest with
  | [] => []
  | r :: after => (r, row_number before r after) :: number_rows (before ++ [r]) after
  end.

(** The CTE [deduped]: every landing row with its [_rn]. *)
Definition deduped (epc_raw : list RawRow) : list (RawRow * nat) :=
  number_rows [] epc_raw.

(** The WHERE clause of the CTE [base]. *)
Definition base_where (row : RawRow * nat) : bool :=
  let '(r, _rn) := row in
  (_rn =? 1)%nat
  && IS_NOT_NULL (r !! "CURRENT_ENERGY_EFFICIENCY")
  && IS_NOT_NULL (r !! "POTENTIAL_ENERGY_EFFICIENCY")
  && IS_NOT_NULL (r !! "PROPERTY_TYPE").

(** [CASE label WHEN 'Very Good' THEN 5 ... ELSE NULL END]. *)
Definition eff_score (label : option string) : option Z :=
  match label with
  | Some "Very Good" => Some 5
  | Some "Good" => Some 4
  | Some "Average" => Some 3
  | Some "Poor" => Some 2
  | Some "Very Poor" => Some 1
  | _ => None
  end.

(** [(x IS NOT NULL)::INT]. *)
Definition present {A : Type} (x : option A) : Z := Z.b2z (IS_NOT_NULL x).

(** [ROUND(100.0 * (...) / 8.0)]; the quotient is a DOUBLE. *)
Definition quality_score (non_null_count : Z) : double :=
  round_double
    (ddiv (dmul (decimal 1000 1) (double_of_Z non_null_count)) (decimal 80 1)) 0.

Section Normalizer.
Context `{TryCast} {letters : CaseFunctions}.

(** The select lists of [base] and of the final query, on one landing row. *)
Definition clean_row (r : RawRow) : CleanRecord :=
  let total_floor_area := TRY_CAST_DOUBLE (r !! "TOTAL_FLOOR_AREA") in
  {| Clean.lmk_key := r !! "LMK_KEY";
     Clean.property_type := r !! "PROPERTY_TYPE";
     Clean.built_form := r !! "BUILT_FORM";
     Clean.construction_age_band := r !! "CONSTRUCTION_AGE_BAND";
     Clean.tenure := r !! "TENURE";
     Clean.total_floor_area := total_floor_area;
     Clean.current_rating := option_map (fun s => UPPER (TRIM s)) (r !! "CURRENT_ENERGY_RATING");
     Clean.potential_rating := option_map (fun s => UPPER (TRIM s))
         (r !! "POTENTIAL_ENERGY_RATING");
     Clean.current_efficiency := TRY_CAST_INTEGER (r !! "CURRENT_ENERGY_EFFICIENCY");
     Clean.potential_efficiency := TRY_CAST_INTEGER (r !! "POTENTIAL_ENERGY_EFFICIENCY");
     Clean.co2_current := TRY_CAST_DOUBLE (r !! "CO2_EMISSIONS_CURRENT");
     Clean.co2_potential := TRY_CAST_DOUBLE (r !! "CO2_EMISSIONS_POTENTIAL");
     Clean.heating_cost_current := TRY_CAST_DOUBLE (r !! "HEATING_COST_CURRENT");
     Clean.heating_cost_potential := TRY_CAST_DOUBLE (r !! "HEATING_COST_POTENTIAL");
     Clean.hot_water_cost_current := TRY_CAST_DOUBLE (r !! "HOT_WATER_COST_CURRENT");
     Clean.hot_water_cost_potential := TRY_CAST_DOUBLE (r !! "HOT_WATER_COST_POTENTIAL");
     Clean.lighting_cost_current := TRY_CAST_DOUBLE (r !! "LIGHTING_COST_CURRENT");
     Clean.lighting_cost_potential := TRY_CAST_DOUBLE (r !! "LIGHTING_COST_POTENTIAL");
     Clean.walls_description := r !! "WALLS_DESCRIPTION";
     Clean.roof_description := r !! "ROOF_DESCRIPTION";
     Clean.windows_description := r !! "WINDOWS_DESCRIPTION";
     Clean.heating_description := r !! "MAINHEAT_DESCRIPTION";
     Clean.main_fuel := r !! "MAIN_FUEL";
     Clean.walls_eff_score := eff_score (r !! "WALLS_ENERGY_EFF");
     Clean.roof_eff_score := eff_score (r !! "ROOF_ENERGY_EFF");
     Clean.windows_eff_score := eff_score (r !! "WINDOWS_ENERGY_EFF");
     Clean.heating_eff_score := eff_score (r !! "MAINHEAT_ENERGY_EFF");
     Clean.hot_water_eff_score := eff_score (r !! "HOT_WATER_ENERGY_EFF");
     Clean.lighting_eff_score := eff_score (r !! "LIGHTING_ENERGY_EFF");
     Clean.data_quality_score :=
       Some (quality_score
               (present (r !! "WALLS_DESCRIPTION")
                + present (r !! "ROOF_DESCRIPTION")
                + present (r !! "WINDOWS_DESCRIPTION")
                + present (r !! "MAINHEAT_DESCRIPTION")
                + present total_floor_area
                + present (r !! "CONSTRUCTION_AGE_BAND")
                + present (r !! "TENURE")
                + present (r !! "MAIN_FUEL"))) |}.

(** The rows of [deduped] that the CTE [base] keeps. *)
Definition base (epc_raw : list RawRow) : list RawRow :=
  map fst (List.filter base_where (deduped epc_raw)).

(** [CREATE TABLE silver.epc_clean AS ...]. *)
Definition silver_epc_clean (epc_raw : list RawRow) : list CleanRecord :=
  map clean_row (base epc_raw).
End Normalizer.

(** ** Gold: features and portfolio aggregate *)

(** The columns of [gold.epc_features]; the copied columns that nothing
    below reads (uprn, postcode, authority, flags, the lodgement date) are
    left out, as in [CleanRecord]. *)
Module Feature.
Record FeatureRecord := {
  lmk_key : option string;
  property_type : option string;
  built_form : option string;
  construction_age_band : option string;
  tenure : option string;
  total_floor_area : option double;
  main_fuel : option string;
  current_rating : option string;
  current_efficiency : option Z;
  potential_rating : option string;
  potential_efficiency : option Z;
  retrofit_score : option Z;
  retrofit_priority : string;
  total_cost_current : double;
  total_cost_potential : double;
  annual_savings_potential : double;
  co2_saving_tonnes : option double;
  walls_eff_score : option Z;
  roof_eff_score : option Z;
  windows_eff_score : option Z;
  heating_eff_score : option Z;
  hot_water_eff_score : option Z;
  lighting_eff_score : option Z;
  walls_description : option string;
  roof_description : option string;
  windows_description : option string;
  heating_description : option string;
  data_quality_score : option double;
  text_summary : string;
}.
End Feature.
Export Feature(FeatureRecord).

(** The literal [0] next to a DOUBLE. *)
Definition zero : double := S754_zero false.

(** [CASE WHEN score >= 20 THEN 'High' WHEN score >= 10 THEN 'Medium' ELSE 'Low' END]. *)
Definition priority_of (score : option Z) : string :=
  if is_true3 (sql_ge score 20) then "High"
  else if is_true3 (sql_ge score 10) then "Medium"
  else "Low".

(** The CONCAT call that builds [text_summary]. *)
Definition summary_of {letters : CaseFunctions} (c : CleanRecord) : string :=
  CONCAT
    [ Some "This is a "; Some (LOWER (COALESCE (Clean.property_type c) "residential property"));
      Some " ("; Some (LOWER (COALESCE (Clean.built_form c) "unknown form")); Some ")";
      Some " built "; Some (LOWER (COALESCE
          (Clean.construction_age_band c) "in an unknown period")); Some ".";
      Some " It has an energy rating of "; Some (COALESCE (Clean.current_rating c) "?");
      Some " (efficiency score ";
      Some (COALESCE (option_map varchar_of_Z (Clean.current_efficiency c)) "?"); Some "/100)";
      Some " and could reach "; Some (COALESCE (Clean.potential_rating c) "?");
      Some " (";
      Some (COALESCE (option_map varchar_of_Z (Clean.potential_efficiency c)) "?");
      Some "/100) with improvements.";
      Some " Walls: "; Some (LOWER (COALESCE (Clean.walls_description c) "unknown")); Some ".";
      Some " Roof: "; Some (LOWER (COALESCE (Clean.roof_description c) "unknown")); Some ".";
      Some " Windows: "; Some (LOWER (COALESCE (Clean.windows_description c) "unknown")); Some ".";
      Some " Heating: "; Some (LOWER (COALESCE (Clean.heating_description c) "unknown")); Some ".";
      Some " Main fuel: "; Some (LOWER (COALESCE (Clean.main_fuel c) "unknown")); Some "." ].

(** The select list of [gold.epc_features] on one clean row.  INTEGER
    subtraction is exact here: the WHERE clause below bounds both operands. *)
Definition feature_row {letters : CaseFunctions} (c : CleanRecord) : FeatureRecord :=
  let score := lift2 Z.sub (Clean.potential_efficiency c) (Clean.current_efficiency c) in
  {| Feature.lmk_key := Clean.lmk_key c;
     Feature.property_type := Clean.property_type c;
     Feature.built_form := Clean.built_form c;
     Feature.construction_age_band := Clean.construction_age_band c;
     Feature.tenure := Clean.tenure c;
     Feature.total_floor_area := Clean.total_floor_area c;
     Feature.main_fuel := Clean.main_fuel c;
     Feature.current_rating := Clean.current_rating c;
     Feature.current_efficiency := Clean.current_efficiency c;
     Feature.potential_rating := Clean.potential_rating c;
     Feature.potential_efficiency := Clean.potential_efficiency c;
     Feature.retrofit_score := score;
     Feature.retrofit_priority := priority_of score;
     Feature.total_cost_current :=
       dadd (dadd (COALESCE (Clean.heating_cost_current c) zero)
                  (COALESCE (Clean.hot_water_cost_current c) zero))
            (COALESCE (Clean.lighting_cost_current c) zero);
     Feature.total_cost_potential :=
       dadd (dadd (COALESCE (Clean.heating_cost_potential c) zero)
                  (COALESCE (Clean.hot_water_cost_potential c) zero))
            (COALESCE (Clean.lighting_cost_potential c) zero);
     Feature.annual_savings_potential :=
       dadd (dadd (dsub (COALESCE (Clean.heating_cost_current c) zero)
                        (COALESCE (Clean.heating_cost_potential c) zero))
                  (dsub (COALESCE (Clean.hot_water_cost_current c) zero)
                        (COALESCE (Clean.hot_water_cost_potential c) zero)))
            (dsub (COALESCE (Clean.lighting_cost_current c) zero)
                  (COALESCE (Clean.lighting_cost_potential c) zero));
     Feature.co2_saving_tonnes :=
       ROUND (lift2 dsub (Clean.co2_current c) (Clean.co2_potential c)) 2;
     Feature.walls_eff_score := Clean.walls_eff_score c;
     Feature.roof_eff_score := Clean.roof_eff_score c;
     Feature.windows_eff_score := Clean.windows_eff_score c;
     Feature.heating_eff_score := Clean.heating_eff_score c;
     Feature.hot_water_eff_score := Clean.hot_water_eff_score c;
     Feature.lighting_eff_score := Clean.lighting_eff_score c;
     Feature.walls_description := Clean.walls_description c;
     Feature.roof_description := Clean.roof_description c;
     Feature.windows_description := Clean.windows_description c;
     Feature.heating_description := Clean.heating_description c;
     Feature.data_quality_score := Clean.data_quality_score c;
     Feature.text_summary := summary_of c |}.

(** [WHERE current_efficiency BETWEEN 1 AND 100
          AND potential_efficiency BETWEEN 1 AND 100]. *)
Definition features_where (c : CleanRecord) : bool :=
  is_true3 (sql_and (BETWEEN (Clean.current_efficiency c) 1 100)
                    (BETWEEN (Clean.potential_efficiency c) 1 100)).

(** [CREATE TABLE gold.epc_features AS ...]. *)
Definition gold_epc_features {letters : CaseFunctions}
    (epc_clean : list CleanRecord) : list FeatureRecord :=
  map feature_row (List.filter features_where epc_clean).

(** The key and the INTEGER-based columns of [gold.portfolio_agg].  The three
    aggregates over DOUBLE columns (average savings, total CO2 saving, average
    floor area) are left out: their value depends on the order in which the
    engine adds the group up. *)
Module Segment.
Record PortfolioSegment := {
  property_type : option string;
  construction_age_band : option string;
  retrofit_priority : string;
  property_count : Z;
  avg_current_efficiency : option double;
  avg_potential_efficiency : option double;
  avg_retrofit_score : option double;
}.
End Segment.
Export Segment(PortfolioSegment).

Definition segment_key : Type := option string * option string * string.

(** The GROUP BY columns of a feature row; NULLs group together. *)
Definition key_of (f : FeatureRecord) : segment_key :=
  (Feature.property_type f, Feature.construction_age_band f, Feature.retrofit_priority f).

Definition key_of_segment (s : PortfolioSegment) : segment_key :=
  (Segment.property_type s, Segment.construction_age_band s, Segment.retrofit_priority s).

(** The rows of one group. *)
Definition group_rows (k : segment_key) (features : list FeatureRecord)
  : list FeatureRecord :=
  filter (fun f => key_of f = k) features.

(** The select list of [gold.portfolio_agg] on the group of key [k]. *)
Definition segment_row (k : segment_key) (rows : list FeatureRecord)
  : PortfolioSegment :=
  {| Segment.property_type := k.1.1;
     Segment.construction_age_band := k.1.2;
     Segment.retrofit_priority := k.2;
     Segment.property_count := COUNT_star rows;
     Segment.avg_current_efficiency :=
       ROUND (AVG_integer (map Feature.current_efficiency rows)) 1;
     Segment.avg_potential_efficiency :=
       ROUND (AVG_integer (map Feature.potential_efficiency rows)) 1;
     Segment.avg_retrofit_score :=
       ROUND (AVG_integer (map Feature.retrofit_score rows)) 1 |}.

(** GROUP BY: one row for each key that occurs. *)
Definition grouped (features : list FeatureRecord) : list PortfolioSegment :=
  map (fun k => segment_row k (group_rows k features))
      (remove_dups (map key_of features)).

(** [ORDER BY avg_retrofit_score DESC], NULLs last: does [a] sort strictly
    before [b]? *)
Definition score_before (a b : option double) : bool :=
  match a, b with
  | Some x, Some y => SFltb y x
  | Some _, None => true
  | None, _ => false
  end.

Fixpoint insert_segment (s : PortfolioSegment) (sorted : list PortfolioSegment)
  : list PortfolioSegment :=
  match sorted with
  | [] => [s]
  | t :: rest =>
    if score_before (Segment.avg_retrofit_score s) (Segment.avg_retrofit_score t)
    then s :: sorted
    else t :: insert_segment s rest
  end.

Definition order_by_score (segments : list PortfolioSegment) : list PortfolioSegment :=
  foldr insert_segment [] segments.

(** [CREATE TABLE gold.portfolio_agg AS ...]. *)
Definition gold_portfolio_agg (features : list FeatureRecord) : list PortfolioSegment :=
  order_by_score (grouped features).

(** ** The store and the three runners

    The DuckDB file holds the four tables; a table that does not exist is
    [None].  Every [con.execute] is committed on its own, so a statement that
    raises leaves the effects of the statements before it in place. *)
Record Store := {
  schemas : gset string;
  bronze_table : option RawTable;
  silver_table : option (list CleanRecord);
  features_table : option (list FeatureRecord);
  agg_table : option (list PortfolioSegment);
}.

Inductive error :=
  | IOException          (* the CSV file cannot be read or parsed *)
  | CatalogException     (* a table is missing, or exists already *)
  | BinderException      (* a query names a column that its table has not *)
  | ConversionException. (* a value does not fit the type it is cast to *)

(** A run threads the store and may raise. *)
Definition Run (A : Type) : Type := Store -> Store * (error + A).

#[global] Instance run_ret : MRet Run := fun A a s => (s, inr a).

#[global] Instance run_bind : MBind Run := fun A B k m s =>
  match m s with
  | (s', inr a) => k a s'
  | (s', inl e) => (s', inl e)
  end.

Definition raise {A : Type} (e : error) : Run A := fun s => (s, inl e).
Definition get_store : Run Store := fun s => (s, inr s).
Definition put_store (s : Store) : Run unit := fun _ => (s, inr tt).

Definition set_schemas (v : gset string) (s : Store) : Store :=
  {| schemas := v; bronze_table := bronze_table s; silver_table := silver_table s;
     features_table := features_table s; agg_table := agg_table s |}.
Definition set_bronze (v : option RawTable) (s : Store) : Store :=
  {| schemas := schemas s; bronze_table := v; silver_table := silver_table s;
     features_table := features_table s; agg_table := agg_table s |}.
Definition set_silver (v : option (list CleanRecord)) (s : Store) : Store :=
  {| schemas := schemas s; bronze_table := bronze_table s; silver_table := v;
     features_table := features_table s; agg_table := agg_table s |}.
Definition set_features (v : option (list FeatureRecord)) (s : Store) : Store :=
  {| schemas := schemas s; bronze_table := bronze_table s; silver_table := silver_table s;
     features_table := v; agg_table := agg_table s |}.
Definition set_agg (v : option (list PortfolioSegment)) (s : Store) : Store :=
  {| schemas := schemas s; bronze_table := bronze_table s; silver_table := silver_table s;
     features_table := features_table s; agg_table := v |}.

(** [CREATE SCHEMA IF NOT EXISTS name]. *)
Definition create_schema (name : string) : Run unit := fun s =>
  (set_schemas ({[ name ]} ∪ schemas s) s, inr tt).

(** [DROP TABLE IF EXISTS t], for a table given by its setter. *)
Definition drop_table {T : Type} (set : option T -> Store -> Store) : Run unit :=
  fun s => (set None s, inr tt).

(** [CREATE TABLE t AS query]: the query is evaluated first and may raise;
    the name must be free. *)
Definition create_table_as {T : Type} (get : Store -> option T)
  (set : option T -> Store -> Store) (query : Run T) : Run unit :=
  rows ← query;
  s ← get_store;
  match get s with
  | Some _ => raise CatalogException
  | None => put_store (set (Some rows) s)
  end.

(** [FROM t]: the rows of a table that exists. *)
Definition from_table {T : Type} (get : Store -> option T) : Run T :=
  s ← get_store;
  match get s with
  | Some rows => mret rows
  | None => raise CatalogException
  end.

(** The CSV file as [read_csv_auto] sees it; [None] stands for a file that
    is missing, unreadable or not delimited text. *)
Definition read_csv_auto (file : option CsvFile) : Run CsvFile :=
  match file with
  | Some f => mret f
  | None => raise IOException
  end.

Record BronzeSummary := { bronze_rows : Z; bronze_columns : Z }.
Record SilverSummary := { silver_rows : Z; silver_dropped : Z }.
Record GoldSummary := { feature_rows : Z; agg_segments : Z }.

(** [bronze.run]. *)
Definition bronze_run (csv_path now : string) (file : option CsvFile)
  : Run BronzeSummary :=
  create_schema "bronze";;
  drop_table set_bronze;;
  create_table_as bronze_table set_bronze
    (f ← read_csv_auto file; mret (bronze_epc_raw csv_path now f));;
  epc_raw ← from_table bronze_table;
  mret {| bronze_rows := COUNT_star (rows epc_raw);
          bronze_columns := COUNT_star (columns epc_raw) |}.

(** The columns of [bronze.epc_raw] that the query of [silver.run] names. *)
Definition silver_columns : list string :=
  [ "LMK_KEY"; "LODGEMENT_DATETIME"; "BUILDING_REFERENCE_NUMBER"; "UPRN"; "ADDRESS1";
    "ADDRESS2"; "POSTCODE"; "POSTTOWN"; "LOCAL_AUTHORITY"; "LOCAL_AUTHORITY_LABEL";
    "CONSTITUENCY_LABEL"; "PROPERTY_TYPE"; "BUILT_FORM"; "CONSTRUCTION_AGE_BAND";
    "TENURE"; "TOTAL_FLOOR_AREA"; "NUMBER_HABITABLE_ROOMS"; "CURRENT_ENERGY_RATING";
    "POTENTIAL_ENERGY_RATING"; "CURRENT_ENERGY_EFFICIENCY";
    "POTENTIAL_ENERGY_EFFICIENCY"; "CO2_EMISSIONS_CURRENT"; "CO2_EMISSIONS_POTENTIAL";
    "HEATING_COST_CURRENT"; "HEATING_COST_POTENTIAL"; "HOT_WATER_COST_CURRENT";
    "HOT_WATER_COST_POTENTIAL"; "LIGHTING_COST_CURRENT"; "LIGHTING_COST_POTENTIAL";
    "WALLS_DESCRIPTION"; "ROOF_DESCRIPTION"; "WINDOWS_DESCRIPTION";
    "MAINHEAT_DESCRIPTION"; "HOTWATER_DESCRIPTION"; "LIGHTING_DESCRIPTION";
    "WALLS_ENERGY_EFF"; "ROOF_ENERGY_EFF"; "WINDOWS_ENERGY_EFF"; "MAINHEAT_ENERGY_EFF";
    "HOT_WATER_ENERGY_EFF"; "LIGHTING_ENERGY_EFF"; "MAIN_FUEL"; "MAINS_GAS_FLAG";
    "SOLAR_WATER_HEATING_FLAG"; "PHOTO_SUPPLY"; "INSPECTION_DATE"; "LODGEMENT_DATE";
    "TRANSACTION_TYPE" ].

(** The binder matches a column name without regard to the case of the
    ASCII letters. *)
Definition same_identifier (a b : string) : bool :=
  String.eqb (map_string lower_ascii a) (map_string lower_ascii b).

(** The column of the table that a name of the query is bound to. *)
Definition bound_column (columns : list string) (name : string) : option string :=
  List.find (same_identifier name) columns.

(** The names of the silver query that the table has no column for. *)
Definition unbound (columns : list string) : list string :=
  List.filter (fun name => negb (IS_NOT_NULL (bound_column columns name))) silver_columns.

(** What the query reads under a name on one landing row: the text of the
    column that the name is bound to. *)
Definition read_column (columns : list string) (r : RawRow) (name : string)
  : option string :=
  match bound_column columns name with
  | Some column => r !! column
  | None => None
  end.

(** A landing row as the silver query reads it, under the names of the
    query. *)
Definition as_named (columns : list string) (r : RawRow) : RawRow :=
  list_to_map
    (omap (fun name => option_map (pair name) (read_column columns r name))
          silver_columns).

(** The binding of the silver query to the landing table: it raises when a
    name has no column, before any row is read. *)
Definition bind_silver (epc_raw : RawTable) : Run (list RawRow) :=
  match unbound (columns epc_raw) with
  | [] => mret (map (as_named (columns epc_raw)) (rows epc_raw))
  | _ :: _ => raise BinderException
  end.

(** The silver query gives its row number the name [_rn].  Over a landing
    table with a column of that name the [_rn] of its WHERE clause would not
    mean the row number; such a table is left to the hypotheses of the
    properties of [silver.run]. *)
Definition plain_landing_table (s : Store) : Prop :=
  forall epc_raw, bronze_table s = Some epc_raw ->
                  bound_column (columns epc_raw) "_rn" = None.

(** [silver.run]. *)
Definition silver_run `{TryCast} {letters : CaseFunctions} : Run SilverSummary :=
  create_schema "silver";;
  drop_table set_silver;;
  create_table_as silver_table set_silver
    (epc_raw ← from_table bronze_table;
     named ← bind_silver epc_raw;
     mret (silver_epc_clean named));;
  epc_clean ← from_table silver_table;
  epc_raw ← from_table bronze_table;
  let row_count := COUNT_star epc_clean in
  let raw_count := COUNT_star (rows epc_raw) in
  mret {| silver_rows := row_count; silver_dropped := raw_count - row_count |}.

(** [gold.run]. *)
Definition gold_run {letters : CaseFunctions} : Run GoldSummary :=
  create_schema "gold";;
  drop_table set_features;;
  drop_table set_agg;;
  create_table_as features_table set_features
    (epc_clean ← from_table silver_table; mret (gold_epc_features epc_clean));;
  create_table_as agg_table set_agg
    (epc_features ← from_table features_table; mret (gold_portfolio_agg epc_features));;
  epc_features ← from_table features_table;
  portfolio_agg ← from_table agg_table;
  mret {| feature_rows := COUNT_star epc_features;
          agg_segments := COUNT_star portfolio_agg |}.

(** [run_pipeline.run]: the three stages in order; an exception of a stage
    ends the run. *)
Definition run_pipeline `{TryCast} {letters : CaseFunctions} (csv_path now : string)
    (file : option CsvFile)
  : Run (BronzeSummary * SilverSummary * GoldSummary) :=
  b ← bronze_run csv_path now file;
  s ← silver_run;
  g ← gold_run;
  mret (b, s, g).

(** ** The specification's words

    Predicates and functions that follow the wording of the specification;
    the theorems compare them with the queries above. *)

(** An efficiency is present and lies in [1,100]. *)
Definition in_range (x : option Z) : Prop :=
  match x with
  | Some v => 1 <= v <= 100
  | None => False
  end.

(** Both efficiencies are present and lie in [1,100]. *)
Definition efficiencies_in_range (c : CleanRecord) : Prop :=
  in_range (Clean.current_efficiency c) /\ in_range (Clean.potential_efficiency c).

#[global] Instance in_range_dec (x : option Z) : Decision (in_range x).
Proof. destruct x; simpl; apply _. Defined.

#[global] Instance efficiencies_in_range_dec (c : CleanRecord) :
  Decision (efficiencies_in_range c).
Proof. unfold efficiencies_in_range. apply _. Defined.

(** The lodgement text [a] is not later than [b]: texts compare as the
    engine compares VARCHAR, and a missing timestamp is the earliest. *)
Definition not_later (a b : option string) : Prop :=
  match a, b with
  | None, _ => True
  | Some _, None => False
  | Some x, Some y => String.leb x y = true
  end.

(** The three fields without which a landing row is not scored. *)
Definition mandatory_present (r : RawRow) : Prop :=
  r !! "CURRENT_ENERGY_EFFICIENCY" <> None
  /\ r !! "POTENTIAL_ENERGY_EFFICIENCY" <> None
  /\ r !! "PROPERTY_TYPE" <> None.

(** A cost that is NULL or a whole number, at most [2^50] in magnitude. *)
Definition whole_cost (x : option double) : Prop :=
  match x with
  | None => True
  | Some v => exists n, Z.abs n <= 2 ^ 50 /\ v = double_of_Z n
  end.



(** "Lowercased": every capital letter of the alphabet replaced by the
    small letter at the same place, every other character kept; and the
    other way round for upper case. *)
Definition capital_letters : string := "ABCDEFGHIJKLMNOPQRSTUVWXYZ".
Definition small_letters : string := "abcdefghijklmnopqrstuvwxyz".

Fixpoint translate (from to : string) (c : ascii) : ascii :=
  match from, to with
  | String a from', String b to' => if Ascii.eqb c a then b else translate from' to' c
  | _, _ => c
  end.

Definition lowercased (s : string) : string :=
  map_string (translate capital_letters small_letters) s.

Definition uppercased (s : string) : string :=
  map_string (translate small_letters capital_letters) s.




(** [n] spaces. *)
Fixpoint spaces (n : nat) : string :=
  match n with
  | O => ""
  | S n' => String " " (spaces n')
  end.


(** How many of the fields are non-NULL. *)
Definition count_present (fields : list bool) : Z :=
  Z.of_nat (length (List.filter id fields)).

(** The eight fields that the data quality score looks at. *)
Definition quality_fields (c : CleanRecord) : list bool :=
  [ IS_NOT_NULL (Clean.walls_description c); IS_NOT_NULL (Clean.roof_description c);
    IS_NOT_NULL (Clean.windows_description c); IS_NOT_NULL (Clean.heating_description c);
    IS_NOT_NULL (Clean.total_floor_area c); IS_NOT_NULL (Clean.construction_age_band c);
    IS_NOT_NULL (Clean.tenure c); IS_NOT_NULL (Clean.main_fuel c) ].

(** [round(100 * n / total)] as an integer, a half rounding up. *)
Definition rounded_percentage (n total : Z) : Z :=
  (2 * 100 * n + total) / (2 * total).

(** ** Sample tables *)

(** A landing row from its non-empty fields. *)
Definition row_of (fields : list (string * string)) : RawRow := list_to_map fields.

(** A landing row with the columns that decide whether and how it is scored. *)
Definition certificate (key lodged current potential : string) : RawRow :=
  row_of
  [ ("LMK_KEY", key); ("LODGEMENT_DATETIME", lodged);
    ("CURRENT_ENERGY_EFFICIENCY", current); ("POTENTIAL_ENERGY_EFFICIENCY", potential);
    ("PROPERTY_TYPE", "Flat") ].

(** The record of the specification's end-to-end example. *)
Definition example_fields : list (string * string) :=
  [ ("LMK_KEY", "k0"); ("LODGEMENT_DATETIME", "2021-03-01 09:30:00");
    ("PROPERTY_TYPE", "House"); ("BUILT_FORM", "Semi-Detached");
    ("CURRENT_ENERGY_RATING", "d"); ("POTENTIAL_ENERGY_RATING", "B");
    ("CURRENT_ENERGY_EFFICIENCY", "58"); ("POTENTIAL_ENERGY_EFFICIENCY", "82");
    ("HEATING_COST_CURRENT", "800"); ("HEATING_COST_POTENTIAL", "500");
    ("HOT_WATER_COST_CURRENT", "200"); ("HOT_WATER_COST_POTENTIAL", "150");
    ("LIGHTING_COST_CURRENT", "100"); ("LIGHTING_COST_POTENTIAL", "80");
    ("CO2_EMISSIONS_CURRENT", "4.2"); ("CO2_EMISSIONS_POTENTIAL", "2.1");
    ("WALLS_DESCRIPTION", "Cavity wall, filled cavity"); ("TOTAL_FLOOR_AREA", "85.5");
    ("MAIN_FUEL", "mains gas") ].

Definition example_row : RawRow := row_of example_fields.

(** A file with every column that the silver query names, and the example
    record. *)
Definition example_file : CsvFile :=
  {| header := silver_columns; records := [example_row] |}.

Definition example_clean : list CleanRecord :=
  silver_epc_clean (H := numeral_casts) (letters := ascii_case) [example_row].

Definition example_feature : FeatureRecord :=
  feature_row (letters := ascii_case) (clean_row (H := numeral_casts)
      (letters := ascii_case) example_row).

(** A record whose potential efficiency is below the current one. *)
Definition downgraded_clean : list CleanRecord :=
  silver_epc_clean (H := numeral_casts)
      (letters := ascii_case) [certificate "k1" "2020-05-05" "70" "64"].

(** A record with fractional costs: 0.50, 1.10 and 3.30 now, 0.50 each after
    the improvements. *)
Definition fractional_costs : RawRow :=
  row_of
  [ ("LMK_KEY", "k2"); ("LODGEMENT_DATETIME", "2022-01-10 12:00:00");
    ("PROPERTY_TYPE", "Flat"); ("CURRENT_ENERGY_EFFICIENCY", "60");
    ("POTENTIAL_ENERGY_EFFICIENCY", "75"); ("HEATING_COST_CURRENT", "0.5");
    ("HEATING_COST_POTENTIAL", "0.5"); ("HOT_WATER_COST_CURRENT", "1.1");
    ("HOT_WATER_COST_POTENTIAL", "0.5"); ("LIGHTING_COST_CURRENT", "3.3");
    ("LIGHTING_COST_POTENTIAL", "0.5") ].

Definition fractional_feature : FeatureRecord :=
  feature_row (letters := ascii_case) (clean_row (H := numeral_casts)
      (letters := ascii_case) fractional_costs).

(** A record whose current efficiency is a text that is not a number. *)
Definition uncoercible_row : RawRow := certificate "u1" "2021-06-01" "N/A" "80".

(** Two certificates of one property; the later one has no property type. *)
Definition superseded : list RawRow :=
  [ certificate "d1" "2019-04-01 10:00:00" "55" "70";
    delete "PROPERTY_TYPE" (certificate "d1" "2021-04-01 10:00:00" "60" "72") ].

(** Two complete certificates of one property, the later one first. *)
Definition relodged : list RawRow :=
  [ certificate "d2" "2021-04-01 10:00:00" "60" "72";
    certificate "d2" "2019-04-01 10:00:00" "55" "70" ].

(** A store left by an earlier run over the example record. *)
Definition earlier_store : Store :=
  {| schemas := {[ "bronze"; "silver"; "gold" ]};
     bronze_table := Some (bronze_epc_raw "certificates.csv" "2024-01-01 00:00:00" example_file);
     silver_table := Some example_clean;
     features_table := Some (gold_epc_features (letters := ascii_case) example_clean);
     agg_table := Some (gold_portfolio_agg (gold_epc_features
         (letters := ascii_case) example_clean)) |}.

(** Three flats of one age band with the retrofit scores 1, 1 and 2. *)
Definition three_flats : list RawRow :=
  [ certificate "f1" "2020-01-01" "50" "51"; certificate "f2" "2020-01-02" "50" "51";
    certificate "f3" "2020-01-03" "50" "52" ].

Definition three_flats_features : list FeatureRecord :=
  gold_epc_features (letters := ascii_case) (silver_epc_clean (H := numeral_casts)
      (letters := ascii_case) three_flats).


(** ** Further vocabulary for the properties of the stages *)

(** The five-point scale of the efficiency labels, from the worst to the
    best; a label scores its place on the scale. *)
Definition five_point_scale : list string :=
  ["Very Poor"; "Poor"; "Average"; "Good"; "Very Good"].

(** A landing column and the clean column derived from it, for the six
    efficiency labels. *)
Definition label_and_score (r : RawRow) (c : CleanRecord)
  : list (option string * option Z) :=
  [ (r !! "WALLS_ENERGY_EFF", Clean.walls_eff_score c);
    (r !! "ROOF_ENERGY_EFF", Clean.roof_eff_score c);
    (r !! "WINDOWS_ENERGY_EFF", Clean.windows_eff_score c);
    (r !! "MAINHEAT_ENERGY_EFF", Clean.heating_eff_score c);
    (r !! "HOT_WATER_ENERGY_EFF", Clean.hot_water_eff_score c);
    (r !! "LIGHTING_ENERGY_EFF", Clean.lighting_eff_score c) ].

(** ORDER BY with a given "sorts strictly before": a row is put in front of
    the first row that it sorts before.  The engine leaves the order of rows
    that tie open; no property below depends on it. *)
Fixpoint insert_by {A : Type} (before : A -> A -> bool) (x : A) (sorted : list A)
  : list A :=
  match sorted with
  | [] => [x]
  | y :: rest => if before x y then x :: sorted else y :: insert_by before x rest
  end.

Definition order_by {A : Type} (before : A -> A -> bool) (rows : list A) : list A :=
  foldr (insert_by before) [] rows.

(** No row sorts strictly before the row in front of it. *)
Fixpoint ordered {A : Type} (before : A -> A -> bool) (rows : list A) : Prop :=
  match rows with
  | a :: (b :: _) as rest => before b a = false /\ ordered before rest
  | _ => True
  end.

(** ** The query service: [src/api/db.py] and [src/api/main.py]

    A handler is modelled as the Python function it is: it returns a value
    or raises.  The bounds that FastAPI checks on query parameters before it
    calls the handler are hypotheses of the theorems. *)
Inductive raised :=
  | HTTPException (status_code : Z)
  | QueryError (e : error)   (* [con.execute] failed *)
  | ValidationError          (* a response model rejected a value *)
  | LoadError.               (* the model files could not be loaded *)

(** [db.query] over a table of the store: the rows, or the catalog error of
    a table that does not exist. *)
Definition query_table {T : Type} (table : option T) : raised + T :=
  match table with
  | Some rows => inr rows
  | None => inl (QueryError CatalogException)
  end.

(** [column = ?] with a text parameter. *)
Definition sql_eq (x : option string) (v : string) : option bool :=
  match x with
  | Some a => Some (bool_decide (a = v))
  | None => None
  end.

(** [LIMIT n] and [OFFSET n], for a count that the engine accepts. *)
Definition LIMIT {A : Type} (n : Z) (rows : list A) : list A := take (Z.to_nat n) rows.
Definition OFFSET {A : Type} (n : Z) (rows : list A) : list A := drop (Z.to_nat n) rows.

(** The engine casts the number after LIMIT or OFFSET to a 64-bit integer,
    and the query raises when the number does not fit. *)
Definition row_count_literal (n : Z) : raised + Z :=
  if n <? 2 ^ 63 then inr n else inl (QueryError ConversionException).

(** The truth value of an optional text parameter in [if priority]: absent
    and empty are both false. *)
Definition truthy (x : option string) : bool :=
  match x with
  | None => false
  | Some s => negb (String.eqb s "")
  end.

(** [ORDER BY retrofit_score DESC] on the INTEGER column, NULLs last. *)
Definition integer_before (a b : option Z) : bool :=
  match a, b with
  | Some x, Some y => y <? x
  | Some _, None => true
  | None, _ => false
  end.

(** The response model [PropertyDetail], without the postcode, which the
    feature rows of this development do not carry.  The key is required;
    every other field is optional. *)
Module Detail.
Record PropertyDetail := {
  lmk_key : string;
  property_type : option string;
  built_form : option string;
  construction_age_band : option string;
  tenure : option string;
  current_rating : option string;
  current_efficiency : option Z;
  potential_rating : option string;
  potential_efficiency : option Z;
  retrofit_score : option double;
  retrofit_priority : option string;
  annual_savings_potential : option double;
  co2_saving_tonnes : option double;
  total_floor_area : option double;
  main_fuel : option string;
  data_quality_score : option double;
}.
End Detail.
Export Detail(PropertyDetail).

(** [PropertyDetail( **dict(zip(cols, row)))]: a NULL key does not validate,
    the INTEGER score becomes a float. *)
Definition property_detail (row : FeatureRecord) : raised + PropertyDetail :=
  match Feature.lmk_key row with
  | None => inl ValidationError
  | Some key =>
    inr {| Detail.lmk_key := key;
           Detail.property_type := Feature.property_type row;
           Detail.built_form := Feature.built_form row;
           Detail.construction_age_band := Feature.construction_age_band row;
           Detail.tenure := Feature.tenure row;
           Detail.current_rating := Feature.current_rating row;
           Detail.current_efficiency := Feature.current_efficiency row;
           Detail.potential_rating := Feature.potential_rating row;
           Detail.potential_efficiency := Feature.potential_efficiency row;
           Detail.retrofit_score := option_map double_of_Z (Feature.retrofit_score row);
           Detail.retrofit_priority := Some (Feature.retrofit_priority row);
           Detail.annual_savings_potential := Some (Feature.annual_savings_potential row);
           Detail.co2_saving_tonnes := Feature.co2_saving_tonnes row;
           Detail.total_floor_area := Feature.total_floor_area row;
           Detail.main_fuel := Feature.main_fuel row;
           Detail.data_quality_score := Feature.data_quality_score row |}
  end.

(** A list comprehension over a constructor that may raise: the first
    failure ends it. *)
Fixpoint each {A B : Type} (f : A -> raised + B) (rows : list A) : raised + list B :=
  match rows with
  | [] => inr []
  | row :: rest =>
    match f row with
    | inl e => inl e
    | inr b =>
      match each f rest with
      | inl e => inl e
      | inr bs => inr (b :: bs)
      end
    end
  end.

(** The query of [get_property]: [WHERE lmk_key = ? LIMIT 1]. *)
Definition property_rows (features : list FeatureRecord) (lmk_key : string)
  : list FeatureRecord :=
  LIMIT 1 (List.filter (fun f => is_true3 (sql_eq (Feature.lmk_key f) lmk_key)) features).

(** [get_property]. *)
Definition get_property (s : Store) (lmk_key : string) : raised + PropertyDetail :=
  match query_table (features_table s) with
  | inl e => inl e
  | inr features =>
    match property_rows features lmk_key with
    | [] => inl (HTTPException 404)
    | row :: _ => property_detail row
    end
  end.

(** The WHERE clause of [list_properties]: there is one only if the
    parameter is given and not empty. *)
Definition selected_rows (features : list FeatureRecord) (priority : option string)
  : list FeatureRecord :=
  if truthy priority
  then List.filter
         (fun f => is_true3 (sql_eq (Some (Feature.retrofit_priority f))
                                    (COALESCE priority "")))
         features
  else features.

(** The query of [list_properties]. *)
Definition listed_rows (features : list FeatureRecord)
  (priority : option string) (limit offset : Z) : list FeatureRecord :=
  LIMIT limit
    (OFFSET offset
       (order_by (fun f g => integer_before (Feature.retrofit_score f)
                                            (Feature.retrofit_score g))
                 (selected_rows features priority))).

(** [list_properties]. *)
Definition list_properties (s : Store) (priority : option string) (limit offset : Z)
  : raised + list PropertyDetail :=
  match query_table (features_table s) with
  | inl e => inl e
  | inr features =>
    match row_count_literal limit, row_count_literal offset with
    | inr limit, inr offset =>
      each property_detail (listed_rows features priority limit offset)
    | inl e, _ | _, inl e => inl e
    end
  end.

(** The WHERE clause that [portfolio] assembles from its two parameters. *)
Definition portfolio_where (property_type priority : option string)
  (row : PortfolioSegment) : bool :=
  (if truthy property_type
   then is_true3 (sql_eq (Segment.property_type row) (COALESCE property_type ""))
   else true)
  && (if truthy priority
      then is_true3 (sql_eq (Some (Segment.retrofit_priority row)) (COALESCE priority ""))
      else true).

(** [portfolio]; the response rows have the columns of [PortfolioSegment]. *)
Definition portfolio (s : Store) (property_type priority : option string)
  : raised + list PortfolioSegment :=
  match query_table (agg_table s) with
  | inl e => inl e
  | inr segments =>
    inr (order_by_score (List.filter (portfolio_where property_type priority) segments))
  end.

(** SUM over an INTEGER column: NULL when there is no input. *)
Definition SUM_integer (xs : list (option Z)) : option Z :=
  match non_null xs with
  | [] => None
  | vs => Some (sum_Z vs)
  end.

(** [SUM(CASE WHEN retrofit_priority = label THEN 1 ELSE 0 END)]. *)
Definition priority_count (label : string) (features : list FeatureRecord) : option Z :=
  SUM_integer
    (map (fun f => Some (if is_true3 (sql_eq (Some (Feature.retrofit_priority f)) label)
                         then 1 else 0))
         features).

(** The headline figures of [summary_stats] that are counts or averages of
    INTEGER columns; the two sums over DOUBLE columns are left out, as in
    [PortfolioSegment]. *)
Record SummaryStats := {
  total_properties : Z;
  summary_avg_current_efficiency : option double;
  summary_avg_retrofit_score : option double;
  high_priority_count : option Z;
  medium_priority_count : option Z;
  low_priority_count : option Z;
}.

(** [summary_stats]. *)
Definition summary_stats (s : Store) : raised + SummaryStats :=
  match query_table (features_table s) with
  | inl e => inl e
  | inr features =>
    inr {| total_properties := COUNT_star features;
           summary_avg_current_efficiency :=
             ROUND (AVG_integer (map Feature.current_efficiency features)) 1;
           summary_avg_retrofit_score :=
             ROUND (AVG_integer (map Feature.retrofit_score features)) 1;
           high_priority_count := priority_count "High" features;
           medium_priority_count := priority_count "Medium" features;
           low_priority_count := priority_count "Low" features |}
  end.

Record HealthResponse := {
  status : string;
  model_loaded : bool;
  db_connected : bool;
  property_count : Z;
}.

(** [health].  The predictor is what [get_predictor] gives: the loaded model,
    or the exception of a model that cannot be loaded, which [health] does
    not catch. *)
Definition health {P : Type} (s : Store) (get_predictor : raised + P)
  : raised + HealthResponse :=
  let '(count, db_ok) :=
    match query_table (features_table s) with
    | inr features => (COUNT_star features, true)
    | inl _ => (0, false)
    end in
  match get_predictor with
  | inl e => inl e
  | inr _ =>
    let model_ok := true in
    inr {| status := if db_ok && model_ok then "ok" else "degraded";
           model_loaded := model_ok;
           db_connected := db_ok;
           property_count := count |}
  end.

(** ** The predictor: [src/api/predictor.py]

    Python's [min(a, b)] and [max(a, b)] keep the first argument unless the
    second compares strictly below, respectively above, it; a comparison with
    NaN is false. *)
Definition py_min (a b : double) : double := if SFltb b a then b else a.
Definition py_max (a b : double) : double := if SFltb a b then b else a.

(** The integer nearest to [num / den], halfway cases to the even one. *)
Definition nearest_even (num den : Z) : Z :=
  let q := num / den in
  match 2 * (num mod den) ?= den with
  | Lt => q
  | Gt => q + 1
  | Eq => if Z.even q then q else q + 1
  end.

(** Python's [round(x, ndigits)] on a float: the exact value of [x] is
    rounded to [ndigits] decimals, halfway cases to even, and the result is
    the double nearest to that decimal; the sign of [x] is kept on a zero
    result, and zeros, infinities and NaN are returned as they are. *)
Definition py_round (x : double) (ndigits : nat) : double :=
  match x with
  | S754_finite s m e =>
    let scale := 10 ^ Z.of_nat ndigits in
    let n := if 0 <=? e then Zpos m * 2 ^ e * scale
             else nearest_even (Zpos m * scale) (2 ^ (- e)) in
    if n =? 0 then S754_zero s else double_of_ratio (cond_Zopp s n) (Z.to_pos scale)
  | _ => x
  end.

Record Prediction := { predicted_score : double; predicted_priority : string }.

(** [Predictor.predict].  What precedes the clamp, lines 48 to 63: the
    encoders, the normalisation and the network of [src/models], is the
    function [model] from the request to the float that [.item()] gives. *)
Definition predict {Request : Type} (model : Request -> double) (request : Request)
  : Prediction :=
  let score := model request in
  let score := py_round (py_max (S754_zero false) (py_min (double_of_Z 100) score)) 2 in
  let priority :=
    if SFleb (double_of_Z 20) score then "High"
    else if SFleb (double_of_Z 10) score then "Medium"
    else "Low" in
  {| predicted_score := score; predicted_priority := priority |}.

(** ** The dashboard: [src/dashboard/app.py]

    [SUM(CASE WHEN retrofit_priority='High' THEN 1 END)]: without ELSE the
    CASE is NULL on every other row. *)
Definition SUM_case_high (features : list FeatureRecord) : option Z :=
  SUM_integer
    (map (fun f => if is_true3 (sql_eq (Some (Feature.retrofit_priority f)) "High")
                   then Some 1 else None)
         features).

Module Dashboard.
Record Summary := {
  total : Z;
  avg_efficiency : option double;
  avg_retrofit_score : option double;
  high_count : option Z;
}.
End Dashboard.

(** [load_summary], without the two sums over DOUBLE columns. *)
Definition load_summary (s : Store) : raised + Dashboard.Summary :=
  match query_table (features_table s) with
  | inl e => inl e
  | inr features =>
    inr {| Dashboard.total := COUNT_star features;
           Dashboard.avg_efficiency :=
             ROUND (AVG_integer (map Feature.current_efficiency features)) 1;
           Dashboard.avg_retrofit_score :=
             ROUND (AVG_integer (map Feature.retrofit_score features)) 1;
           Dashboard.high_count := SUM_case_high features |}
  end.

(** [load_priority_dist]: the rows of each priority counted, the larger
    counts first. *)
Definition load_priority_dist (s : Store) : raised + list (string * Z) :=
  match query_table (features_table s) with
  | inl e => inl e
  | inr features =>
    inr (order_by (fun a b => snd b <? snd a)
           (map (fun k => (k, COUNT_star
                                (filter (fun f => Feature.retrofit_priority f = k) features)))
                (remove_dups (map Feature.retrofit_priority features))))
  end.

(** ** More sample tables *)

(** A certificate with efficiency labels and ratings as they come in files. *)
Definition labelled_row : RawRow :=
  row_of
  [ ("LMK_KEY", "k7"); ("LODGEMENT_DATETIME", "2020-07-07 07:00:00");
    ("PROPERTY_TYPE", "Bungalow"); ("CURRENT_ENERGY_EFFICIENCY", "45");
    ("POTENTIAL_ENERGY_EFFICIENCY", "71"); ("CURRENT_ENERGY_RATING", " e ");
    ("POTENTIAL_ENERGY_RATING", "c"); ("WALLS_ENERGY_EFF", "Good");
    ("ROOF_ENERGY_EFF", "very good"); ("WINDOWS_ENERGY_EFF", "Very Poor");
    ("MAINHEAT_ENERGY_EFF", "N/A") ].

(** A file with every column that the silver query names, and the three
    flats for records; the store after a first run over it. *)
Definition flats_file : CsvFile :=
  {| header := silver_columns; records := three_flats |}.

Definition empty_store : Store :=
  {| schemas := ∅; bronze_table := None; silver_table := None;
     features_table := None; agg_table := None |}.

Definition flats_store : Store :=
  fst (run_pipeline (H := numeral_casts)
      (letters := ascii_case) "certificates.csv" "2024-03-01 08:00:00"
         (Some flats_file) empty_store).

(** The same file after its landing, and after the silver stage. *)
Definition flats_landed : Store :=
  fst (bronze_run "certificates.csv" "2024-03-01 08:00:00" (Some flats_file) empty_store).

Definition flats_cleaned : Store :=
  fst (silver_run (H := numeral_casts) (letters := ascii_case) flats_landed).

(** A file with five of the columns, landed over the store of the run
    before. *)
Definition five_column_file : CsvFile :=
  {| header := ["LMK_KEY"; "LODGEMENT_DATETIME"; "CURRENT_ENERGY_EFFICIENCY";
                "POTENTIAL_ENERGY_EFFICIENCY"; "PROPERTY_TYPE"];
     records := three_flats |}.

Definition five_column_store : Store :=
  fst (bronze_run "five.csv" "2024-03-02 08:00:00" (Some five_column_file) flats_store).

(** Certificates of two property types and three priorities. *)
Definition mixed_stock : list RawRow :=
  [ certificate "f1" "2020-01-01" "50" "51"; certificate "f2" "2020-01-02" "40" "75";
    example_row; certificate "f3" "2020-01-03" "60" "72" ].

Definition mixed_store : Store :=
  fst (run_pipeline (H := numeral_casts)
      (letters := ascii_case) "certificates.csv" "2024-03-01 08:00:00"
         (Some {| header := header flats_file; records := mixed_stock |}) empty_store).

Definition mixed_features : list FeatureRecord :=
  gold_epc_features (letters := ascii_case) (silver_epc_clean (H := numeral_casts)
      (letters := ascii_case) mixed_stock).

(** ** DOUBLE arithmetic on integers is exact below 2^53 *)

Lemma digits2_log2 (p : positive) : Zpos (digits2_pos p) = Z.log2 (Zpos p) + 1.
Proof.
  assert (Hs : forall q, digits2_pos q = Pos.size q) by (induction q; simpl; congruence).
  destruct p; simpl; rewrite ?Hs; lia.
Qed.

Lemma Zdigits2_shift (m : Z) (k : Z) :
  0 < m -> 0 <= k -> Zdigits2 (m * 2 ^ k) = Zdigits2 m + k.
Proof.
  intros Hm Hk.
  assert (Hp : 0 < m * 2 ^ k) by (apply Z.mul_pos_pos; [lia|apply Z.pow_pos_nonneg; lia]).
  destruct m as [|p|p]; try lia.
  destruct (Zpos p * 2 ^ k) as [|q|q] eqn:Hq; try lia.
  unfold Zdigits2. rewrite !digits2_log2, <- Hq, Z.log2_mul_pow2 by lia. lia.
Qed.

Lemma iter_pos_iter {A} (f : A -> A) (p : positive) (x : A) :
  SpecFloat.iter_pos f p x = Pos.iter f x p.
Proof.
  revert x. induction p as [p IH|p IH|]; intros x; simpl.
  - rewrite !IH. rewrite <- !Pos.iter_swap. reflexivity.
  - rewrite !IH. reflexivity.
  - reflexivity.
Qed.

Lemma shr_1_even (m : Z) :
  0 < m -> shr_1 (Build_shr_record (2 * m) false false) = Build_shr_record m false false.
Proof. intros Hm. destruct m; try lia. reflexivity. Qed.

Lemma iter_shr_exact (j : positive) (m : Z) :
  0 < m ->
  SpecFloat.iter_pos shr_1 j (Build_shr_record (m * 2 ^ Zpos j) false false)
  = Build_shr_record m false false.
Proof.
  intros Hm. rewrite iter_pos_iter. revert m Hm.
  induction j as [|j IH] using Pos.peano_ind; intros m Hm.
  - change (2 ^ 1) with 2. rewrite Z.mul_comm. apply shr_1_even, Hm.
  - rewrite Pos.iter_succ.
    replace (m * 2 ^ Zpos (Pos.succ j)) with ((2 * m) * 2 ^ Zpos j).
    + rewrite IH by lia. apply shr_1_even, Hm.
    + rewrite Pos2Z.inj_succ, Z.pow_succ_r by lia. ring.
Qed.

Lemma shr_exact (m e t : Z) :
  0 < m -> 0 <= t ->
  shr (Build_shr_record (m * 2 ^ t) false false) e t
  = (Build_shr_record m false false, e + t).
Proof.
  intros Hm Ht. destruct t as [|t|t]; try lia.
  - simpl. rewrite Z.mul_1_r, Z.add_0_r. reflexivity.
  - unfold shr. rewrite iter_shr_exact by lia. reflexivity.
Qed.

Lemma fexp_small (d : Z) : -1021 <= d -> fexp prec emax d = d - 53.
Proof. intros Hd. unfold fexp, emin, prec, emax. lia. Qed.

(** An exactly representable value [n * 2^t] with [n] of 53 digits. *)
Lemma binary_round_aux_exact (s : bool) (n : positive) (e t : Z) :
  Zdigits2 (Zpos n) = 53 -> 0 <= t -> -1074 <= e + t <= 971 ->
  binary_round_aux prec emax s (Zpos n * 2 ^ t) e loc_Exact = S754_finite s n (e + t).
Proof.
  intros Hd Ht He.
  assert (Hdig : Zdigits2 (Zpos n * 2 ^ t) = 53 + t) by (rewrite Zdigits2_shift; lia).
  unfold binary_round_aux, shr_fexp.
  rewrite Hdig, fexp_small by lia.
  replace (53 + t + e - 53 - e) with t by lia.
  cbn [shr_record_of_loc].
  rewrite shr_exact by lia.
  cbn [shr_m loc_of_shr_record round_nearest_even].
  rewrite Hd, fexp_small by lia.
  replace (53 + (e + t) - 53 - (e + t)) with 0 by lia.
  cbn [shr_record_of_loc shr shr_m].
  replace (e + t <=? emax - prec) with true; [reflexivity|].
  symmetry. apply Z.leb_le. unfold emax, prec. lia.
Qed.

Lemma shl_align_spec (mx : positive) (ex ez : Z) :
  ez <= ex ->
  Zpos (fst (shl_align mx ex ez)) = Zpos mx * 2 ^ (ex - ez)
  /\ snd (shl_align mx ex ez) = ez.
Proof.
  intros Hle. unfold shl_align.
  destruct (ez - ex) as [|q|q] eqn:Hq; try lia.
  - replace (ex - ez) with 0 by lia. simpl. split; lia.
  - replace (ex - ez) with (Zpos q) by lia. cbn [fst snd]. split; [|reflexivity].
    change (Pos.iter xO mx q) with (shift_pos q mx).
    rewrite shift_pos_correct. change (Zpower_pos 2 q) with (2 ^ Zpos q). lia.
Qed.

Lemma Zdigits2_bound (n : positive) : Zpos n < 2 ^ 53 -> 1 <= Zdigits2 (Zpos n) <= 53.
Proof.
  intros Hn. unfold Zdigits2. rewrite digits2_log2.
  assert (0 <= Z.log2 (Zpos n)) by apply Z.log2_nonneg.
  assert (Z.log2 (Zpos n) < 53) by (apply Z.log2_lt_pow2; lia).
  lia.
Qed.

Lemma mantissa53_spec (n : positive) :
  Zpos n < 2 ^ 53 ->
  Zpos (mantissa53 n) = Zpos n * 2 ^ (53 - Zdigits2 (Zpos n))
  /\ Zdigits2 (Zpos (mantissa53 n)) = 53.
Proof.
  intros Hn. pose proof (Zdigits2_bound n Hn) as Hd.
  assert (Hpos : 0 < Zpos n * 2 ^ (53 - Zdigits2 (Zpos n)))
    by (apply Z.mul_pos_pos; [lia|apply Z.pow_pos_nonneg; lia]).
  unfold mantissa53. rewrite Z2Pos.id by exact Hpos. split; [reflexivity|].
  rewrite Zdigits2_shift; lia.
Qed.

(** Rounding [n * 2^j], written with the exponent [ex], when [n] has at most
    53 digits: nothing is lost. *)
Lemma binary_round_exact (s : bool) (mx n : positive) (ex j : Z) :
  0 <= j -> Zpos mx = Zpos n * 2 ^ j -> Zpos n < 2 ^ 53 ->
  -1074 <= ex + j + Zdigits2 (Zpos n) - 53 <= 971 ->
  binary_round prec emax s mx ex
  = S754_finite s (mantissa53 n) (ex + j + Zdigits2 (Zpos n) - 53).
Proof.
  intros Hj Hmx Hn He.
  pose proof (Zdigits2_bound n Hn) as Hd.
  destruct (mantissa53_spec n Hn) as [Hm Hm53].
  set (d := Zdigits2 (Zpos n)) in *.
  assert (Hdig : Zpos (digits2_pos mx) = d + j).
  { change (Zpos (digits2_pos mx)) with (Zdigits2 (Zpos mx)).
    rewrite Hmx, Zdigits2_shift by lia. reflexivity. }
  unfold binary_round. rewrite Hdig, fexp_small by lia.
  destruct (Z_le_gt_dec (d + j + ex - 53) ex) as [Hle|Hgt].
  - destruct (shl_align_spec mx ex (d + j + ex - 53) Hle) as [Hf Hs].
    destruct (shl_align mx ex (d + j + ex - 53)) as [mz ez]. cbn [fst snd] in Hf, Hs.
    subst ez.
    assert (Hmz : mz = mantissa53 n).
    { apply Pos2Z.inj. rewrite Hf, Hm, Hmx, <- Z.mul_assoc, <- Z.pow_add_r by lia.
      f_equal. f_equal. lia. }
    subst mz.
    replace (Zpos (mantissa53 n)) with (Zpos (mantissa53 n) * 2 ^ 0) by (simpl; lia).
    rewrite binary_round_aux_exact by lia.
    f_equal. lia.
  - unfold shl_align.
    destruct (d + j + ex - 53 - ex) as [|q|q] eqn:Hq; try lia.
    replace (Zpos mx) with (Zpos (mantissa53 n) * 2 ^ (d + j - 53)).
    + rewrite binary_round_aux_exact by lia. f_equal. lia.
    + rewrite Hm, Hmx, <- Z.mul_assoc, <- Z.pow_add_r by lia. f_equal. f_equal. lia.
Qed.

Lemma double_of_Z_pos (n : positive) :
  Zpos n < 2 ^ 53 ->
  double_of_Z (Zpos n) = S754_finite false (mantissa53 n) (Zdigits2 (Zpos n) - 53).
Proof.
  intros Hn. pose proof (Zdigits2_bound n Hn) as Hd.
  unfold double_of_Z, binary_normalize.
  rewrite (binary_round_exact false n n 0 0) by lia.
  f_equal.
Qed.

Lemma double_of_Z_neg (n : positive) :
  Zpos n < 2 ^ 53 ->
  double_of_Z (Zneg n) = S754_finite true (mantissa53 n) (Zdigits2 (Zpos n) - 53).
Proof.
  intros Hn. pose proof (Zdigits2_bound n Hn) as Hd.
  unfold double_of_Z, binary_normalize.
  rewrite (binary_round_exact true n n 0 0) by lia.
  f_equal.
Qed.

(** Normalising the integer [n], scaled by [2^j] and written with the
    exponent [-j], gives the double of [n]. *)
Lemma binary_normalize_scaled (n j : Z) :
  Z.abs n < 2 ^ 53 -> 0 <= j <= 1000 ->
  binary_normalize prec emax (n * 2 ^ j) (- j) false = double_of_Z n.
Proof.
  intros Hn Hj.
  assert (H2 : 0 < 2 ^ j) by (apply Z.pow_pos_nonneg; lia).
  destruct n as [|p|p].
  - reflexivity.
  - pose proof (Zdigits2_bound p ltac:(lia)) as Hd.
    rewrite double_of_Z_pos by lia.
    destruct (Zpos p * 2 ^ j) as [|m|m] eqn:Hm; try lia.
    unfold binary_normalize.
    rewrite (binary_round_exact false m p (- j) j) by lia.
    f_equal. lia.
  - pose proof (Zdigits2_bound p ltac:(lia)) as Hd.
    rewrite double_of_Z_neg by lia.
    destruct (Zneg p * 2 ^ j) as [|m|m] eqn:Hm; try lia.
    unfold binary_normalize.
    rewrite (binary_round_exact true m p (- j) j) by lia.
    f_equal. lia.
Qed.

(** The double of a non-zero integer below [2^53] in magnitude. *)
Lemma double_of_Z_finite (n : Z) :
  n <> 0 -> Z.abs n < 2 ^ 53 ->
  exists m e,
    double_of_Z n = S754_finite (n <? 0) m e
    /\ -52 <= e <= 0 /\ Zpos m = Z.abs n * 2 ^ (- e).
Proof.
  intros Hn0 Hn. destruct n as [|p|p]; [congruence| |].
  - pose proof (Zdigits2_bound p ltac:(lia)) as Hd.
    destruct (mantissa53_spec p ltac:(lia)) as [Hm _].
    exists (mantissa53 p), (Zdigits2 (Zpos p) - 53).
    rewrite double_of_Z_pos by lia. split; [reflexivity|]. split; [lia|].
    rewrite Hm. change (Z.abs (Z.neg p)) with (Z.pos p). change (Z.abs (Z.pos p)) with (Z.pos p).
    f_equal. f_equal. lia.
  - pose proof (Zdigits2_bound p ltac:(lia)) as Hd.
    destruct (mantissa53_spec p ltac:(lia)) as [Hm _].
    exists (mantissa53 p), (Zdigits2 (Zpos p) - 53).
    rewrite double_of_Z_neg by lia. split; [reflexivity|]. split; [lia|].
    rewrite Hm. change (Z.abs (Z.neg p)) with (Z.pos p). change (Z.abs (Z.pos p)) with (Z.pos p).
    f_equal. f_equal. lia.
Qed.

Lemma cond_Zopp_abs (n : Z) (k : Z) :
  cond_Zopp (n <? 0) (Z.abs n * k) = n * k.
Proof. unfold cond_Zopp. destruct (Z.ltb_spec n 0); lia. Qed.

(** The mantissa of [n], aligned to the exponent [ez]. *)
Lemma aligned_mantissa (n : Z) (m : positive) (e ez : Z) :
  Zpos m = Z.abs n * 2 ^ (- e) -> ez <= e <= 0 ->
  cond_Zopp (n <? 0) (Zpos (fst (shl_align m e ez))) = n * 2 ^ (- ez).
Proof.
  intros Hm He.
  destruct (shl_align_spec m e ez ltac:(lia)) as [Hf _].
  rewrite Hf, Hm, <- Z.mul_assoc, <- Z.pow_add_r by lia.
  replace (- e + (e - ez)) with (- ez) by lia.
  apply cond_Zopp_abs.
Qed.

Lemma double_of_Z_shape (n : Z) :
  Z.abs n < 2 ^ 53 ->
  double_of_Z n = S754_zero false
  \/ exists s m e, double_of_Z n = S754_finite s m e.
Proof.
  intros Hn. destruct n as [|p|p].
  - left. reflexivity.
  - right. rewrite double_of_Z_pos by lia. eauto.
  - right. rewrite double_of_Z_neg by lia. eauto.
Qed.

(** Addition of integers is exact below [2^53]. *)
Lemma dadd_double_of_Z (a b : Z) :
  Z.abs a < 2 ^ 53 -> Z.abs b < 2 ^ 53 -> Z.abs (a + b) < 2 ^ 53 ->
  dadd (double_of_Z a) (double_of_Z b) = double_of_Z (a + b).
Proof.
  intros Ha Hb Hab.
  destruct (Z.eq_dec a 0) as [->|Ha0]; [|destruct (Z.eq_dec b 0) as [->|Hb0]].
  - change (double_of_Z 0) with (S754_zero false). rewrite Z.add_0_l.
    destruct (double_of_Z_shape b Hb) as [->|(s & m & e & ->)]; reflexivity.
  - change (double_of_Z 0) with (S754_zero false). rewrite Z.add_0_r.
    destruct (double_of_Z_shape a Ha) as [->|(s & m & e & ->)]; reflexivity.
  - destruct (double_of_Z_finite a Ha0 Ha) as (ma & ea & -> & Hea & Hma).
    destruct (double_of_Z_finite b Hb0 Hb) as (mb & eb & -> & Heb & Hmb).
    unfold dadd, SFadd.
    rewrite (aligned_mantissa a ma ea _ Hma), (aligned_mantissa b mb eb _ Hmb) by lia.
    rewrite <- Z.mul_add_distr_r.
    set (j := - Z.min ea eb). replace (Z.min ea eb) with (- j) by lia.
    apply binary_normalize_scaled; lia.
Qed.

(** So is subtraction. *)
Lemma dsub_double_of_Z (a b : Z) :
  Z.abs a < 2 ^ 53 -> Z.abs b < 2 ^ 53 -> Z.abs (a - b) < 2 ^ 53 ->
  dsub (double_of_Z a) (double_of_Z b) = double_of_Z (a - b).
Proof.
  intros Ha Hb Hab.
  destruct (Z.eq_dec b 0) as [->|Hb0]; [|destruct (Z.eq_dec a 0) as [->|Ha0]].
  - change (double_of_Z 0) with (S754_zero false). rewrite Z.sub_0_r.
    destruct (double_of_Z_shape a Ha) as [->|(s & m & e & ->)]; reflexivity.
  - change (double_of_Z 0) with (S754_zero false). rewrite Z.sub_0_l.
    destruct b as [|p|p]; [congruence| |].
    + rewrite double_of_Z_pos by lia. change (- Z.pos p) with (Z.neg p).
      rewrite double_of_Z_neg by lia.
      reflexivity.
    + rewrite double_of_Z_neg by lia. change (- Z.neg p) with (Z.pos p).
      rewrite double_of_Z_pos by lia.
      reflexivity.
  - destruct (double_of_Z_finite a Ha0 Ha) as (ma & ea & -> & Hea & Hma).
    destruct (double_of_Z_finite b Hb0 Hb) as (mb & eb & -> & Heb & Hmb).
    unfold dsub, SFsub.
    rewrite (aligned_mantissa a ma ea _ Hma), (aligned_mantissa b mb eb _ Hmb) by lia.
    rewrite <- Z.mul_sub_distr_r.
    set (j := - Z.min ea eb). replace (Z.min ea eb) with (- j) by lia.
    apply binary_normalize_scaled; lia.
Qed.

(** ** Gold: properties of the feature table *)

Lemma between_in_range (x : option Z) :
  is_true3 (BETWEEN x 1 100) = true <-> in_range x.
Proof.
  unfold BETWEEN, sql_ge. destruct x as [v|]; simpl; [|split; [discriminate|tauto]].
  destruct (1 <=? v) eqn:H1, (v <=? 100) eqn:H2; simpl;
    try apply Z.leb_le in H1; try apply Z.leb_le in H2;
    try apply Z.leb_gt in H1; try apply Z.leb_gt in H2;
    split; intros; try discriminate; try lia; reflexivity.
Qed.

Lemma is_true3_and (p q : option bool) :
  is_true3 (sql_and p q) = true <-> is_true3 p = true /\ is_true3 q = true.
Proof. destruct p as [[]|], q as [[]|]; simpl; intuition discriminate. Qed.

Lemma features_where_in_range (c : CleanRecord) :
  features_where c = true <-> efficiencies_in_range c.
Proof.
  unfold features_where, efficiencies_in_range.
  rewrite is_true3_and, !between_in_range. reflexivity.
Qed.

Lemma in_range_value (x : option Z) :
  in_range x -> exists v, x = Some v /\ 1 <= v <= 100.
Proof. destruct x as [v|]; simpl; [eauto|tauto]. Qed.

Lemma in_gold_epc_features {letters : CaseFunctions} (clean : list CleanRecord)
    (f : FeatureRecord) :
  In f (gold_epc_features clean) <->
  exists c, In c clean /\ efficiencies_in_range c /\ f = feature_row c.
Proof.
  unfold gold_epc_features. rewrite in_map_iff. split.
  - intros (c & <- & Hc). apply filter_In in Hc as [Hin Hw].
    exists c. rewrite <- features_where_in_range. auto.
  - intros (c & Hin & Hr & ->). exists c. split; [reflexivity|].
    apply filter_In. rewrite features_where_in_range. auto.
Qed.

Lemma priority_of_score (score : Z) :
  (priority_of (Some score) = "High" <-> 20 <= score)
  /\ (priority_of (Some score) = "Medium" <-> 10 <= score <= 19)
  /\ (priority_of (Some score) = "Low" <-> score <= 9).
Proof.
  unfold priority_of, sql_ge, is_true3.
  destruct (20 <=? score) eqn:H20; [|destruct (10 <=? score) eqn:H10].
  - apply Z.leb_le in H20. repeat split; intros; try discriminate; try lia; reflexivity.
  - apply Z.leb_le in H10. apply Z.leb_gt in H20.
    repeat split; intros; try discriminate; try lia; reflexivity.
  - apply Z.leb_gt in H10. apply Z.leb_gt in H20.
    repeat split; intros; try discriminate; try lia; reflexivity.
Qed.

(** C3.  On every row of [gold.epc_features] the retrofit score is an integer
    and the priority is High exactly when the score is at least 20, Medium
    exactly when it lies between 10 and 19, and Low exactly when it is at most
    9, negative scores included. *)
Theorem retrofit_priority_buckets {letters : CaseFunctions} (clean : list CleanRecord)
    (f : FeatureRecord) :
  In f (gold_epc_features clean) ->
  exists score,
    Feature.retrofit_score f = Some score
    /\ (Feature.retrofit_priority f = "High" <-> 20 <= score)
    /\ (Feature.retrofit_priority f = "Medium" <-> 10 <= score <= 19)
    /\ (Feature.retrofit_priority f = "Low" <-> score <= 9).
Proof.
  intros Hf. apply in_gold_epc_features in Hf as (c & _ & Hr & ->).
  destruct Hr as [Hce Hpe].
  apply in_range_value in Hce as (ce & Hce & _), Hpe as (pe & Hpe & _).
  exists (pe - ce). simpl. rewrite Hce, Hpe. simpl.
  split; [reflexivity|]. apply priority_of_score.
Qed.

Lemma retrofit_priority_buckets_witness :
  In example_feature (gold_epc_features (letters := ascii_case) example_clean)
  /\ exists score,
       Feature.retrofit_score example_feature = Some score
       /\ (Feature.retrofit_priority example_feature = "High" <-> 20 <= score)
       /\ (Feature.retrofit_priority example_feature = "Medium" <-> 10 <= score <= 19)
       /\ (Feature.retrofit_priority example_feature = "Low" <-> score <= 9).
Proof.
  split; [vm_compute; left; reflexivity|].
  apply (retrofit_priority_buckets (letters := ascii_case) example_clean example_feature).
  vm_compute. left. reflexivity.
Defined.

(** The boundary scores, each on a one-row table: 20 gives High, 19 and 10
    give Medium, 9 and a negative score give Low. *)
Example priority_at_the_boundaries :
  map (fun f => (Feature.retrofit_score f, Feature.retrofit_priority f))
      (gold_epc_features (letters := ascii_case)
         (silver_epc_clean (H := numeral_casts) (letters := ascii_case)
            [ certificate "a" "2020-01-01" "50" "70"; certificate "b" "2020-01-01" "50" "69";
              certificate "c" "2020-01-01" "50" "60"; certificate "d" "2020-01-01" "50" "59";
              certificate "e" "2020-01-01" "50" "45" ]))
  = [ (Some 20, "High"); (Some 19, "Medium"); (Some 10, "Medium"); (Some 9, "Low");
      (Some (-5), "Low") ].
Proof. vm_compute. reflexivity. Qed.

(** C6.  [gold.epc_features] has exactly one row, in table order, for each
    row of the clean table whose two efficiencies are present and in [1,100],
    and no other row; the row copies the key and the efficiencies, and its
    retrofit score is the potential minus the current efficiency, which is
    negative on some tables. *)
Theorem features_one_row_per_clean_row_in_range {letters : CaseFunctions} :
  (forall clean : list CleanRecord,
     Forall2
       (fun c f =>
          Feature.lmk_key f = Clean.lmk_key c
          /\ exists ce pe,
               Clean.current_efficiency c = Some ce
               /\ Clean.potential_efficiency c = Some pe
               /\ Feature.current_efficiency f = Some ce
               /\ Feature.potential_efficiency f = Some pe
               /\ Feature.retrofit_score f = Some (pe - ce))
       (filter efficiencies_in_range clean)
       (gold_epc_features clean))
  /\ (exists clean f score,
        In f (gold_epc_features clean)
        /\ Feature.retrofit_score f = Some score /\ score < 0).
Proof.
  split.
  - intros clean. unfold gold_epc_features.
    induction clean as [|c clean IH]; simpl; [constructor|].
    rewrite filter_cons.
    destruct (decide (efficiencies_in_range c)) as [Hr|Hr].
    + pose proof Hr as Hw. apply features_where_in_range in Hw. rewrite Hw. simpl.
      constructor; [|exact IH].
      destruct Hr as [Hce Hpe].
      apply in_range_value in Hce as (ce & Hce & _), Hpe as (pe & Hpe & _).
      split; [reflexivity|]. exists ce, pe. simpl. rewrite Hce, Hpe. auto.
    + destruct (features_where c) eqn:Hw; [|exact IH].
      apply features_where_in_range in Hw. contradiction.
  - exists downgraded_clean, (feature_row (clean_row (H := numeral_casts)
                                  (certificate "k1" "2020-05-05" "70" "64"))), (-6).
    split; [vm_compute; left; reflexivity|].
    split; [vm_compute; reflexivity|lia].
Qed.









(** The summary of the specification's example record. *)
Example text_summary_example :
  Feature.text_summary example_feature =
  "This is a house (semi-detached) built in an unknown period. It has an energy rating of D (efficiency score 58/100) and could reach B (82/100) with improvements. Walls: cavity wall, filled cavity. Roof: unknown. Windows: unknown. Heating: unknown. Main fuel: mains gas.".
Proof. vm_compute. reflexivity. Qed.



(** The descriptive fields of the example record have capital letters, which
    the summary has not. *)
Example text_summary_lowercased_example :
  Feature.property_type example_feature = Some "House"
  /\ Feature.built_form example_feature = Some "Semi-Detached"
  /\ Feature.walls_description example_feature = Some "Cavity wall, filled cavity"
  /\ lowercased "Semi-Detached" = "semi-detached"
  /\ lowercased "Cavity wall, filled cavity" = "cavity wall, filled cavity".
Proof. vm_compute. repeat split. Qed.

(** C10.  On every row of [gold.epc_features] the CO2 saving is NULL exactly
    when the current or the potential CO2 figure of its clean row is NULL;
    when both are present it is their difference rounded to two decimals. *)
Theorem co2_saving_null_iff {letters : CaseFunctions} (clean : list CleanRecord)
    (f : FeatureRecord) :
  In f (gold_epc_features clean) ->
  exists c,
    In c clean /\ f = feature_row c
    /\ (Feature.co2_saving_tonnes f = None
        <-> Clean.co2_current c = None \/ Clean.co2_potential c = None)
    /\ (forall a b, Clean.co2_current c = Some a -> Clean.co2_potential c = Some b ->
          Feature.co2_saving_tonnes f = Some (round_double (dsub a b) 2)).
Proof.
  intros Hf. apply in_gold_epc_features in Hf as (c & Hc & _ & ->).
  exists c. split; [exact Hc|]. split; [reflexivity|]. simpl.
  destruct (Clean.co2_current c) as [a|], (Clean.co2_potential c) as [b|]; simpl.
  - split; [split; [discriminate|intros [|]; discriminate]|].
    intros ? ? [= <-] [= <-]. reflexivity.
  - split; [tauto|discriminate].
  - split; [tauto|discriminate].
  - split; [tauto|discriminate].
Qed.

Lemma co2_saving_null_iff_witness :
  In example_feature (gold_epc_features (letters := ascii_case) example_clean)
  /\ exists c,
       In c example_clean /\ example_feature = feature_row (letters := ascii_case) c
       /\ (Feature.co2_saving_tonnes example_feature = None
           <-> Clean.co2_current c = None \/ Clean.co2_potential c = None)
       /\ (forall a b, Clean.co2_current c = Some a -> Clean.co2_potential c = Some b ->
             Feature.co2_saving_tonnes example_feature = Some (round_double (dsub a b) 2)).
Proof.
  split; [vm_compute; left; reflexivity|].
  apply (co2_saving_null_iff (letters := ascii_case) example_clean example_feature).
  vm_compute. left. reflexivity.
Defined.

(** The CO2 saving of the specification's example: 4.2 - 2.1 gives 2.1. *)
Example co2_saving_example :
  Feature.co2_saving_tonnes example_feature = Some (decimal 21 1).
Proof. vm_compute. reflexivity. Qed.

(** ** Gold: the cost columns *)

Lemma dsub_zero (x : double) : dsub x zero = x.
Proof. destruct x as [[]|[]| |]; reflexivity. Qed.

(** C4, as stated, fails on fractional costs.  With 0.5, 1.1 and 3.3 now and
    0.5 each after the improvements, the per-category sum is 3.4 and the
    difference of the totals is the next double above 3.4. *)
Lemma savings_differ_from_totals_on_fractions :
  In fractional_feature
     (gold_epc_features (letters := ascii_case) (silver_epc_clean (H := numeral_casts)
         (letters := ascii_case) [fractional_costs]))
  /\ Feature.annual_savings_potential fractional_feature = decimal 34 1
  /\ dsub (Feature.total_cost_current fractional_feature)
          (Feature.total_cost_potential fractional_feature)
     = decimal 34000000000000004 16
  /\ Feature.annual_savings_potential fractional_feature
     <> dsub (Feature.total_cost_current fractional_feature)
             (Feature.total_cost_potential fractional_feature).
Proof.
  split; [vm_compute; left; reflexivity|].
  split; [vm_compute; reflexivity|].
  split; [vm_compute; reflexivity|].
  vm_compute. discriminate.
Qed.

Lemma COALESCE_whole (x : option double) :
  whole_cost x -> exists n, Z.abs n <= 2 ^ 50 /\ COALESCE x zero = double_of_Z n.
Proof.
  destruct x as [v|]; simpl.
  - intros (n & Hn & ->). eauto.
  - intros _. exists 0. split; [lia|reflexivity].
Qed.

(** C4, amended.  On every row of [gold.epc_features] the annual saving, the
    per-category sum, equals the current total minus the potential total when
    the three potential costs are NULL (the potential total is then 0 and the
    saving is the sum of the current costs), and when every cost that is
    present is a whole number of magnitude at most [2^50]. *)
Theorem annual_savings_is_difference_of_totals {letters : CaseFunctions}
  (clean : list CleanRecord) (f : FeatureRecord) :
  In f (gold_epc_features clean) ->
  exists c,
    In c clean /\ f = feature_row c
    /\ (Clean.heating_cost_potential c = None ->
        Clean.hot_water_cost_potential c = None ->
        Clean.lighting_cost_potential c = None ->
        Feature.total_cost_potential f = zero
        /\ Feature.annual_savings_potential f
           = dsub (Feature.total_cost_current f) (Feature.total_cost_potential f)
        /\ forall h w l,
             Clean.heating_cost_current c = Some h ->
             Clean.hot_water_cost_current c = Some w ->
             Clean.lighting_cost_current c = Some l ->
             Feature.annual_savings_potential f = dadd (dadd h w) l)
    /\ (whole_cost (Clean.heating_cost_current c) ->
        whole_cost (Clean.heating_cost_potential c) ->
        whole_cost (Clean.hot_water_cost_current c) ->
        whole_cost (Clean.hot_water_cost_potential c) ->
        whole_cost (Clean.lighting_cost_current c) ->
        whole_cost (Clean.lighting_cost_potential c) ->
        Feature.annual_savings_potential f
        = dsub (Feature.total_cost_current f) (Feature.total_cost_potential f)).
Proof.
  intros Hf. apply in_gold_epc_features in Hf as (c & Hc & _ & ->).
  exists c. split; [exact Hc|]. split; [reflexivity|].
  cbn [Feature.total_cost_potential Feature.total_cost_current
       Feature.annual_savings_potential feature_row].
  split.
  - intros -> -> ->. cbn [COALESCE]. rewrite !dsub_zero.
    change (dadd (dadd zero zero) zero) with zero. rewrite ?dsub_zero.
    split; [reflexivity|]. split; [reflexivity|].
    intros h w l -> -> ->. reflexivity.
  - intros H1 H2 H3 H4 H5 H6.
    apply COALESCE_whole in H1 as (hc & Hhc & ->), H2 as (hp & Hhp & ->),
      H3 as (wc & Hwc & ->), H4 as (wp & Hwp & ->),
      H5 as (lc & Hlc & ->), H6 as (lp & Hlp & ->).
    assert (H50 : 2 ^ 50 * 8 = 2 ^ 53) by reflexivity.
    rewrite !dsub_double_of_Z, !dadd_double_of_Z, !dsub_double_of_Z by lia.
    f_equal. lia.
Qed.

Lemma annual_savings_is_difference_of_totals_witness :
  In example_feature (gold_epc_features (letters := ascii_case) example_clean)
  /\ exists c,
       In c example_clean /\ example_feature = feature_row (letters := ascii_case) c
       /\ (Clean.heating_cost_potential c = None ->
           Clean.hot_water_cost_potential c = None ->
           Clean.lighting_cost_potential c = None ->
           Feature.total_cost_potential example_feature = zero
           /\ Feature.annual_savings_potential example_feature
              = dsub (Feature.total_cost_current example_feature)
                     (Feature.total_cost_potential example_feature)
           /\ forall h w l,
                Clean.heating_cost_current c = Some h ->
                Clean.hot_water_cost_current c = Some w ->
                Clean.lighting_cost_current c = Some l ->
                Feature.annual_savings_potential example_feature = dadd (dadd h w) l)
       /\ (whole_cost (Clean.heating_cost_current c) ->
           whole_cost (Clean.heating_cost_potential c) ->
           whole_cost (Clean.hot_water_cost_current c) ->
           whole_cost (Clean.hot_water_cost_potential c) ->
           whole_cost (Clean.lighting_cost_current c) ->
           whole_cost (Clean.lighting_cost_potential c) ->
           Feature.annual_savings_potential example_feature
           = dsub (Feature.total_cost_current example_feature)
                  (Feature.total_cost_potential example_feature)).
Proof.
  split; [vm_compute; left; reflexivity|].
  apply (annual_savings_is_difference_of_totals
      (letters := ascii_case) example_clean example_feature).
  vm_compute. left. reflexivity.
Defined.

(** The costs of the specification's example are whole numbers: the saving
    is (800 - 500) + (200 - 150) + (100 - 80) = 370, and so is the difference
    of the totals 1100 and 730. *)
Example annual_savings_example :
  Feature.annual_savings_potential example_feature = double_of_Z 370
  /\ Feature.total_cost_current example_feature = double_of_Z 1100
  /\ Feature.total_cost_potential example_feature = double_of_Z 730.
Proof. vm_compute. auto. Qed.

(** With the potential costs NULL the saving is the sum of the current costs. *)
Example annual_savings_without_potential_costs :
  let f := feature_row (letters := ascii_case)
             (clean_row (H := numeral_casts) (letters := ascii_case)
                (row_of [ ("CURRENT_ENERGY_EFFICIENCY", "40");
                    ("POTENTIAL_ENERGY_EFFICIENCY", "60");
                          ("HEATING_COST_CURRENT", "810.5"); ("HOT_WATER_COST_CURRENT", "120.25");
                          ("LIGHTING_COST_CURRENT", "99.9") ])) in
  Feature.annual_savings_potential f
  = dadd (dadd (decimal 8105 1) (decimal 12025 2)) (decimal 999 1)
  /\ Feature.total_cost_potential f = zero.
Proof. vm_compute. auto. Qed.

(** ** Gold: the portfolio aggregate *)

Lemma in_insert_segment (s t : PortfolioSegment) (sorted : list PortfolioSegment) :
  In t (insert_segment s sorted) <-> t = s \/ In t sorted.
Proof.
  induction sorted as [|u rest IH]; simpl.
  - intuition.
  - destruct (score_before _ _); simpl; [intuition|]. rewrite IH. intuition.
Qed.

Lemma in_order_by_score (t : PortfolioSegment) (segments : list PortfolioSegment) :
  In t (order_by_score segments) <-> In t segments.
Proof.
  unfold order_by_score. induction segments as [|s rest IH]; simpl; [tauto|].
  rewrite in_insert_segment, IH. intuition.
Qed.

Lemma insert_segment_permutation (s : PortfolioSegment) (sorted : list PortfolioSegment) :
  Permutation (insert_segment s sorted) (s :: sorted).
Proof.
  induction sorted as [|t rest IH]; simpl; [reflexivity|].
  destruct (score_before _ _); [reflexivity|].
  rewrite IH. apply perm_swap.
Qed.

Lemma order_by_score_permutation (segments : list PortfolioSegment) :
  Permutation (order_by_score segments) segments.
Proof.
  unfold order_by_score. induction segments as [|s rest IH]; simpl; [reflexivity|].
  rewrite insert_segment_permutation, IH. reflexivity.
Qed.

Lemma key_of_segment_row (k : segment_key) (rows : list FeatureRecord) :
  key_of_segment (segment_row k rows) = k.
Proof. destruct k as [[? ?] ?]. reflexivity. Qed.

Lemma in_grouped (features : list FeatureRecord) (s : PortfolioSegment) :
  In s (grouped features) <->
  exists f, In f features /\ s = segment_row (key_of f) (group_rows (key_of f) features).
Proof.
  unfold grouped. rewrite in_map_iff. split.
  - intros (k & <- & Hk).
    apply list_elem_of_In, elem_of_remove_dups, list_elem_of_In, in_map_iff in Hk
      as (f & <- & Hf).
    eauto.
  - intros (f & Hf & ->). exists (key_of f). split; [reflexivity|].
    apply list_elem_of_In, elem_of_remove_dups, list_elem_of_In, in_map_iff. eauto.
Qed.

Lemma grouped_keys (features : list FeatureRecord) :
  map key_of_segment (grouped features) = remove_dups (map key_of features).
Proof.
  unfold grouped. rewrite map_map.
  erewrite map_ext; [apply map_id|].
  intros k. apply key_of_segment_row.
Qed.

Lemma in_gold_portfolio_agg (features : list FeatureRecord) (s : PortfolioSegment) :
  In s (gold_portfolio_agg features) <->
  exists f, In f features /\ s = segment_row (key_of f) (group_rows (key_of f) features).
Proof. unfold gold_portfolio_agg. rewrite in_order_by_score. apply in_grouped. Qed.

Lemma non_null_all_present {A B : Type} (g : A -> option B) (rows : list A) :
  (forall r, In r rows -> exists v, g r = Some v) ->
  exists vs, Forall2 (fun r v => g r = Some v) rows vs /\ non_null (map g rows) = vs.
Proof.
  unfold non_null. induction rows as [|r rows IH]; intros Hall.
  - exists []. split; [constructor|reflexivity].
  - destruct (Hall r (or_introl eq_refl)) as (v & Hv).
    destruct IH as (vs & Hvs & Heq); [intros; apply Hall; right; assumption|].
    exists (v :: vs). split; [constructor; assumption|].
    simpl. rewrite Hv. simpl. f_equal. exact Heq.
Qed.

Lemma AVG_integer_all_present (vs : list Z) (xs : list (option Z)) :
  non_null xs = vs -> vs <> [] ->
  AVG_integer xs = Some (ddiv (double_of_Z (sum_Z vs)) (double_of_Z (COUNT_star vs))).
Proof.
  intros Hvs Hne. unfold AVG_integer. rewrite Hvs.
  destruct vs; [congruence|reflexivity].
Qed.




(** ** The window order *)

Lemma ltb_compare (x y : string) : String.ltb x y = true <-> String.compare x y = Lt.
Proof. unfold String.ltb. destruct (String.compare x y); intuition discriminate. Qed.

Lemma ltb_trans (x y z : string) :
  String.ltb x y = true -> String.ltb y z = true -> String.ltb x z = true.
Proof.
  rewrite !ltb_compare. change String.compare with String_as_OT.cmp.
  rewrite !String_as_OT.cmp_lt. apply String_as_OT.lt_trans.
Qed.

Lemma ltb_false_leb (x y : string) : String.ltb y x = false <-> String.leb x y = true.
Proof.
  unfold String.ltb, String.leb. rewrite (String.compare_antisym x y).
  destruct (String.compare y x); simpl; intuition discriminate.
Qed.

(** [z <= y] and [y < x] give [z < x]. *)
Lemma leb_ltb_trans (x y z : string) :
  String.ltb y x = true -> String.ltb y z = false -> String.ltb z x = true.
Proof.
  intros Hyx Hyz. unfold String.ltb in Hyz.
  destruct (String.compare y z) eqn:Hc; try discriminate.
  - apply String.compare_eq_iff in Hc. subst z. exact Hyx.
  - apply ltb_trans with y; [|exact Hyx].
    apply ltb_compare. rewrite String.compare_antisym, Hc. reflexivity.
Qed.

Lemma sorts_before_not_later (a b : option string) :
  sorts_before a b = false <-> not_later a b.
Proof.
  destruct a as [x|], b as [y|]; simpl; try (intuition discriminate).
  apply ltb_false_leb.
Qed.

Lemma sorts_before_irrefl (a : option string) : sorts_before a a = false.
Proof.
  destruct a as [x|]; simpl; [|reflexivity].
  unfold String.ltb.
  replace (String.compare x x) with Eq; [reflexivity|].
  symmetry. apply String_as_OT.cmp_eq. reflexivity.
Qed.

Lemma sorts_before_asym (a b : option string) :
  sorts_before a b = true -> sorts_before b a = false.
Proof.
  destruct a as [x|], b as [y|]; simpl; try (intuition discriminate).
  unfold String.ltb. rewrite (String.compare_antisym x y).
  destruct (String.compare y x); simpl; intuition discriminate.
Qed.

Lemma sorts_before_trans (a b c : option string) :
  sorts_before a b = true -> sorts_before b c = true -> sorts_before a c = true.
Proof.
  destruct a as [x|], b as [y|], c as [z|]; simpl; try (intuition discriminate).
  intros Hyx Hzy. apply ltb_trans with y; assumption.
Qed.

(** [a] before [b], and [c] not before [b], give [a] before [c]. *)
Lemma sorts_before_not_before (a b c : option string) :
  sorts_before a b = true -> sorts_before c b = false -> sorts_before a c = true.
Proof.
  destruct a as [x|], b as [y|], c as [z|]; simpl; try (intuition discriminate).
  apply leb_ltb_trans.
Qed.

Lemma filter_length_zero {A : Type} (p : A -> bool) (l : list A) :
  length (List.filter p l) = 0%nat <-> forall x, In x l -> p x = false.
Proof.
  induction l as [|a l IH]; simpl.
  - intuition.
  - destruct (p a) eqn:Ha; simpl.
    + split; [discriminate|]. intros Hall.
      specialize (Hall a (or_introl eq_refl)). congruence.
    + rewrite IH. split; [intros Hall x [<-|Hx]; auto|auto].
Qed.

Lemma same_partition_key (r r' : RawRow) :
  same_partition r r' = true <-> r !! "LMK_KEY" = r' !! "LMK_KEY".
Proof. unfold same_partition. apply bool_decide_eq_true. Qed.

(** A row has rank 1 exactly when it sorts before every earlier row of its
    partition and no later row of its partition sorts before it. *)
Lemma row_number_one (l1 : list RawRow) (r : RawRow) (l2 : list RawRow) :
  row_number l1 r l2 = 1%nat <->
  (forall r', In r' l1 -> r' !! "LMK_KEY" = r !! "LMK_KEY" ->
     sorts_before (lodged r) (lodged r') = true)
  /\ (forall r', In r' l2 -> r' !! "LMK_KEY" = r !! "LMK_KEY" ->
        sorts_before (lodged r') (lodged r) = false).
Proof.
  unfold row_number.
  set (p1 := fun r' => same_partition r r' && negb (sorts_before (lodged r) (lodged r'))).
  set (p2 := fun r' => same_partition r r' && sorts_before (lodged r') (lodged r)).
  transitivity (length (List.filter p1 l1) = 0%nat /\ length (List.filter p2 l2) = 0%nat);
    [lia|].
  rewrite !filter_length_zero. unfold p1, p2.
  split; intros [H1 H2]; split; intros r' Hin.
  - intros Hk. specialize (H1 r' Hin).
    replace (same_partition r r') with true in H1
      by (symmetry; apply same_partition_key; congruence).
    simpl in H1. destruct (sorts_before (lodged r) (lodged r')); [reflexivity|discriminate].
  - intros Hk. specialize (H2 r' Hin).
    replace (same_partition r r') with true in H2
      by (symmetry; apply same_partition_key; congruence).
    exact H2.
  - destruct (same_partition r r') eqn:Hp; [|reflexivity]. simpl.
    apply same_partition_key in Hp. rewrite (H1 r' Hin); [reflexivity|congruence].
  - destruct (same_partition r r') eqn:Hp; [|reflexivity]. simpl.
    apply same_partition_key in Hp. apply (H2 r' Hin). congruence.
Qed.

(** Each key of the table has a top row: the first of its latest rows. *)
Lemma top_row_or_absent (raw : list RawRow) (k : option string) :
  (forall r, In r raw -> r !! "LMK_KEY" <> k)
  \/ exists l1 r l2,
       raw = l1 ++ r :: l2 /\ r !! "LMK_KEY" = k
       /\ (forall r', In r' l1 -> r' !! "LMK_KEY" = k ->
             sorts_before (lodged r) (lodged r') = true)
       /\ (forall r', In r' l2 -> r' !! "LMK_KEY" = k ->
             sorts_before (lodged r') (lodged r) = false).
Proof.
  induction raw as [|x raw IH] using rev_ind.
  - left. intros r [].
  - destruct (decide (x !! "LMK_KEY" = k)) as [Hx|Hx].
    + right. destruct IH as [Hnone|(l1 & r & l2 & -> & Hr & Hbefore & Hafter)].
      * exists raw, x, []. split; [reflexivity|]. split; [exact Hx|].
        split; [|intros r' []].
        intros r' Hin Hk. destruct (Hnone r' Hin Hk).
      * destruct (sorts_before (lodged x) (lodged r)) eqn:Hxr.
        -- exists (l1 ++ r :: l2), x, []. split; [reflexivity|]. split; [exact Hx|].
           split; [|intros r' []].
           intros r' Hin Hk. apply in_app_or in Hin as [Hin|[<-|Hin]].
           ++ apply sorts_before_trans with (lodged r); auto.
           ++ exact Hxr.
           ++ apply sorts_before_not_before with (lodged r); auto.
        -- exists l1, r, (l2 ++ [x]). rewrite <- app_assoc. split; [reflexivity|].
           split; [exact Hr|]. split; [exact Hbefore|].
           intros r' Hin Hk. apply in_app_or in Hin as [Hin|[<-|[]]]; auto.
    + destruct IH as [Hnone|(l1 & r & l2 & -> & Hr & Hbefore & Hafter)].
      * left. intros r Hin. apply in_app_or in Hin as [Hin|[<-|[]]]; auto.
      * right. exists l1, r, (l2 ++ [x]). rewrite <- app_assoc. split; [reflexivity|].
        split; [exact Hr|]. split; [exact Hbefore|].
        intros r' Hin Hk. apply in_app_or in Hin as [Hin|[<-|[]]]; auto.
        contradiction.
Qed.

(** ** Silver: properties of the clean table *)

Section NormalizerFacts.
Context `{TryCast} {letters : CaseFunctions}.

Lemma in_number_rows (before rest : list RawRow) (r : RawRow) (n : nat) :
  In (r, n) (number_rows before rest) <->
  exists l1 l2, rest = l1 ++ r :: l2 /\ n = row_number (before ++ l1) r l2.
Proof.
  revert before. induction rest as [|x rest IH]; intros before; simpl.
  - split; [tauto|]. intros (l1 & l2 & Heq & _). destruct l1; discriminate.
  - rewrite IH. split.
    + intros [[= -> <-]|(l1 & l2 & -> & ->)].
      * exists [], rest. rewrite app_nil_r. auto.
      * exists (x :: l1), l2. rewrite <- app_assoc. auto.
    + intros (l1 & l2 & Heq & ->). destruct l1 as [|y l1]; simpl in Heq.
      * injection Heq as -> ->. left. rewrite app_nil_r. reflexivity.
      * injection Heq as -> ->. right. exists l1, l2. rewrite <- app_assoc. auto.
Qed.

Lemma in_deduped (raw : list RawRow) (r : RawRow) (n : nat) :
  In (r, n) (deduped raw) <->
  exists l1 l2, raw = l1 ++ r :: l2 /\ n = row_number l1 r l2.
Proof. unfold deduped. rewrite in_number_rows. reflexivity. Qed.

Lemma in_deduped_in_raw (raw : list RawRow) (r : RawRow) (n : nat) :
  In (r, n) (deduped raw) -> In r raw.
Proof.
  rewrite in_deduped. intros (l1 & l2 & -> & _). apply in_elt.
Qed.

Lemma in_base (raw : list RawRow) (r : RawRow) :
  In r (base raw) <-> In (r, 1%nat) (deduped raw) /\ base_where (r, 1%nat) = true.
Proof.
  unfold base. rewrite in_map_iff. split.
  - intros ([r' n] & <- & Hin). apply filter_In in Hin as [Hin Hw].
    assert (n = 1%nat) as ->.
    { simpl in Hw. destruct (Nat.eqb_spec n 1); [assumption|discriminate]. }
    auto.
  - intros [Hin Hw]. exists (r, 1%nat). split; [reflexivity|]. apply filter_In. auto.
Qed.

Lemma in_silver_epc_clean (raw : list RawRow) (c : CleanRecord) :
  In c (silver_epc_clean raw) <->
  exists r, c = clean_row r /\ In (r, 1%nat) (deduped raw) /\ base_where (r, 1%nat) = true.
Proof.
  unfold silver_epc_clean. rewrite in_map_iff. split.
  - intros (r & <- & Hr). apply in_base in Hr. eauto.
  - intros (r & -> & Hr). exists r. split; [reflexivity|]. apply in_base. exact Hr.
Qed.

Lemma base_where_mandatory (r : RawRow) (n : nat) :
  base_where (r, n) = true <->
  n = 1%nat
  /\ r !! "CURRENT_ENERGY_EFFICIENCY" <> None
  /\ r !! "POTENTIAL_ENERGY_EFFICIENCY" <> None
  /\ r !! "PROPERTY_TYPE" <> None.
Proof.
  unfold base_where.
  destruct (Nat.eqb_spec n 1),
    (r !! "CURRENT_ENERGY_EFFICIENCY"), (r !! "POTENTIAL_ENERGY_EFFICIENCY"),
    (r !! "PROPERTY_TYPE"); simpl; intuition congruence.
Qed.

Lemma quality_score_percentage (b1 b2 b3 b4 b5 b6 b7 b8 : bool) :
  let n := count_present [b1; b2; b3; b4; b5; b6; b7; b8] in
  Z.b2z b1 + Z.b2z b2 + Z.b2z b3 + Z.b2z b4 + Z.b2z b5 + Z.b2z b6 + Z.b2z b7 + Z.b2z b8 = n
  /\ 0 <= n <= 8
  /\ quality_score n = double_of_Z (rounded_percentage n 8)
  /\ 0 <= rounded_percentage n 8 <= 100.
Proof.
  destruct b1, b2, b3, b4, b5, b6, b7, b8; vm_compute;
    repeat split; try reflexivity; discriminate.
Qed.

(** C9.  On every row of [silver.epc_clean] the data quality score is the
    percentage of the eight designated columns that are non-NULL on the row,
    rounded to an integer (a half rounding up), hence an integer between 0
    and 100. *)
Theorem data_quality_score_is_rounded_percentage
  (raw : list RawRow) (c : CleanRecord) :
  In c (silver_epc_clean raw) ->
  let n := count_present (quality_fields c) in
  0 <= n <= 8
  /\ Clean.data_quality_score c = Some (double_of_Z (rounded_percentage n 8))
  /\ 0 <= rounded_percentage n 8 <= 100.
Proof.
  intros Hc n. apply in_silver_epc_clean in Hc as (r & -> & _).
  subst n. unfold quality_fields.
  cbn [clean_row Clean.data_quality_score Clean.walls_description
       Clean.roof_description Clean.windows_description Clean.heating_description
       Clean.total_floor_area Clean.construction_age_band Clean.tenure Clean.main_fuel].
  unfold present.
  destruct (quality_score_percentage
              (IS_NOT_NULL (r !! "WALLS_DESCRIPTION"))
              (IS_NOT_NULL (r !! "ROOF_DESCRIPTION"))
              (IS_NOT_NULL (r !! "WINDOWS_DESCRIPTION"))
              (IS_NOT_NULL (r !! "MAINHEAT_DESCRIPTION"))
              (IS_NOT_NULL (TRY_CAST_DOUBLE (r !! "TOTAL_FLOOR_AREA")))
              (IS_NOT_NULL (r !! "CONSTRUCTION_AGE_BAND"))
              (IS_NOT_NULL (r !! "TENURE"))
              (IS_NOT_NULL (r !! "MAIN_FUEL"))) as (Hsum & Hn & Hq & Hp).
  rewrite Hsum, Hq. auto.
Qed.

(** C1, amended.  Every row of [silver.epc_clean] comes from a landing row
    in which the property type and the texts of both efficiencies are present;
    its property type is non-NULL, and each of its efficiencies is NULL exactly
    when the text does not cast to an INTEGER.  Every top-ranked landing row
    that the mandatory-field filter drops lacks one of the three fields. *)
Theorem clean_rows_have_mandatory_source_fields (raw : list RawRow) :
  (forall c, In c (silver_epc_clean raw) ->
     exists r current potential,
       In r raw /\ c = clean_row r
       /\ Clean.property_type c <> None
       /\ r !! "CURRENT_ENERGY_EFFICIENCY" = Some current
       /\ r !! "POTENTIAL_ENERGY_EFFICIENCY" = Some potential
       /\ Clean.current_efficiency c = cast_integer current
       /\ Clean.potential_efficiency c = cast_integer potential)
  /\ (forall r, In (r, 1%nat) (deduped raw) -> ~ In r (base raw) ->
        r !! "CURRENT_ENERGY_EFFICIENCY" = None
        \/ r !! "POTENTIAL_ENERGY_EFFICIENCY" = None
        \/ r !! "PROPERTY_TYPE" = None).
Proof.
  split.
  - intros c Hc. apply in_silver_epc_clean in Hc as (r & -> & Hr & Hw).
    apply base_where_mandatory in Hw as (_ & Hce & Hpe & Hpt).
    destruct (r !! "CURRENT_ENERGY_EFFICIENCY") as [current|] eqn:Ece; [|congruence].
    destruct (r !! "POTENTIAL_ENERGY_EFFICIENCY") as [potential|] eqn:Epe; [|congruence].
    exists r, current, potential.
    split; [eapply in_deduped_in_raw; exact Hr|].
    split; [reflexivity|].
    cbn [clean_row Clean.property_type Clean.current_efficiency Clean.potential_efficiency].
    rewrite Ece, Epe. auto.
  - intros r Hr Hdrop.
    destruct (base_where (r, 1%nat)) eqn:Hw.
    + exfalso. apply Hdrop, in_base. auto.
    + unfold base_where in Hw. simpl in Hw.
      destruct (r !! "CURRENT_ENERGY_EFFICIENCY"); [|auto].
      destruct (r !! "POTENTIAL_ENERGY_EFFICIENCY"); [|auto].
      destruct (r !! "PROPERTY_TYPE"); [discriminate|auto].
Qed.

Lemma rank_one_latest (raw : list RawRow) (r : RawRow) :
  In (r, 1%nat) (deduped raw) ->
  forall r', In r' raw -> r' !! "LMK_KEY" = r !! "LMK_KEY" ->
    not_later (lodged r') (lodged r).
Proof.
  intros Hr r' Hin Hk.
  apply in_deduped in Hr as (l1 & l2 & -> & Hone).
  symmetry in Hone. apply row_number_one in Hone as [Hbefore Hafter].
  apply sorts_before_not_later.
  apply in_app_or in Hin as [Hin|[<-|Hin]].
  - apply sorts_before_asym. auto.
  - apply sorts_before_irrefl.
  - auto.
Qed.

Lemma rank_one_exists (raw : list RawRow) (r0 : RawRow) :
  In r0 raw ->
  exists r, In (r, 1%nat) (deduped raw) /\ r !! "LMK_KEY" = r0 !! "LMK_KEY".
Proof.
  intros Hin.
  destruct (top_row_or_absent raw (r0 !! "LMK_KEY"))
    as [Hnone|(l1 & r & l2 & -> & Hr & Hbefore & Hafter)].
  - destruct (Hnone r0 Hin eq_refl).
  - exists r. split; [|exact Hr].
    apply in_deduped. exists l1, l2. split; [reflexivity|].
    symmetry. apply row_number_one. rewrite Hr. auto.
Qed.

Lemma rank_one_unique (raw : list RawRow) (r r' : RawRow) :
  In (r, 1%nat) (deduped raw) -> In (r', 1%nat) (deduped raw) ->
  r !! "LMK_KEY" = r' !! "LMK_KEY" -> r = r'.
Proof.
  intros Hr Hr' Hk.
  apply in_deduped in Hr as (l1 & l2 & -> & Hone).
  apply in_deduped in Hr' as (l1' & l2' & Heq & Hone').
  symmetry in Hone, Hone'.
  apply row_number_one in Hone as [Hbefore Hafter].
  apply row_number_one in Hone' as [Hbefore' Hafter'].
  apply app_eq_app in Heq as (m & [[-> Hm]|[-> Hm]]).
  - destruct m as [|x m]; simpl in Hm.
    + injection Hm as -> _. reflexivity.
    + injection Hm as <- ->.
      assert (H1 : sorts_before (lodged r) (lodged r') = true)
        by (apply Hbefore; [apply in_elt|congruence]).
      assert (H2 : sorts_before (lodged r) (lodged r') = false)
        by (apply Hafter'; [apply in_elt|congruence]).
      congruence.
  - destruct m as [|x m]; simpl in Hm.
    + injection Hm as -> _. reflexivity.
    + injection Hm as <- ->.
      assert (H1 : sorts_before (lodged r') (lodged r) = true)
        by (apply Hbefore'; [apply in_elt|congruence]).
      assert (H2 : sorts_before (lodged r') (lodged r) = false)
        by (apply Hafter; [apply in_elt|congruence]).
      congruence.
Qed.

Lemma rank_one_keys_nodup (before rest : list RawRow) :
  List.NoDup (map (fun r : RawRow => r !! "LMK_KEY")
                (map fst (List.filter base_where (number_rows before rest)))).
Proof.
  revert before. induction rest as [|r after IH]; intros before.
  - constructor.
  - cbn [number_rows List.filter].
    destruct (base_where (r, row_number before r after)) eqn:Hw; [|apply IH].
    cbn [map fst]. constructor; [|apply IH].
    intros Hin.
    apply in_map_iff in Hin as (r' & Hk & Hin).
    apply in_map_iff in Hin as ([r'' n'] & Hfst & Hin). simpl in Hfst. subst r''.
    apply filter_In in Hin as [Hin Hw'].
    apply base_where_mandatory in Hw as (Hone & _).
    apply base_where_mandatory in Hw' as (-> & _).
    apply in_number_rows in Hin as (l1 & l2 & -> & Hone').
    symmetry in Hone'.
    apply row_number_one in Hone as [_ Hafter].
    apply row_number_one in Hone' as [Hbefore' _].
    assert (H1 : sorts_before (lodged r') (lodged r) = true).
    { apply Hbefore'; [|congruence].
      apply in_or_app. left. apply in_or_app. right. left. reflexivity. }
    assert (H2 : sorts_before (lodged r') (lodged r) = false)
      by (apply Hafter; [apply in_elt|congruence]).
    congruence.
Qed.

(** C2, amended.  The clean table has at most one row for each business
    key.  A clean row comes from a landing row that has the three mandatory
    fields and whose lodgement text is the latest of its key.  Every key of
    the landing table has one top-ranked row, a latest one, and the key has a
    clean row exactly when that row has the three mandatory fields: an earlier
    duplicate never takes its place. *)
Theorem one_clean_row_per_key_from_latest (raw : list RawRow) :
  List.NoDup (map Clean.lmk_key (silver_epc_clean raw))
  /\ (forall c, In c (silver_epc_clean raw) ->
        exists r,
          In r raw /\ c = clean_row r /\ mandatory_present r
          /\ forall r', In r' raw -> r' !! "LMK_KEY" = r !! "LMK_KEY" ->
               not_later (lodged r') (lodged r))
  /\ (forall r0, In r0 raw ->
        exists r,
          In (r, 1%nat) (deduped raw) /\ r !! "LMK_KEY" = r0 !! "LMK_KEY"
          /\ (forall r', In r' raw -> r' !! "LMK_KEY" = r0 !! "LMK_KEY" ->
                not_later (lodged r') (lodged r))
          /\ ((exists c, In c (silver_epc_clean raw) /\ Clean.lmk_key c = r0 !! "LMK_KEY")
              <-> mandatory_present r)).
Proof.
  split; [|split].
  - unfold silver_epc_clean, base. rewrite map_map.
    erewrite map_ext; [apply (rank_one_keys_nodup [] raw)|].
    reflexivity.
  - intros c Hc. apply in_silver_epc_clean in Hc as (r & -> & Hr & Hw).
    exists r. split; [eapply in_deduped_in_raw; exact Hr|]. split; [reflexivity|].
    split; [apply base_where_mandatory in Hw; unfold mandatory_present; tauto|].
    apply rank_one_latest. exact Hr.
  - intros r0 Hin. destruct (rank_one_exists raw r0 Hin) as (r & Hr & Hk).
    exists r. split; [exact Hr|]. split; [exact Hk|].
    split; [intros r' Hr' Hk'; apply (rank_one_latest raw r Hr r' Hr'); congruence|].
    split.
    + intros (c & Hc & Hkc). apply in_silver_epc_clean in Hc as (r' & -> & Hr' & Hw).
      simpl in Hkc.
      assert (r' = r) as -> by (apply (rank_one_unique raw); congruence).
      apply base_where_mandatory in Hw. unfold mandatory_present. tauto.
    + intros Hm. exists (clean_row r). split; [|simpl; exact Hk].
      apply in_silver_epc_clean. exists r. split; [reflexivity|]. split; [exact Hr|].
      apply base_where_mandatory. unfold mandatory_present in Hm. tauto.
Qed.

End NormalizerFacts.

(** C1, as stated, fails on a record whose current efficiency is the text
    N/A: the text is present, so the row is kept, and it does not cast, so the
    clean row has a NULL current efficiency. *)
Lemma clean_row_with_null_efficiency :
  uncoercible_row !! "CURRENT_ENERGY_EFFICIENCY" = Some "N/A"
  /\ In (clean_row (H := numeral_casts) (letters := ascii_case) uncoercible_row)
        (silver_epc_clean (H := numeral_casts) (letters := ascii_case) [uncoercible_row])
  /\ Clean.current_efficiency (clean_row (H := numeral_casts)
      (letters := ascii_case) uncoercible_row) = None.
Proof.
  split; [vm_compute; reflexivity|].
  split; [vm_compute; left; reflexivity|].
  vm_compute. reflexivity.
Qed.

Lemma clean_rows_have_mandatory_source_fields_witness :
  In (clean_row (H := numeral_casts) (letters := ascii_case) uncoercible_row)
     (silver_epc_clean (H := numeral_casts) (letters := ascii_case) [uncoercible_row])
  /\ exists r current potential,
       In r [uncoercible_row]
       /\ clean_row (H := numeral_casts) (letters := ascii_case) uncoercible_row = clean_row
           (H := numeral_casts) (letters := ascii_case) r
       /\ Clean.property_type (clean_row (H := numeral_casts)
           (letters := ascii_case) uncoercible_row) <> None
       /\ r !! "CURRENT_ENERGY_EFFICIENCY" = Some current
       /\ r !! "POTENTIAL_ENERGY_EFFICIENCY" = Some potential
       /\ Clean.current_efficiency (clean_row (H := numeral_casts)
           (letters := ascii_case) uncoercible_row)
          = @cast_integer numeral_casts current
       /\ Clean.potential_efficiency (clean_row (H := numeral_casts)
           (letters := ascii_case) uncoercible_row)
          = @cast_integer numeral_casts potential.
Proof.
  split; [vm_compute; left; reflexivity|].
  apply (proj1 (clean_rows_have_mandatory_source_fields (H := numeral_casts) (letters := ascii_case)
                  [uncoercible_row])).
  vm_compute. left. reflexivity.
Defined.

Lemma data_quality_score_is_rounded_percentage_witness :
  In (clean_row (H := numeral_casts) (letters := ascii_case) example_row) example_clean
  /\ 0 <= count_present (quality_fields (clean_row (H := numeral_casts)
      (letters := ascii_case) example_row)) <= 8
  /\ Clean.data_quality_score (clean_row (H := numeral_casts) (letters := ascii_case) example_row)
     = Some (double_of_Z
               (rounded_percentage
                  (count_present (quality_fields (clean_row (H := numeral_casts)
                      (letters := ascii_case) example_row)))
                  8))
  /\ 0 <= rounded_percentage
            (count_present (quality_fields (clean_row (H := numeral_casts)
                (letters := ascii_case) example_row))) 8
     <= 100.
Proof.
  split; [vm_compute; left; reflexivity|].
  apply (data_quality_score_is_rounded_percentage (H := numeral_casts)
      (letters := ascii_case) [example_row]).
  vm_compute. left. reflexivity.
Defined.

(** The example record has three of the eight columns: 37.5 rounds to 38. *)
Example data_quality_score_example :
  count_present (quality_fields (clean_row (H := numeral_casts)
      (letters := ascii_case) example_row)) = 3
  /\ Clean.data_quality_score (clean_row (H := numeral_casts) (letters := ascii_case) example_row)
     = Some (double_of_Z 38).
Proof. vm_compute. auto. Qed.

(** C2, as stated, fails on two certificates of one property of which the
    later one has no property type: the earlier one is ranked second, the
    later one is dropped, and no row of the key survives. *)
Lemma superseded_key_does_not_survive :
  map (fun r : RawRow => r !! "LMK_KEY") superseded = [Some "d1"; Some "d1"]
  /\ map snd (deduped superseded) = [2%nat; 1%nat]
  /\ silver_epc_clean (H := numeral_casts) (letters := ascii_case) superseded = [].
Proof. vm_compute. auto. Qed.

Lemma one_clean_row_per_key_from_latest_witness :
  In (clean_row (H := numeral_casts) (letters := ascii_case)
      (certificate "d2" "2021-04-01 10:00:00" "60" "72"))
     (silver_epc_clean (H := numeral_casts) (letters := ascii_case) relodged)
  /\ exists r,
       In r relodged
       /\ clean_row (H := numeral_casts) (letters := ascii_case)
           (certificate "d2" "2021-04-01 10:00:00" "60" "72")
          = clean_row (H := numeral_casts) (letters := ascii_case) r
       /\ mandatory_present r
       /\ forall r', In r' relodged -> r' !! "LMK_KEY" = r !! "LMK_KEY" ->
            not_later (lodged r') (lodged r).
Proof.
  split; [vm_compute; left; reflexivity|].
  apply (proj1 (proj2 (one_clean_row_per_key_from_latest (H := numeral_casts)
      (letters := ascii_case) relodged))).
  vm_compute. left. reflexivity.
Defined.

(** ** The run: a failed ingestion *)

(** The store of the example is the one that a run over the example file
    leaves. *)
Example earlier_store_is_left_by_a_run :
  fst (run_pipeline (H := numeral_casts) (letters := ascii_case)
         "certificates.csv" "2024-01-01 00:00:00" (Some example_file) empty_store)
  = earlier_store.
Proof. vm_compute. reflexivity. Qed.

(** C7, as stated, fails on a store that holds the tables of an earlier run:
    when the CSV file cannot be read the run raises, and by then the landing
    table has been dropped. *)
Lemma failed_ingestion_drops_landing_table :
  bronze_table earlier_store
  = Some (bronze_epc_raw "certificates.csv" "2024-01-01 00:00:00" example_file)
  /\ snd (run_pipeline (H := numeral_casts)
      (letters := ascii_case) "certificates.csv" "2024-02-01 00:00:00"
            None earlier_store)
     = inl IOException
  /\ bronze_table
       (fst (run_pipeline (H := numeral_casts)
           (letters := ascii_case) "certificates.csv" "2024-02-01 00:00:00"
               None earlier_store))
     = None
  /\ bronze_table
       (fst (run_pipeline (H := numeral_casts)
           (letters := ascii_case) "certificates.csv" "2024-02-01 00:00:00"
               None earlier_store))
     <> bronze_table earlier_store.
Proof.
  split; [reflexivity|]. split; [reflexivity|]. split; [reflexivity|]. discriminate.
Qed.

(** C7, amended.  When the CSV file cannot be read, the ingestion and the
    whole run raise the error of the reader and no table is written: the
    clean, feature and aggregate tables are those of the store before the run,
    and the landing table, dropped before the file is read, is absent. *)
Theorem failed_ingestion_writes_no_table
  `{TryCast} {letters : CaseFunctions} (csv_path now : string) (s : Store) :
  bronze_run csv_path now None s
  = (set_bronze None (set_schemas ({[ "bronze" ]} ∪ schemas s) s), inl IOException)
  /\ snd (run_pipeline csv_path now None s) = inl IOException
  /\ bronze_table (fst (run_pipeline csv_path now None s)) = None
  /\ silver_table (fst (run_pipeline csv_path now None s)) = silver_table s
  /\ features_table (fst (run_pipeline csv_path now None s)) = features_table s
  /\ agg_table (fst (run_pipeline csv_path now None s)) = agg_table s.
Proof. repeat split; reflexivity. Qed.


(** ** Silver: the ordinal efficiency scores *)

Ltac split_string s :=
  destruct s as [|[[] [] [] [] [] [] [] []] s]; try reflexivity.

Lemma eff_score_by_label (s : string) :
  eff_score (Some s) =
  if String.eqb s "Very Good" then Some 5
  else if String.eqb s "Good" then Some 4
  else if String.eqb s "Average" then Some 3
  else if String.eqb s "Poor" then Some 2
  else if String.eqb s "Very Poor" then Some 1
  else None.
Proof.
  unfold eff_score.
  do 10 (split_string s).
Qed.

(** A label scores [n] exactly when it is the [n]-th label of the scale. *)
Lemma eff_score_scale (label : option string) (n : Z) :
  eff_score label = Some n <->
  1 <= n <= 5
  /\ exists l, label = Some l /\ five_point_scale !! Z.to_nat (n - 1) = Some l.
Proof.
  split.
  - destruct label as [s|]; [|discriminate].
    rewrite eff_score_by_label.
    destruct (String.eqb_spec s "Very Good") as [->|_];
      [intros [= <-]; split; [lia|eexists; split; reflexivity]|].
    destruct (String.eqb_spec s "Good") as [->|_];
      [intros [= <-]; split; [lia|eexists; split; reflexivity]|].
    destruct (String.eqb_spec s "Average") as [->|_];
      [intros [= <-]; split; [lia|eexists; split; reflexivity]|].
    destruct (String.eqb_spec s "Poor") as [->|_];
      [intros [= <-]; split; [lia|eexists; split; reflexivity]|].
    destruct (String.eqb_spec s "Very Poor") as [->|_];
      [intros [= <-]; split; [lia|eexists; split; reflexivity]|].
    discriminate.
  - intros (Hn & l & -> & Hl).
    assert (n = 1 \/ n = 2 \/ n = 3 \/ n = 4 \/ n = 5) as [->|[->|[->|[->| ->]]]] by lia;
      injection Hl as <-; reflexivity.
Qed.

Section ScoresAndRatings.
Context `{TryCast} {letters : CaseFunctions}.

(** X1.  On every row of [silver.epc_clean] each of the six efficiency
    scores is [n] exactly when the label of its landing row is the [n]-th of
    Very Poor, Poor, Average, Good, Very Good, spelled so; hence a score is
    between 1 and 5, and NULL for any other or missing label. *)
Theorem efficiency_scores_follow_the_scale (raw : list RawRow) (c : CleanRecord) :
  In c (silver_epc_clean raw) ->
  exists r,
    In r raw /\ c = clean_row r
    /\ Forall
         (fun column : option string * option Z =>
            forall n,
              column.2 = Some n <->
              1 <= n <= 5
              /\ exists l, column.1 = Some l
                           /\ five_point_scale !! Z.to_nat (n - 1) = Some l)
         (label_and_score r c).
Proof.
  intros Hc. apply in_silver_epc_clean in Hc as (r & -> & Hr & _).
  exists r. split; [eapply in_deduped_in_raw; exact Hr|]. split; [reflexivity|].
  unfold label_and_score.
  cbn [clean_row Clean.walls_eff_score Clean.roof_eff_score Clean.windows_eff_score
       Clean.heating_eff_score Clean.hot_water_eff_score Clean.lighting_eff_score].
  repeat (apply List.Forall_cons; [intros n; apply eff_score_scale|]).
  apply List.Forall_nil.
Qed.


























End ScoresAndRatings.

Lemma efficiency_scores_follow_the_scale_witness :
  In (clean_row (H := numeral_casts) (letters := ascii_case) labelled_row)
     (silver_epc_clean (H := numeral_casts) (letters := ascii_case) [labelled_row])
  /\ exists r,
       In r [labelled_row]
       /\ clean_row (H := numeral_casts) (letters := ascii_case) labelled_row = clean_row
           (H := numeral_casts) (letters := ascii_case) r
       /\ Forall
            (fun column : option string * option Z =>
               forall n,
                 column.2 = Some n <->
                 1 <= n <= 5
                 /\ exists l, column.1 = Some l
                              /\ five_point_scale !! Z.to_nat (n - 1) = Some l)
            (label_and_score r (clean_row (H := numeral_casts)
                (letters := ascii_case) labelled_row)).
Proof.
  split; [vm_compute; left; reflexivity|].
  apply (efficiency_scores_follow_the_scale (H := numeral_casts)
      (letters := ascii_case) [labelled_row]).
  vm_compute. left. reflexivity.
Defined.

(** The labels of the sample row: Good scores 4, Very Poor scores 1, and the
    lower-case and the unknown label score nothing. *)
Example efficiency_scores_example :
  map snd (label_and_score labelled_row (clean_row (H := numeral_casts)
      (letters := ascii_case) labelled_row))
  = [Some 4; None; Some 1; None; None; None].
Proof. vm_compute. reflexivity. Qed.


(** The rating text of the sample row, a small letter between two spaces. *)
Example ratings_example :
  labelled_row !! "CURRENT_ENERGY_RATING" = Some " e "
  /\ " e " = spaces 1 +:+ "e" +:+ spaces 1
  /\ uppercased "e" = "E"
  /\ Clean.current_rating (clean_row (H := numeral_casts) (letters := ascii_case) labelled_row)
     = Some "E".
Proof. vm_compute. auto. Qed.

(** ** The runners: what each stage reads, writes and reports *)

Lemma length_number_rows (before rest : list RawRow) :
  length (number_rows before rest) = length rest.
Proof.
  revert before. induction rest as [|r rest IH]; intros before; simpl; [reflexivity|].
  rewrite IH. reflexivity.
Qed.

Lemma length_List_filter_le {A : Type} (p : A -> bool) (l : list A) :
  (length (List.filter p l) <= length l)%nat.
Proof. induction l as [|a l IH]; simpl; [lia|]. destruct (p a); simpl; lia. Qed.

Lemma length_silver_epc_clean `{TryCast} {letters : CaseFunctions} (raw : list RawRow) :
  (length (silver_epc_clean raw) <= length raw)%nat.
Proof.
  unfold silver_epc_clean, base, deduped. rewrite !length_map.
  etransitivity; [apply length_List_filter_le|].
  rewrite length_number_rows. reflexivity.
Qed.

Lemma length_gold_epc_features {letters : CaseFunctions} (clean : list CleanRecord) :
  (length (gold_epc_features clean) <= length clean)%nat.
Proof. unfold gold_epc_features. rewrite length_map. apply length_List_filter_le. Qed.

Lemma silver_run_present `{TryCast} {letters : CaseFunctions} (s : Store) (t : RawTable) :
  bronze_table s = Some t -> unbound (columns t) = [] ->
  silver_run s
  = (set_silver (Some (silver_epc_clean (map (as_named (columns t)) (rows t))))
       (set_schemas ({[ "silver" ]} ∪ schemas s) s),
     inr {| silver_rows :=
              COUNT_star (silver_epc_clean (map (as_named (columns t)) (rows t)));
            silver_dropped :=
              COUNT_star (rows t)
              - COUNT_star (silver_epc_clean (map (as_named (columns t)) (rows t))) |}).
Proof.
  intros Hb Hbound. destruct s; simpl in Hb; subst.
  cbv beta iota zeta delta
    [silver_run create_table_as from_table bind_silver mbind run_bind mret run_ret
     raise get_store put_store create_schema drop_table bronze_table silver_table
     set_silver set_schemas].
  rewrite Hbound. reflexivity.
Qed.

Lemma silver_run_unbound `{TryCast} {letters : CaseFunctions} (s : Store) (t : RawTable) :
  bronze_table s = Some t -> unbound (columns t) <> [] ->
  silver_run s
  = (set_silver None (set_schemas ({[ "silver" ]} ∪ schemas s) s),
     inl BinderException).
Proof.
  intros Hb Hbound. destruct s; simpl in Hb; subst.
  cbv beta iota zeta delta
    [silver_run create_table_as from_table bind_silver mbind run_bind mret run_ret
     raise get_store put_store create_schema drop_table bronze_table silver_table
     set_silver set_schemas].
  destruct (unbound (columns t)); [congruence|reflexivity].
Qed.

Lemma silver_run_absent `{TryCast} {letters : CaseFunctions} (s : Store) :
  bronze_table s = None ->
  silver_run s
  = (set_silver None (set_schemas ({[ "silver" ]} ∪ schemas s) s),
     inl CatalogException).
Proof. intros Hb. destruct s; simpl in Hb; subst. reflexivity. Qed.

Lemma gold_run_present {letters : CaseFunctions} (s : Store) (clean : list CleanRecord) :
  silver_table s = Some clean ->
  gold_run s
  = (set_agg (Some (gold_portfolio_agg (gold_epc_features clean)))
       (set_features (Some (gold_epc_features clean))
          (set_schemas ({[ "gold" ]} ∪ schemas s) s)),
     inr {| feature_rows := COUNT_star (gold_epc_features clean);
            agg_segments := COUNT_star (gold_portfolio_agg (gold_epc_features clean)) |}).
Proof. intros Hs. destruct s; simpl in Hs; subst. reflexivity. Qed.

Lemma gold_run_absent {letters : CaseFunctions} (s : Store) :
  silver_table s = None ->
  gold_run s
  = (set_agg None (set_features None (set_schemas ({[ "gold" ]} ∪ schemas s) s)),
     inl CatalogException).
Proof. intros Hs. destruct s; simpl in Hs; subst. reflexivity. Qed.

Lemma bronze_run_present (csv_path now : string) (f : CsvFile) (s : Store) :
  bronze_run csv_path now (Some f) s
  = (set_bronze (Some (bronze_epc_raw csv_path now f))
       (set_schemas ({[ "bronze" ]} ∪ schemas s) s),
     inr {| bronze_rows := COUNT_star (rows (bronze_epc_raw csv_path now f));
            bronze_columns := COUNT_star (columns (bronze_epc_raw csv_path now f)) |}).
Proof. reflexivity. Qed.

Lemma bronze_run_absent (csv_path now : string) (s : Store) :
  bronze_run csv_path now None s
  = (set_bronze None (set_schemas ({[ "bronze" ]} ∪ schemas s) s), inl IOException).
Proof. reflexivity. Qed.

(** X3.  When [silver.run] returns, over a landing table that has no column
    of the name [_rn], the landing table exists and has a column for every
    name of the query, the clean table has been rebuilt from its rows as the
    query reads them, and the report adds up: kept rows plus dropped rows is
    the number of landing rows, and neither is negative. *)
Theorem silver_run_report_adds_up
  `{TryCast} {letters : CaseFunctions} (s s' : Store) (report : SilverSummary) :
  plain_landing_table s ->
  silver_run s = (s', inr report) ->
  exists t,
    bronze_table s = Some t
    /\ unbound (columns t) = []
    /\ silver_table s'
       = Some (silver_epc_clean (map (as_named (columns t)) (rows t)))
    /\ silver_rows report
       = COUNT_star (silver_epc_clean (map (as_named (columns t)) (rows t)))
    /\ silver_rows report + silver_dropped report = COUNT_star (rows t)
    /\ 0 <= silver_rows report /\ 0 <= silver_dropped report.
Proof.
  intros _ Hrun. destruct (bronze_table s) as [t|] eqn:Hb.
  - destruct (unbound (columns t)) as [|name names] eqn:Hbound.
    + rewrite (silver_run_present s t Hb Hbound) in Hrun. injection Hrun as <- <-.
      exists t. split; [reflexivity|]. split; [exact Hbound|]. split; [reflexivity|].
      pose proof (length_silver_epc_clean (map (as_named (columns t)) (rows t))) as Hle.
      rewrite length_map in Hle.
      cbn [silver_rows silver_dropped]. unfold COUNT_star. repeat split; lia.
    + rewrite (silver_run_unbound s t Hb) in Hrun by (rewrite Hbound; discriminate).
      discriminate.
  - rewrite (silver_run_absent s Hb) in Hrun. discriminate.
Qed.

Lemma flats_landed_is_plain : plain_landing_table flats_landed.
Proof. intros t Ht. vm_compute in Ht. injection Ht as <-. vm_compute. reflexivity. Qed.

Lemma five_column_store_is_plain : plain_landing_table five_column_store.
Proof. intros t Ht. vm_compute in Ht. injection Ht as <-. vm_compute. reflexivity. Qed.

Lemma silver_run_report_adds_up_witness :
  plain_landing_table flats_landed
  /\ silver_run (H := numeral_casts) (letters := ascii_case) flats_landed
     = (flats_cleaned, inr {| silver_rows := 3; silver_dropped := 0 |})
  /\ exists t,
       bronze_table flats_landed = Some t
       /\ unbound (columns t) = []
       /\ silver_table flats_cleaned
          = Some (silver_epc_clean (H := numeral_casts) (letters := ascii_case)
                    (map (as_named (columns t)) (rows t)))
       /\ silver_rows {| silver_rows := 3; silver_dropped := 0 |}
          = COUNT_star (silver_epc_clean (H := numeral_casts) (letters := ascii_case)
                          (map (as_named (columns t)) (rows t)))
       /\ silver_rows {| silver_rows := 3; silver_dropped := 0 |}
          + silver_dropped {| silver_rows := 3; silver_dropped := 0 |}
          = COUNT_star (rows t)
       /\ 0 <= silver_rows {| silver_rows := 3; silver_dropped := 0 |}
       /\ 0 <= silver_dropped {| silver_rows := 3; silver_dropped := 0 |}.
Proof.
  split; [exact flats_landed_is_plain|].
  split; [vm_compute; reflexivity|].
  apply (silver_run_report_adds_up (H := numeral_casts) (letters := ascii_case)
           flats_landed flats_cleaned {| silver_rows := 3; silver_dropped := 0 |}).
  - exact flats_landed_is_plain.
  - vm_compute. reflexivity.
Defined.

(** X4.  Over a landing table that has no column of the name [_rn],
    [silver.run] raises exactly when the landing table does not exist or has
    no column for a name of the query; the error is the catalog error in the
    first case and the binder error in the second, and the clean table,
    dropped before the query, is then absent. *)
Theorem silver_run_fails_without_landing_table
  `{TryCast} {letters : CaseFunctions} (s : Store) :
  plain_landing_table s ->
  ((exists e, snd (silver_run s) = inl e) <->
   bronze_table s = None
   \/ exists t, bronze_table s = Some t /\ unbound (columns t) <> [])
  /\ (bronze_table s = None -> snd (silver_run s) = inl CatalogException)
  /\ (forall t, bronze_table s = Some t -> unbound (columns t) <> [] ->
        snd (silver_run s) = inl BinderException)
  /\ (forall e, snd (silver_run s) = inl e ->
        silver_table (fst (silver_run s)) = None).
Proof.
  intros _. destruct (bronze_table s) as [t|] eqn:Hb.
  - destruct (unbound (columns t)) as [|name names] eqn:Hbound.
    + rewrite (silver_run_present s t Hb Hbound). cbn [fst snd].
      split; [|split; [discriminate|split]].
      * split; [intros (e & [=])|].
        intros [[=]|(t' & [= <-] & Hne)]. congruence.
      * intros t' [= <-] Hne. congruence.
      * intros e [=].
    + assert (Hne : unbound (columns t) <> []) by (rewrite Hbound; discriminate).
      rewrite (silver_run_unbound s t Hb Hne). cbn [fst snd].
      split; [|split; [discriminate|split]].
      * split; [eauto|eauto].
      * reflexivity.
      * intros e _. reflexivity.
  - rewrite (silver_run_absent s Hb). cbn [fst snd].
    split; [|split; [reflexivity|split]].
    + split; [auto|eauto].
    + intros t [=].
    + intros e _. reflexivity.
Qed.

Lemma silver_run_fails_without_landing_table_witness :
  plain_landing_table five_column_store
  /\ ((exists e, snd (silver_run (H := numeral_casts) (letters := ascii_case)
                        five_column_store) = inl e) <->
      bronze_table five_column_store = None
      \/ exists t, bronze_table five_column_store = Some t /\ unbound (columns t) <> [])
  /\ (bronze_table five_column_store = None ->
      snd (silver_run (H := numeral_casts) (letters := ascii_case) five_column_store)
      = inl CatalogException)
  /\ (forall t, bronze_table five_column_store = Some t -> unbound (columns t) <> [] ->
        snd (silver_run (H := numeral_casts) (letters := ascii_case) five_column_store)
        = inl BinderException)
  /\ (forall e, snd (silver_run (H := numeral_casts) (letters := ascii_case)
                       five_column_store) = inl e ->
        silver_table (fst (silver_run (H := numeral_casts) (letters := ascii_case)
                             five_column_store)) = None).
Proof.
  split; [exact five_column_store_is_plain|].
  apply (silver_run_fails_without_landing_table (H := numeral_casts)
           (letters := ascii_case) five_column_store).
  exact five_column_store_is_plain.
Defined.

(** The landing table with five of the columns: the query cannot be bound,
    the run raises, and the clean table of the run before is gone.  The
    binder reads a column under another case of its letters. *)
Example silver_run_raises_on_a_missing_column :
  silver_table flats_store <> None
  /\ COUNT_star (unbound (header five_column_file)) = 43
  /\ snd (silver_run (H := numeral_casts) (letters := ascii_case) five_column_store)
     = inl BinderException
  /\ silver_table (fst (silver_run (H := numeral_casts) (letters := ascii_case)
                          five_column_store))
     = None
  /\ bound_column ["lmk_key"; "Property_Type"] "PROPERTY_TYPE" = Some "Property_Type".
Proof. vm_compute. repeat split; discriminate. Qed.

(** X5.  [gold.run] raises exactly when the clean table does not exist; the
    error is the catalog error of the query, and both gold tables, dropped
    before the query, are then absent. *)
Theorem gold_run_fails_without_clean_table {letters : CaseFunctions} (s : Store) :
  ((exists e, snd (gold_run s) = inl e) <-> silver_table s = None)
  /\ (forall e, snd (gold_run s) = inl e ->
        e = CatalogException
        /\ features_table (fst (gold_run s)) = None
        /\ agg_table (fst (gold_run s)) = None).
Proof.
  destruct (silver_table s) as [clean|] eqn:Hs.
  - rewrite (gold_run_present s clean Hs). simpl. split.
    + split; [intros (e & [=])|discriminate].
    + intros e [=].
  - rewrite (gold_run_absent s Hs). simpl. split.
    + split; [reflexivity|eauto].
    + intros e [= <-]. auto.
Qed.

(** X6.  Each stage writes its own tables only, whether it returns or
    raises: [bronze.run] leaves the clean and the gold tables as they were,
    [silver.run] the landing and the gold tables, [gold.run] the landing and
    the clean table. *)
Theorem stages_write_their_own_tables
  `{TryCast} {letters : CaseFunctions} (csv_path now : string) (file : option CsvFile) (s : Store) :
  (silver_table (fst (bronze_run csv_path now file s)) = silver_table s
   /\ features_table (fst (bronze_run csv_path now file s)) = features_table s
   /\ agg_table (fst (bronze_run csv_path now file s)) = agg_table s)
  /\ (bronze_table (fst (silver_run s)) = bronze_table s
      /\ features_table (fst (silver_run s)) = features_table s
      /\ agg_table (fst (silver_run s)) = agg_table s)
  /\ (bronze_table (fst (gold_run s)) = bronze_table s
      /\ silver_table (fst (gold_run s)) = silver_table s).
Proof.
  split; [|split].
  - destruct file as [f|]; [rewrite bronze_run_present|rewrite bronze_run_absent];
      auto.
  - destruct (bronze_table s) as [t|] eqn:Hb.
    + destruct (unbound (columns t)) as [|name names] eqn:Hbound.
      * rewrite (silver_run_present s t Hb Hbound). simpl; auto.
      * rewrite (silver_run_unbound s t Hb) by (rewrite Hbound; discriminate).
        simpl; auto.
    + rewrite (silver_run_absent s Hb). simpl; auto.
  - destruct (silver_table s) as [clean|] eqn:Hs;
      [rewrite (gold_run_present s clean Hs)|rewrite (gold_run_absent s Hs)];
      simpl; auto.
Qed.

(** ** Gold: order, sizes and ranges *)

Lemma compare_cont_Eq_antisym (p q : positive) :
  Pos.compare_cont Eq q p = CompOpp (Pos.compare_cont Eq p q).
Proof. rewrite (Pos.compare_cont_antisym p q Eq). reflexivity. Qed.

Lemma SFcompare_antisym (x y : double) :
  SFcompare y x = option_map CompOpp (SFcompare x y).
Proof.
  destruct x as [sx|sx| |sx mx ex], y as [sy|sy| |sy my ey]; simpl;
    try destruct sx; try destruct sy; try reflexivity;
    rewrite (Z.compare_antisym ex ey); destruct (ex ?= ey); simpl; try reflexivity;
    rewrite (compare_cont_Eq_antisym mx my);
    destruct (Pos.compare_cont Eq mx my); reflexivity.
Qed.

Lemma SFltb_asym (x y : double) : SFltb x y = true -> SFltb y x = false.
Proof.
  unfold SFltb. rewrite (SFcompare_antisym x y).
  destruct (SFcompare x y) as [[]|]; simpl; congruence.
Qed.

Lemma score_before_asym (a b : option double) :
  score_before a b = true -> score_before b a = false.
Proof.
  destruct a as [x|], b as [y|]; simpl; try congruence. apply SFltb_asym.
Qed.

Lemma ordered_cons {A : Type} (before : A -> A -> bool) (a : A) (l : list A) :
  ordered before (a :: l) <->
  (forall b, head l = Some b -> before b a = false) /\ ordered before l.
Proof.
  destruct l as [|b l]; simpl.
  - split; [intros _; split; [discriminate|exact I]|tauto].
  - split.
    + intros [Hb Hl]. split; [intros ? [= <-]; exact Hb|exact Hl].
    + intros [Hb Hl]. split; [apply Hb; reflexivity|exact Hl].
Qed.

Lemma head_insert_by {A : Type} (before : A -> A -> bool) (x : A) (l : list A) :
  head (insert_by before x l) = Some x
  \/ (head (insert_by before x l) = head l /\ exists y, head l = Some y /\ before x y = false).
Proof.
  destruct l as [|y l]; simpl; [auto|].
  destruct (before x y) eqn:Hxy; simpl; eauto.
Qed.

Lemma ordered_insert_by {A : Type} (before : A -> A -> bool) (x : A) (l : list A) :
  (forall a b, before a b = true -> before b a = false) ->
  ordered before l -> ordered before (insert_by before x l).
Proof.
  intros Hasym. induction l as [|y l IH]; intros Hl; [exact I|].
  cbn [insert_by]. destruct (before x y) eqn:Hxy.
  - split; [apply Hasym, Hxy|exact Hl].
  - apply ordered_cons in Hl as [Hy Hl]. apply ordered_cons. split; [|auto].
    intros b Hb.
    destruct (head_insert_by before x l) as [Hx|(Hsame & _)].
    + rewrite Hx in Hb. injection Hb as <-. exact Hxy.
    + rewrite Hsame in Hb. auto.
Qed.

Lemma ordered_order_by {A : Type} (before : A -> A -> bool) (l : list A) :
  (forall a b, before a b = true -> before b a = false) ->
  ordered before (order_by before l).
Proof.
  intros Hasym. unfold order_by. induction l as [|x l IH]; simpl; [exact I|].
  apply ordered_insert_by; assumption.
Qed.

Lemma insert_by_permutation {A : Type} (before : A -> A -> bool) (x : A) (l : list A) :
  Permutation (insert_by before x l) (x :: l).
Proof.
  induction l as [|y l IH]; simpl; [reflexivity|].
  destruct (before x y); [reflexivity|]. rewrite IH. apply perm_swap.
Qed.

Lemma order_by_permutation {A : Type} (before : A -> A -> bool) (l : list A) :
  Permutation (order_by before l) l.
Proof.
  unfold order_by. induction l as [|x l IH]; simpl; [reflexivity|].
  rewrite insert_by_permutation, IH. reflexivity.
Qed.

Lemma order_by_score_order_by (segments : list PortfolioSegment) :
  order_by_score segments
  = order_by (fun s t => score_before (Segment.avg_retrofit_score s)
                                      (Segment.avg_retrofit_score t))
             segments.
Proof.
  unfold order_by_score, order_by.
  induction segments as [|s rest IH]; simpl; [reflexivity|]. rewrite IH.
  generalize (foldr
                (insert_by (fun s t => score_before (Segment.avg_retrofit_score s)
                                                    (Segment.avg_retrofit_score t)))
                [] rest).
  intros sorted. induction sorted as [|t sorted IHs]; simpl; [reflexivity|].
  rewrite IHs. reflexivity.
Qed.

(** X7.  [gold.portfolio_agg] is stored in the order of its ORDER BY: no
    row has an average retrofit score that sorts strictly before that of the
    row in front of it, so the averages never increase down the table. *)
Theorem portfolio_agg_is_ordered (features : list FeatureRecord) :
  ordered (fun s t => score_before (Segment.avg_retrofit_score s)
                                   (Segment.avg_retrofit_score t))
          (gold_portfolio_agg features)
  /\ forall l1 s t l2 x y,
       gold_portfolio_agg features = l1 ++ s :: t :: l2 ->
       Segment.avg_retrofit_score s = Some x ->
       Segment.avg_retrofit_score t = Some y ->
       SFltb x y = false.
Proof.
  assert (Hord : ordered (fun s t => score_before (Segment.avg_retrofit_score s)
                                                  (Segment.avg_retrofit_score t))
                         (gold_portfolio_agg features)).
  { unfold gold_portfolio_agg. rewrite order_by_score_order_by.
    apply ordered_order_by. intros a b. apply score_before_asym. }
  split; [exact Hord|].
  intros l1 s t l2 x y Heq Hx Hy. rewrite Heq in Hord. clear Heq.
  induction l1 as [|u l1 IH].
  - destruct Hord as [Hts _]. rewrite Hx, Hy in Hts. exact Hts.
  - apply IH. apply ordered_cons in Hord. tauto.
Qed.

Lemma sum_Z_permutation (xs ys : list Z) : Permutation xs ys -> sum_Z xs = sum_Z ys.
Proof.
  unfold sum_Z. induction 1; simpl; lia.
Qed.

Lemma sum_Z_map_add {K : Type} (f g : K -> Z) (ks : list K) :
  sum_Z (map (fun k => f k + g k) ks) = sum_Z (map f ks) + sum_Z (map g ks).
Proof. unfold sum_Z. induction ks as [|k ks IH]; simpl; lia. Qed.

Lemma sum_Z_indicator {K : Type} `{EqDecision K} (k0 : K) (ks : list K) :
  NoDup ks -> k0 ∈ ks ->
  sum_Z (map (fun k => if decide (k0 = k) then 1 else 0) ks) = 1.
Proof.
  unfold sum_Z. induction 1 as [|k ks Hk Hnd IH]; intros Hin; [inversion Hin|].
  simpl. destruct (decide (k0 = k)) as [->|Hne].
  - assert (foldr Z.add 0 (map (fun k' => if decide (k = k') then 1 else 0) ks) = 0).
    { clear IH Hin Hnd. induction ks as [|k' ks IH]; simpl; [reflexivity|].
      destruct (decide (k = k')) as [->|_].
      - exfalso. apply Hk. left.
      - rewrite IH; [reflexivity|]. intros Hin. apply Hk. right. exact Hin. }
    lia.
  - apply elem_of_cons in Hin as [?|Hin]; [contradiction|]. rewrite IH by exact Hin. lia.
Qed.

(** Rows counted by key: the counts of the keys add up to the table. *)
Lemma count_by_key {A K : Type} `{EqDecision K} (key : A -> K) (ks : list K) (l : list A) :
  NoDup ks -> (forall x, x ∈ l -> key x ∈ ks) ->
  sum_Z (map (fun k => Z.of_nat (length (filter (fun x => key x = k) l))) ks)
  = Z.of_nat (length l).
Proof.
  intros Hnd. induction l as [|x l IH]; intros Hkeys.
  - clear Hnd Hkeys. unfold sum_Z.
    induction ks as [|k ks IHk]; [reflexivity|].
    cbn [map foldr]. rewrite IHk. reflexivity.
  - rewrite (map_ext _ (fun k => (if decide (key x = k) then 1 else 0)
                                 + Z.of_nat (length (filter (fun x => key x = k) l)))).
    + rewrite sum_Z_map_add, sum_Z_indicator, IH.
      * simpl. lia.
      * intros y Hy. apply Hkeys. right. exact Hy.
      * exact Hnd.
      * apply Hkeys. left.
    + intros k. rewrite filter_cons. destruct (decide (key x = k)); simpl; lia.
Qed.

Lemma sum_property_counts (features : list FeatureRecord) :
  sum_Z (map Segment.property_count (gold_portfolio_agg features))
  = COUNT_star features.
Proof.
  unfold gold_portfolio_agg.
  rewrite (sum_Z_permutation _ _
             (Permutation_map Segment.property_count
                (order_by_score_permutation (grouped features)))).
  unfold grouped. rewrite map_map. cbn [Segment.property_count segment_row].
  unfold COUNT_star, group_rows.
  apply (count_by_key key_of).
  - apply NoDup_remove_dups.
  - intros f Hf. apply elem_of_remove_dups, list_elem_of_In, in_map, list_elem_of_In, Hf.
Qed.

(** X8.  The segments of [gold.portfolio_agg] split the feature table: their
    property counts add up to the number of feature rows, and every segment
    counts at least one row. *)
Theorem property_counts_add_up (features : list FeatureRecord) :
  sum_Z (map Segment.property_count (gold_portfolio_agg features))
  = COUNT_star features
  /\ List.Forall (fun t => 1 <= Segment.property_count t) (gold_portfolio_agg features).
Proof.
  split; [apply sum_property_counts|].
  apply List.Forall_forall. intros t Ht.
  apply in_gold_portfolio_agg in Ht as (f & Hf & ->).
  cbn [Segment.property_count segment_row]. unfold COUNT_star, group_rows.
  assert (Hin : f ∈ filter (fun g => key_of g = key_of f) features).
  { apply list_elem_of_filter. split; [reflexivity|apply list_elem_of_In, Hf]. }
  destruct (filter _ features); [inversion Hin|simpl; lia].
Qed.

Lemma length_remove_dups {K : Type} `{EqDecision K} (ks : list K) :
  (length (remove_dups ks) <= length ks)%nat.
Proof.
  induction ks as [|k ks IH]; simpl; [lia|].
  destruct (decide_rel elem_of k ks); simpl; lia.
Qed.

Lemma length_gold_portfolio_agg (features : list FeatureRecord) :
  (length (gold_portfolio_agg features) <= length features)%nat.
Proof.
  unfold gold_portfolio_agg.
  rewrite (Permutation_length (order_by_score_permutation (grouped features))).
  unfold grouped. rewrite length_map.
  etransitivity; [apply length_remove_dups|]. rewrite length_map. reflexivity.
Qed.

(** X9.  When [gold.run] returns, the clean table exists, both gold tables
    have been rebuilt from it, and the report is consistent: there are no
    more segments than feature rows, no more feature rows than clean rows,
    and there is a segment as soon as there is a feature row. *)
Theorem gold_run_report_is_consistent {letters : CaseFunctions} (s s' : Store)
    (report : GoldSummary) :
  gold_run s = (s', inr report) ->
  exists clean,
    silver_table s = Some clean
    /\ features_table s' = Some (gold_epc_features clean)
    /\ agg_table s' = Some (gold_portfolio_agg (gold_epc_features clean))
    /\ feature_rows report = COUNT_star (gold_epc_features clean)
    /\ 0 <= agg_segments report <= feature_rows report
    /\ feature_rows report <= COUNT_star clean
    /\ (agg_segments report = 0 <-> feature_rows report = 0).
Proof.
  intros Hrun. destruct (silver_table s) as [clean|] eqn:Hs.
  - rewrite (gold_run_present s clean Hs) in Hrun. injection Hrun as <- <-.
    exists clean. split; [reflexivity|]. split; [reflexivity|]. split; [reflexivity|].
    cbn [feature_rows agg_segments]. split; [reflexivity|].
    pose proof (length_gold_portfolio_agg (gold_epc_features clean)) as Hagg.
    pose proof (length_gold_epc_features clean) as Hfeat.
    pose proof (sum_property_counts (gold_epc_features clean)) as Hsum.
    unfold COUNT_star in *. split; [lia|]. split; [lia|].
    split; [|lia]. intros Hzero.
    destruct (gold_portfolio_agg (gold_epc_features clean)); [|simpl in Hzero; lia].
    simpl in Hsum. lia.
  - rewrite (gold_run_absent s Hs) in Hrun. discriminate.
Qed.

Lemma gold_run_report_is_consistent_witness :
  gold_run (letters := ascii_case) flats_cleaned =
      (flats_store, inr {| feature_rows := 3; agg_segments := 1 |})
  /\ exists clean,
       silver_table flats_cleaned = Some clean
       /\ features_table flats_store = Some (gold_epc_features (letters := ascii_case) clean)
       /\ agg_table flats_store = Some (gold_portfolio_agg (gold_epc_features
           (letters := ascii_case) clean))
       /\ feature_rows {| feature_rows := 3; agg_segments := 1 |}
          = COUNT_star (gold_epc_features (letters := ascii_case) clean)
       /\ 0 <= agg_segments {| feature_rows := 3; agg_segments := 1 |}
            <= feature_rows {| feature_rows := 3; agg_segments := 1 |}
       /\ feature_rows {| feature_rows := 3; agg_segments := 1 |} <= COUNT_star clean
       /\ (agg_segments {| feature_rows := 3; agg_segments := 1 |} = 0
           <-> feature_rows {| feature_rows := 3; agg_segments := 1 |} = 0).
Proof.
  split; [vm_compute; reflexivity|].
  apply (gold_run_report_is_consistent (letters := ascii_case) flats_cleaned flats_store
           {| feature_rows := 3; agg_segments := 1 |}).
  vm_compute. reflexivity.
Defined.

(** X10.  On every row of [gold.epc_features] both efficiencies lie in
    [1,100] and the retrofit score lies in [-99,99], so the INTEGER
    subtraction that computes it cannot overflow; a row of High priority has
    a current efficiency of at most 80, a row of Medium priority one of at
    most 90. *)
Theorem retrofit_score_is_bounded {letters : CaseFunctions} (clean : list CleanRecord)
    (f : FeatureRecord) :
  In f (gold_epc_features clean) ->
  exists ce pe,
    Feature.current_efficiency f = Some ce /\ 1 <= ce <= 100
    /\ Feature.potential_efficiency f = Some pe /\ 1 <= pe <= 100
    /\ Feature.retrofit_score f = Some (pe - ce) /\ -99 <= pe - ce <= 99
    /\ (Feature.retrofit_priority f = "High" -> ce <= 80)
    /\ (Feature.retrofit_priority f = "Medium" -> ce <= 90).
Proof.
  intros Hf. apply in_gold_epc_features in Hf as (c & _ & [Hce Hpe] & ->).
  apply in_range_value in Hce as (ce & Hce & Hcer), Hpe as (pe & Hpe & Hper).
  exists ce, pe. simpl. rewrite Hce, Hpe. simpl.
  destruct (priority_of_score (pe - ce)) as (Hhigh & Hmedium & _).
  repeat split; try lia.
  - intros Hp. apply Hhigh in Hp. lia.
  - intros Hp. apply Hmedium in Hp. lia.
Qed.

Lemma retrofit_score_is_bounded_witness :
  In example_feature (gold_epc_features (letters := ascii_case) example_clean)
  /\ exists ce pe,
       Feature.current_efficiency example_feature = Some ce /\ 1 <= ce <= 100
       /\ Feature.potential_efficiency example_feature = Some pe /\ 1 <= pe <= 100
       /\ Feature.retrofit_score example_feature = Some (pe - ce) /\ -99 <= pe - ce <= 99
       /\ (Feature.retrofit_priority example_feature = "High" -> ce <= 80)
       /\ (Feature.retrofit_priority example_feature = "Medium" -> ce <= 90).
Proof.
  split; [vm_compute; left; reflexivity|].
  apply (retrofit_score_is_bounded (letters := ascii_case) example_clean example_feature).
  vm_compute. left. reflexivity.
Defined.

Section PipelineFacts.
Context `{TryCast} {letters : CaseFunctions}.

(** X11.  After both stages, every feature row has a property type, both
    efficiencies and a retrofit score: what the silver filter checks on the
    landing texts and the gold filter on the cast values holds together from
    the feature table on, so the text summary never falls back on
    'residential property' or on '?' for an efficiency. *)
Theorem feature_rows_have_the_mandatory_fields (raw : list RawRow) (f : FeatureRecord) :
  In f (gold_epc_features (silver_epc_clean raw)) ->
  exists property_type ce pe,
    Feature.property_type f = Some property_type
    /\ Feature.current_efficiency f = Some ce
    /\ Feature.potential_efficiency f = Some pe
    /\ Feature.retrofit_score f = Some (pe - ce)
    /\ exists rest,
         Feature.text_summary f
         = "This is a " +:+ LOWER property_type +:+ " (" +:+ rest.
Proof.
  intros Hf. apply in_gold_epc_features in Hf as (c & Hc & [Hce Hpe] & ->).
  apply in_silver_epc_clean in Hc as (r & -> & _ & Hw).
  apply base_where_mandatory in Hw as (_ & _ & _ & Hpt).
  apply in_range_value in Hce as (ce & Hce & _), Hpe as (pe & Hpe & _).
  destruct (r !! "PROPERTY_TYPE") as [pt|] eqn:Ept; [|congruence].
  exists pt, ce, pe.
  cbn [feature_row Feature.property_type Feature.current_efficiency
       Feature.potential_efficiency Feature.retrofit_score Feature.text_summary].
  rewrite Hce, Hpe.
  cbn [clean_row Clean.property_type]. rewrite Ept.
  split; [reflexivity|]. split; [reflexivity|]. split; [reflexivity|].
  split; [reflexivity|].
  unfold summary_of. cbn [clean_row Clean.property_type]. rewrite Ept.
  eexists. reflexivity.
Qed.

Lemma NoDup_map_filter {A B : Type} (g : A -> B) (p : A -> bool) (l : list A) :
  List.NoDup (map g l) -> List.NoDup (map g (List.filter p l)).
Proof.
  induction l as [|a l IH]; simpl; [auto|].
  intros Hnd. apply List.NoDup_cons_iff in Hnd as [Ha Hnd].
  destruct (p a); simpl; [|auto].
  apply List.NoDup_cons; [|auto].
  intros Hin. apply Ha. apply in_map_iff in Hin as (x & Hx & Hin).
  apply filter_In in Hin as [Hin _]. apply in_map_iff. eauto.
Qed.

Lemma clean_keys_are_distinct (raw : list RawRow) :
  List.NoDup (map Clean.lmk_key (silver_epc_clean raw)).
Proof.
  unfold silver_epc_clean, base. rewrite map_map.
  erewrite map_ext; [apply (rank_one_keys_nodup [] raw)|].
  reflexivity.
Qed.

Lemma feature_keys_distinct_helper (raw : list RawRow) :
  List.NoDup (map Feature.lmk_key (gold_epc_features (silver_epc_clean raw))).
Proof.
  unfold gold_epc_features. rewrite map_map.
  change (fun c => Feature.lmk_key (feature_row c)) with Clean.lmk_key.
  apply NoDup_map_filter, clean_keys_are_distinct.
Qed.

(** X12.  The feature table built from a landing table has at most one row
    for each business key: two rows at different places never share a key. *)
Theorem feature_keys_are_distinct (raw : list RawRow) :
  List.NoDup (map Feature.lmk_key (gold_epc_features (silver_epc_clean raw)))
  /\ forall l1 f l2 g l3,
       gold_epc_features (silver_epc_clean raw) = l1 ++ f :: l2 ++ g :: l3 ->
       Feature.lmk_key f <> Feature.lmk_key g.
Proof.
  split; [apply feature_keys_distinct_helper|].
  intros l1 f l2 g l3 Heq Hk.
  pose proof (feature_keys_distinct_helper raw) as Hnd.
  rewrite Heq, map_app in Hnd. apply List.NoDup_app_remove_l in Hnd.
  simpl in Hnd. apply List.NoDup_cons_iff in Hnd as [Hnot _].
  apply Hnot. rewrite Hk, map_app. apply in_or_app. right. left. reflexivity.
Qed.

End PipelineFacts.

Lemma feature_rows_have_the_mandatory_fields_witness :
  In example_feature (gold_epc_features (letters := ascii_case) (silver_epc_clean
      (H := numeral_casts) (letters := ascii_case) [example_row]))
  /\ exists property_type ce pe,
       Feature.property_type example_feature = Some property_type
       /\ Feature.current_efficiency example_feature = Some ce
       /\ Feature.potential_efficiency example_feature = Some pe
       /\ Feature.retrofit_score example_feature = Some (pe - ce)
       /\ exists rest,
            Feature.text_summary example_feature
            = "This is a " +:+ LOWER (CaseFunctions := ascii_case) property_type +:+ " (" +:+ rest.
Proof.
  split; [vm_compute; left; reflexivity|].
  apply (feature_rows_have_the_mandatory_fields (H := numeral_casts) (letters := ascii_case)
           [example_row] example_feature).
  vm_compute. left. reflexivity.
Defined.


(** ** The query service *)

Lemma is_true3_sql_eq (x : option string) (v : string) :
  is_true3 (sql_eq x v) = true <-> x = Some v.
Proof.
  destruct x as [a|]; simpl; [|split; discriminate].
  destruct (bool_decide_reflect (a = v)); split; congruence.
Qed.

Lemma filter_none {A : Type} (p : A -> bool) (l : list A) :
  List.filter p l = [] <-> forall x, In x l -> p x = false.
Proof.
  induction l as [|a l IH]; simpl; [tauto|].
  destruct (p a) eqn:Ha.
  - split; [discriminate|]. intros Hall. specialize (Hall a (or_introl eq_refl)). congruence.
  - rewrite IH. split; [intros Hall x [<-|Hx]; auto|auto].
Qed.

(** In a table with distinct keys, the rows with a given key are one row. *)
Lemma filter_distinct_key {A B : Type} (g : A -> B) (p : A -> bool) (y : B)
  (l : list A) (f : A) :
  (forall x, p x = true <-> g x = y) ->
  List.NoDup (map g l) -> In f l -> g f = y -> List.filter p l = [f].
Proof.
  intros Hp. induction l as [|a l IH]; simpl; intros Hnd Hin Hf; [destruct Hin|].
  apply List.NoDup_cons_iff in Hnd as [Ha Hnd].
  destruct Hin as [->|Hin].
  - replace (p f) with true by (symmetry; apply Hp, Hf). f_equal.
    apply filter_none. intros x Hx.
    destruct (p x) eqn:Hpx; [|reflexivity].
    exfalso. apply Ha. apply Hp in Hpx. replace (g f) with (g x) by congruence.
    apply in_map, Hx.
  - destruct (p a) eqn:Hpa; [|auto].
    exfalso. apply Ha. apply Hp in Hpa. replace (g a) with (g f) by congruence.
    apply in_map, Hin.
Qed.

Lemma each_returns {A B : Type} (f : A -> raised + B) (l : list A) (bs : list B) :
  each f l = inr bs <-> Forall2 (fun a b => f a = inr b) l bs.
Proof.
  revert bs. induction l as [|a l IH]; intros bs; simpl.
  - split; [intros [= <-]; constructor|intros Hall; inversion Hall; reflexivity].
  - destruct (f a) as [e|b] eqn:Hfa.
    + split; [discriminate|]. intros Hall. inversion Hall; subst. congruence.
    + destruct (each f l) as [e|bs'] eqn:Hrest.
      * split; [discriminate|]. intros Hall. inversion Hall as [|? ? ? ? Hb Hl]; subst.
        apply IH in Hl. discriminate.
      * split.
        -- intros [= <-]. constructor; [exact Hfa|]. apply IH. reflexivity.
        -- intros Hall. inversion Hall as [|? b' ? bs'' Hb Hl]; subst.
           apply IH in Hl. congruence.
Qed.

Lemma each_raises {A B : Type} (f : A -> raised + B) (l : list A) (e : raised) :
  each f l = inl e -> exists a, In a l /\ f a = inl e.
Proof.
  induction l as [|a l IH]; simpl; [discriminate|].
  destruct (f a) as [e'|b] eqn:Hfa.
  - intros [= <-]. eauto.
  - destruct (each f l) as [e'|bs]; [|discriminate].
    intros [= <-]. destruct (IH eq_refl) as (a' & Hin & Ha'). eauto.
Qed.

Lemma each_returns_all {A B : Type} (f : A -> raised + B) (l : list A) (bs : list B) :
  each f l = inr bs -> forall a, In a l -> exists b, In b bs /\ f a = inr b.
Proof.
  intros Hall. apply each_returns in Hall.
  induction Hall as [|a b l bs Hab Hall IH]; intros x Hx; [destruct Hx|].
  destruct Hx as [<-|Hx].
  - exists b. split; [left; reflexivity|exact Hab].
  - destruct (IH x Hx) as (b' & Hb' & Hfx). exists b'. split; [right; exact Hb'|exact Hfx].
Qed.

Lemma each_returns_from {A B : Type} (f : A -> raised + B) (l : list A) (bs : list B) :
  each f l = inr bs -> forall b, In b bs -> exists a, In a l /\ f a = inr b.
Proof.
  intros Hall. apply each_returns in Hall.
  induction Hall as [|a b l bs Hab Hall IH]; intros x Hx; [destruct Hx|].
  destruct Hx as [<-|Hx].
  - exists a. split; [left; reflexivity|exact Hab].
  - destruct (IH x Hx) as (a' & Ha' & Hfx). exists a'. split; [right; exact Ha'|exact Hfx].
Qed.

Lemma property_detail_returns (row : FeatureRecord) (d : PropertyDetail) :
  property_detail row = inr d -> Feature.lmk_key row = Some (Detail.lmk_key d).
Proof.
  unfold property_detail. destruct (Feature.lmk_key row); [|discriminate].
  intros [= <-]. reflexivity.
Qed.

Section Lookup.
Context `{TryCast} {letters : CaseFunctions}.

(** X15.  Over a feature table built by the pipeline, [get_property] raises
    404 exactly when no row has the key, and otherwise returns the detail of
    the row with that key, of which there is one only, so that LIMIT 1 leaves
    no choice; the detail carries the key that was asked for. *)
Theorem get_property_finds_the_row (raw : list RawRow) (s : Store) (key : string) :
  features_table s = Some (gold_epc_features (silver_epc_clean raw)) ->
  (get_property s key = inl (HTTPException 404) <->
   forall f, In f (gold_epc_features (silver_epc_clean raw)) ->
             Feature.lmk_key f <> Some key)
  /\ (forall f, In f (gold_epc_features (silver_epc_clean raw)) ->
                Feature.lmk_key f = Some key ->
                exists d,
                  get_property s key = inr d /\ property_detail f = inr d
                  /\ Detail.lmk_key d = key).
Proof.
  intros Htable. unfold get_property. rewrite Htable. cbn [query_table].
  set (features := gold_epc_features (silver_epc_clean raw)).
  assert (Hfound : forall f, In f features -> Feature.lmk_key f = Some key ->
                     property_rows features key = [f]).
  { intros f Hf Hk. unfold property_rows.
    rewrite (filter_distinct_key Feature.lmk_key _ (Some key) features f); auto.
    - intros x. apply is_true3_sql_eq.
    - apply feature_keys_distinct_helper. }
  split.
  - split.
    + intros H404 f Hf Hk. rewrite (Hfound f Hf Hk) in H404.
      unfold property_detail in H404. rewrite Hk in H404. discriminate.
    + intros Hnone. unfold property_rows.
      replace (List.filter _ features) with (@nil FeatureRecord); [reflexivity|].
      symmetry. apply filter_none. intros x Hx.
      destruct (is_true3 (sql_eq (Feature.lmk_key x) key)) eqn:Hp; [|reflexivity].
      apply is_true3_sql_eq in Hp. destruct (Hnone x Hx Hp).
  - intros f Hf Hk. rewrite (Hfound f Hf Hk).
    unfold property_detail. rewrite Hk. eexists. split; [reflexivity|].
    split; reflexivity.
Qed.

End Lookup.

Lemma get_property_finds_the_row_witness :
  features_table mixed_store
  = Some (gold_epc_features (letters := ascii_case) (silver_epc_clean (H := numeral_casts)
      (letters := ascii_case) mixed_stock))
  /\ (get_property mixed_store "f9" = inl (HTTPException 404) <->
      forall f, In f (gold_epc_features (letters := ascii_case) (silver_epc_clean
          (H := numeral_casts) (letters := ascii_case) mixed_stock)) ->
                Feature.lmk_key f <> Some "f9")
  /\ (forall f, In f (gold_epc_features (letters := ascii_case) (silver_epc_clean
      (H := numeral_casts) (letters := ascii_case) mixed_stock)) ->
                Feature.lmk_key f = Some "f9" ->
                exists d,
                  get_property mixed_store "f9" = inr d /\ property_detail f = inr d
                  /\ Detail.lmk_key d = "f9").
Proof.
  split; [vm_compute; reflexivity|].
  apply (get_property_finds_the_row (H := numeral_casts)
      (letters := ascii_case) mixed_stock mixed_store "f9").
  vm_compute. reflexivity.
Defined.

(** A key of the table, a key that is not in it, and a store without the
    table. *)
Example get_property_example :
  (exists d, get_property mixed_store "f2" = inr d
             /\ Detail.retrofit_score d = Some (double_of_Z 35)
             /\ Detail.retrofit_priority d = Some "High")
  /\ get_property mixed_store "f9" = inl (HTTPException 404)
  /\ get_property empty_store "f2" = inl (QueryError CatalogException).
Proof.
  split; [|vm_compute; auto].
  eexists. split; [vm_compute; reflexivity|]. vm_compute. auto.
Qed.

Lemma in_take {A : Type} (n : nat) (l : list A) (x : A) : In x (take n l) -> In x l.
Proof.
  revert l. induction n as [|n IH]; intros [|a l]; simpl; try tauto.
  intros [->|Hx]; auto.
Qed.

Lemma in_drop {A : Type} (n : nat) (l : list A) (x : A) : In x (drop n l) -> In x l.
Proof. revert l. induction n as [|n IH]; intros [|a l]; simpl; auto. Qed.

Lemma head_take {A : Type} (n : nat) (l : list A) (b : A) :
  head (take n l) = Some b -> head l = Some b.
Proof. destruct n, l; simpl; congruence. Qed.

Lemma ordered_take {A : Type} (before : A -> A -> bool) (n : nat) (l : list A) :
  ordered before l -> ordered before (take n l).
Proof.
  revert l. induction n as [|n IH]; intros [|a l] Hl; try exact I.
  change (take (S n) (a :: l)) with (a :: take n l).
  apply ordered_cons in Hl as [Ha Hl]. apply ordered_cons. split; [|auto].
  intros b Hb. apply Ha. eapply head_take, Hb.
Qed.

Lemma ordered_drop {A : Type} (before : A -> A -> bool) (n : nat) (l : list A) :
  ordered before l -> ordered before (drop n l).
Proof.
  revert l. induction n as [|n IH]; intros [|a l] Hl; try exact Hl.
  change (drop (S n) (a :: l)) with (drop n l).
  apply IH. apply ordered_cons in Hl. tauto.
Qed.

Lemma ordered_app_r {A : Type} (before : A -> A -> bool) (l1 l2 : list A) :
  ordered before (l1 ++ l2) -> ordered before l2.
Proof.
  induction l1 as [|a l1 IH]; [auto|].
  change ((a :: l1) ++ l2) with (a :: (l1 ++ l2)).
  intros Hl. apply IH. apply ordered_cons in Hl. tauto.
Qed.

(** When "does not sort before" is transitive, an ordered list is ordered
    between any two places, not only between neighbours. *)
Lemma ordered_apart {A : Type} (before : A -> A -> bool) :
  (forall a b c, before b a = false -> before c b = false -> before c a = false) ->
  forall l2 f g l3, ordered before (f :: l2 ++ g :: l3) -> before g f = false.
Proof.
  intros Htrans l2. induction l2 as [|h l2 IH]; intros f g l3 Hord.
  - destruct Hord as [Hg _]. exact Hg.
  - change (f :: (h :: l2) ++ g :: l3) with (f :: h :: (l2 ++ g :: l3)) in Hord.
    destruct Hord as [Hh Hrest].
    eapply Htrans; [exact Hh|]. apply (IH h g l3). exact Hrest.
Qed.

Lemma integer_before_asym (a b : option Z) :
  integer_before a b = true -> integer_before b a = false.
Proof.
  destruct a, b; simpl; try congruence. rewrite Z.ltb_lt, Z.ltb_ge. lia.
Qed.

Lemma integer_before_trans (a b c : option Z) :
  integer_before b a = false -> integer_before c b = false ->
  integer_before c a = false.
Proof.
  destruct a as [x|], b as [y|], c as [z|]; simpl; try congruence.
  rewrite !Z.ltb_ge. lia.
Qed.

Lemma in_selected_rows (features : list FeatureRecord) (priority : option string)
  (f : FeatureRecord) :
  In f (selected_rows features priority) <->
  In f features
  /\ (truthy priority = true -> Some (Feature.retrofit_priority f) = priority).
Proof.
  unfold selected_rows. destruct (truthy priority) eqn:Ht.
  - rewrite filter_In, is_true3_sql_eq.
    destruct priority as [p|]; [|discriminate]. simpl. intuition.
  - intuition discriminate.
Qed.

Lemma listed_rows_ordered (features : list FeatureRecord) (priority : option string)
  (limit offset : Z) :
  ordered (fun f g => integer_before (Feature.retrofit_score f) (Feature.retrofit_score g))
          (listed_rows features priority limit offset).
Proof.
  unfold listed_rows, LIMIT, OFFSET.
  apply ordered_take, ordered_drop, ordered_order_by.
  intros a b. apply integer_before_asym.
Qed.

Lemma in_listed_rows (features : list FeatureRecord) (priority : option string)
  (limit offset : Z) (f : FeatureRecord) :
  In f (listed_rows features priority limit offset) ->
  In f (selected_rows features priority).
Proof.
  unfold listed_rows, LIMIT, OFFSET. intros Hf.
  apply in_take, in_drop in Hf.
  eapply Permutation_in; [apply order_by_permutation|exact Hf].
Qed.

Lemma row_count_literal_fits (n : Z) : n < 2 ^ 63 -> row_count_literal n = inr n.
Proof. intros Hn. unfold row_count_literal. apply Z.ltb_lt in Hn. rewrite Hn. reflexivity. Qed.

Lemma limit_fits (limit : Z) : 1 <= limit <= 200 -> limit < 2 ^ 63.
Proof. intros Hlimit. apply Z.le_lt_trans with 200; [lia|reflexivity]. Qed.

(** X16.  A page of [list_properties], over any feature table, with the
    bounds that the endpoint declares for its parameters and an offset that
    fits the 64-bit integer of the engine: the page has as many rows as are
    left of the selection after the offset, and at most [limit]; its rows are
    rows of the table and, when a priority is given and not empty, rows of
    that priority; along the page the retrofit score never increases, NULL
    scores last; the handler returns the details of these rows in this order,
    and it raises, with a validation error, exactly when a row of the page
    has no key. *)
Theorem list_properties_page
  (s : Store) (features : list FeatureRecord) (priority : option string)
  (limit offset : Z) :
  features_table s = Some features -> 1 <= limit <= 200 -> 0 <= offset < 2 ^ 63 ->
  let page := listed_rows features priority limit offset in
  COUNT_star page
  = Z.min limit (Z.max 0 (COUNT_star (selected_rows features priority) - offset))
  /\ (forall f, In f page ->
        In f features
        /\ (truthy priority = true -> Some (Feature.retrofit_priority f) = priority))
  /\ (forall l1 f l2 g l3, page = l1 ++ f :: l2 ++ g :: l3 ->
        integer_before (Feature.retrofit_score g) (Feature.retrofit_score f) = false)
  /\ (forall details,
        list_properties s priority limit offset = inr details <->
        Forall2 (fun f d => property_detail f = inr d) page details)
  /\ ((exists e, list_properties s priority limit offset = inl e) <->
      exists f, In f page /\ Feature.lmk_key f = None)
  /\ (forall e, list_properties s priority limit offset = inl e -> e = ValidationError).
Proof.
  intros Htable Hlimit Hoffset page.
  assert (Hlp : list_properties s priority limit offset = each property_detail page).
  { unfold list_properties. rewrite Htable. cbn [query_table].
    rewrite (row_count_literal_fits limit), (row_count_literal_fits offset);
      [reflexivity|lia|apply limit_fits, Hlimit]. }
  split; [|split; [|split; [|split; [|split]]]].
  - unfold page, COUNT_star, listed_rows, LIMIT, OFFSET.
    rewrite length_take, length_drop, (Permutation_length (order_by_permutation _ _)).
    lia.
  - intros f Hf. apply in_selected_rows, in_listed_rows with limit offset, Hf.
  - intros l1 f l2 g l3 Heq.
    pose proof (listed_rows_ordered features priority limit offset) as Hord.
    fold page in Hord. rewrite Heq in Hord. apply ordered_app_r in Hord.
    revert Hord.
    apply (ordered_apart
             (fun f g => integer_before (Feature.retrofit_score f)
                                        (Feature.retrofit_score g))).
    intros a b c. apply integer_before_trans.
  - intros details. rewrite Hlp. apply each_returns.
  - rewrite Hlp. split.
    + intros (e & He). apply each_raises in He as (f & Hf & He).
      exists f. split; [exact Hf|].
      unfold property_detail in He. destruct (Feature.lmk_key f); [discriminate|reflexivity].
    + intros (f & Hf & Hk).
      destruct (each property_detail page) as [e|details] eqn:He; [eauto|].
      exfalso. destruct (each_returns_all _ _ _ He f Hf) as (d & _ & Hd).
      unfold property_detail in Hd. rewrite Hk in Hd. discriminate.
  - intros e He. rewrite Hlp in He. apply each_raises in He as (f & _ & He).
    unfold property_detail in He. destruct (Feature.lmk_key f); congruence.
Qed.

Lemma list_properties_page_witness :
  features_table mixed_store
  = Some (gold_epc_features (letters := ascii_case) (silver_epc_clean (H := numeral_casts)
      (letters := ascii_case) mixed_stock))
  /\ 1 <= 2 <= 200 /\ 0 <= 1 < 2 ^ 63
  /\ let features := gold_epc_features (letters := ascii_case) (silver_epc_clean
      (H := numeral_casts) (letters := ascii_case) mixed_stock) in
     let page := listed_rows features None 2 1 in
     COUNT_star page = Z.min 2 (Z.max 0 (COUNT_star (selected_rows features None) - 1))
     /\ (forall f, In f page ->
           In f features
           /\ (truthy None = true -> Some (Feature.retrofit_priority f) = None))
     /\ (forall l1 f l2 g l3, page = l1 ++ f :: l2 ++ g :: l3 ->
           integer_before (Feature.retrofit_score g) (Feature.retrofit_score f) = false)
     /\ (forall details,
           list_properties mixed_store None 2 1 = inr details <->
           Forall2 (fun f d => property_detail f = inr d) page details)
     /\ ((exists e, list_properties mixed_store None 2 1 = inl e) <->
         exists f, In f page /\ Feature.lmk_key f = None)
     /\ (forall e, list_properties mixed_store None 2 1 = inl e -> e = ValidationError).
Proof.
  split; [vm_compute; reflexivity|]. split; [lia|]. split; [split; [lia|reflexivity]|].
  apply (list_properties_page mixed_store
           (gold_epc_features (silver_epc_clean (H := numeral_casts)
               (letters := ascii_case) mixed_stock))
           None 2 1); [vm_compute; reflexivity|lia|split; [lia|reflexivity]].
Defined.

(** The four certificates of the mixed stock by pages of two, and the
    selection of a priority; an empty text selects nothing away, a priority
    in other letters selects every row away. *)
Example list_properties_example :
  let keys (answer : raised + list PropertyDetail) :=
    match answer with
    | inr details => inr (map Detail.lmk_key details)
    | inl e => inl e
    end in
  keys (list_properties mixed_store None 2 0) = inr ["f2"; "k0"]
  /\ keys (list_properties mixed_store None 2 2) = inr ["f3"; "f1"]
  /\ keys (list_properties mixed_store None 2 4) = inr []
  /\ keys (list_properties mixed_store (Some "High") 20 0) = inr ["f2"; "k0"]
  /\ keys (list_properties mixed_store (Some "") 20 0) = inr ["f2"; "k0"; "f3"; "f1"]
  /\ keys (list_properties mixed_store (Some "high") 20 0) = inr [].
Proof. vm_compute. repeat split. Qed.

Lemma each_answers {A B : Type} (f : A -> raised + B) (l : list A) :
  (forall a, In a l -> exists b, f a = inr b) -> exists bs, each f l = inr bs.
Proof.
  induction l as [|a l IH]; intros Hall; simpl; [eauto|].
  destruct (Hall a (or_introl eq_refl)) as (b & ->).
  destruct IH as (bs & ->); [intros; apply Hall; right; assumption|]. eauto.
Qed.

Lemma NoDup_take {A : Type} (n : nat) (l : list A) : List.NoDup l -> List.NoDup (take n l).
Proof.
  revert l. induction n as [|n IH]; intros [|a l] Hnd; simpl; try constructor.
  - apply List.NoDup_cons_iff in Hnd as [Ha Hnd]. intros Hin. apply Ha.
    eapply in_take, Hin.
  - apply IH. apply List.NoDup_cons_iff in Hnd. tauto.
Qed.

Lemma NoDup_drop {A : Type} (n : nat) (l : list A) : List.NoDup l -> List.NoDup (drop n l).
Proof.
  revert l. induction n as [|n IH]; intros [|a l] Hnd; simpl; auto.
  apply IH. apply List.NoDup_cons_iff in Hnd. tauto.
Qed.

Lemma NoDup_map_selected (features : list FeatureRecord) (priority : option string) :
  List.NoDup (map Feature.lmk_key features) ->
  List.NoDup (map Feature.lmk_key (selected_rows features priority)).
Proof.
  unfold selected_rows. destruct (truthy priority); [apply NoDup_map_filter|auto].
Qed.

Lemma NoDup_map_listed (features : list FeatureRecord) (priority : option string)
  (limit offset : Z) :
  List.NoDup (map Feature.lmk_key features) ->
  List.NoDup (map Feature.lmk_key (listed_rows features priority limit offset)).
Proof.
  intros Hnd. unfold listed_rows, LIMIT, OFFSET.
  rewrite <- List.firstn_map, <- List.skipn_map. apply NoDup_take, NoDup_drop.
  eapply Permutation_NoDup.
  - apply Permutation_map. symmetry. apply order_by_permutation.
  - apply NoDup_map_selected, Hnd.
Qed.

Lemma detail_keys (page : list FeatureRecord) (details : list PropertyDetail) :
  Forall2 (fun f d => property_detail f = inr d) page details ->
  map Feature.lmk_key page = map Some (map Detail.lmk_key details).
Proof.
  induction 1 as [|f d page details Hfd Hall IH]; [reflexivity|].
  simpl. rewrite IH, (property_detail_returns f d Hfd). reflexivity.
Qed.

Section Listing.
Context `{TryCast} {letters : CaseFunctions}.

Lemma feature_key_present (raw : list RawRow) (f : FeatureRecord) :
  (forall r, In r raw -> r !! "LMK_KEY" <> None) ->
  In f (gold_epc_features (silver_epc_clean raw)) ->
  exists key, Feature.lmk_key f = Some key.
Proof.
  intros Hkeys Hf. apply in_gold_epc_features in Hf as (c & Hc & _ & ->).
  apply in_silver_epc_clean in Hc as (r & -> & Hr & _).
  apply in_deduped_in_raw, Hkeys in Hr.
  cbn [feature_row Feature.lmk_key clean_row Clean.lmk_key].
  destruct (r !! "LMK_KEY"); [eauto|congruence].
Qed.

(** X17.  When every record of the landing table has a key, and the offset
    fits the 64-bit integer of the engine, [list_properties] over the feature
    table of the pipeline does not raise: it returns at most [limit] details,
    no property twice, every one of the priority asked for when one is asked
    for, and every one with a retrofit score, a whole number between -99 and
    99. *)
Theorem list_properties_answers
  (raw : list RawRow) (s : Store) (priority : option string) (limit offset : Z) :
  features_table s = Some (gold_epc_features (silver_epc_clean raw)) ->
  (forall r, In r raw -> r !! "LMK_KEY" <> None) ->
  1 <= limit <= 200 -> 0 <= offset < 2 ^ 63 ->
  exists details,
    list_properties s priority limit offset = inr details
    /\ COUNT_star details <= limit
    /\ List.NoDup (map Detail.lmk_key details)
    /\ forall d, In d details ->
         (truthy priority = true -> Detail.retrofit_priority d = priority)
         /\ exists score,
              Detail.retrofit_score d = Some (double_of_Z score) /\ -99 <= score <= 99.
Proof.
  intros Htable Hkeys Hlimit Hoffset.
  unfold list_properties. rewrite Htable. cbn [query_table].
  rewrite (row_count_literal_fits limit), (row_count_literal_fits offset);
    [|lia|apply limit_fits, Hlimit].
  set (features := gold_epc_features (silver_epc_clean raw)).
  set (page := listed_rows features priority limit offset).
  assert (Hpage : forall f, In f page -> In f features
                    /\ (truthy priority = true ->
                        Some (Feature.retrofit_priority f) = priority)).
  { intros f Hf. apply in_selected_rows, in_listed_rows with limit offset, Hf. }
  destruct (each_answers property_detail page) as (details & Hdetails).
  { intros f Hf. apply Hpage in Hf as [Hf _].
    destruct (feature_key_present raw f Hkeys Hf) as (key & Hkey).
    unfold property_detail. rewrite Hkey. eauto. }
  exists details. split; [exact Hdetails|].
  pose proof (proj1 (each_returns _ _ _) Hdetails) as Hall.
  split; [|split].
  - unfold COUNT_star. rewrite <- (Forall2_length _ _ _ Hall).
    unfold page, listed_rows, LIMIT. rewrite length_take. lia.
  - apply (List.NoDup_map_inv Some). rewrite <- (detail_keys page details Hall).
    apply NoDup_map_listed, feature_keys_distinct_helper.
  - intros d Hd.
    destruct (each_returns_from _ _ _ Hdetails d Hd) as (f & Hf & Hfd).
    apply Hpage in Hf as [Hf Hpriority].
    apply in_gold_epc_features in Hf as (c & _ & [Hce Hpe] & ->).
    apply in_range_value in Hce as (ce & Hce & Hcer), Hpe as (pe & Hpe & Hper).
    unfold property_detail in Hfd.
    destruct (Feature.lmk_key (feature_row c)); [|discriminate].
    injection Hfd as <-. cbn [Detail.retrofit_priority Detail.retrofit_score].
    split; [exact Hpriority|].
    exists (pe - ce). cbn [feature_row Feature.retrofit_score].
    rewrite Hce, Hpe. split; [reflexivity|lia].
Qed.

End Listing.

(** An offset that does not fit the 64-bit integer of the engine: the
    query raises. *)
Example list_properties_offset_out_of_range :
  list_properties mixed_store None 20 (2 ^ 63) = inl (QueryError ConversionException).
Proof. vm_compute. reflexivity. Qed.

Lemma list_properties_answers_witness :
  features_table mixed_store
  = Some (gold_epc_features (letters := ascii_case) (silver_epc_clean (H := numeral_casts)
      (letters := ascii_case) mixed_stock))
  /\ (forall r, In r mixed_stock -> r !! "LMK_KEY" <> None)
  /\ 1 <= 3 <= 200 /\ 0 <= 0 < 2 ^ 63
  /\ exists details,
       list_properties mixed_store (Some "High") 3 0 = inr details
       /\ COUNT_star details <= 3
       /\ List.NoDup (map Detail.lmk_key details)
       /\ forall d, In d details ->
            (truthy (Some "High") = true -> Detail.retrofit_priority d = Some "High")
            /\ exists score,
                 Detail.retrofit_score d = Some (double_of_Z score) /\ -99 <= score <= 99.
Proof.
  assert (Hkeys : forall r, In r mixed_stock -> r !! "LMK_KEY" <> None).
  { intros r Hr. repeat (destruct Hr as [<-|Hr]; [vm_compute; discriminate|]).
    destruct Hr. }
  split; [vm_compute; reflexivity|]. split; [exact Hkeys|]. split; [lia|]. split; [split; [lia|reflexivity]|].
  apply (list_properties_answers (H := numeral_casts)
      (letters := ascii_case) mixed_stock mixed_store
           (Some "High") 3 0); [vm_compute; reflexivity|exact Hkeys|lia|split; [lia|reflexivity]].
Defined.

(** A record without a key passes both stages, and the listing that meets
    its row raises. *)
Example list_properties_raises_on_a_missing_key :
  let keyless := row_of [ ("LODGEMENT_DATETIME", "2020-01-01");
                          ("CURRENT_ENERGY_EFFICIENCY", "50");
                          ("POTENTIAL_ENERGY_EFFICIENCY", "70");
                          ("PROPERTY_TYPE", "Flat") ] in
  let s := fst (run_pipeline (H := numeral_casts)
      (letters := ascii_case) "certificates.csv" "2024-03-01 08:00:00"
                  (Some {| header := header flats_file;
                           records := keyless :: mixed_stock |})
                  empty_store) in
  list_properties s None 20 0 = inl ValidationError
  /\ (exists details, list_properties s (Some "Medium") 20 0 = inr details
                      /\ map Detail.lmk_key details = ["f3"]).
Proof.
  split; [vm_compute; reflexivity|].
  eexists. split; vm_compute; reflexivity.
Qed.

Lemma filter_all {A : Type} (p : A -> bool) (l : list A) :
  (forall x, p x = true) -> List.filter p l = l.
Proof.
  intros Hp. induction l as [|a l IH]; simpl; [reflexivity|]. rewrite Hp, IH. reflexivity.
Qed.

Lemma portfolio_where_true (property_type priority : option string)
  (row : PortfolioSegment) :
  portfolio_where property_type priority row = true <->
  (truthy property_type = true -> Segment.property_type row = property_type)
  /\ (truthy priority = true -> Some (Segment.retrofit_priority row) = priority).
Proof.
  unfold portfolio_where. rewrite andb_true_iff.
  destruct (truthy property_type) eqn:Hpt, (truthy priority) eqn:Hpr;
    rewrite ?is_true3_sql_eq;
    try (destruct property_type as [pt|]; [|discriminate]);
    try (destruct priority as [pr|]; [|discriminate]);
    cbn [COALESCE]; intuition congruence.
Qed.

Lemma NoDup_map_finer {A B C : Type} (g : A -> B) (h : A -> C) (l : list A) :
  (forall x y, In x l -> In y l -> g x = g y -> h x = h y) ->
  List.NoDup (map h l) -> List.NoDup (map g l).
Proof.
  induction l as [|a l IH]; intros Hfiner Hnd; simpl; [constructor|].
  simpl in Hnd. apply List.NoDup_cons_iff in Hnd as [Ha Hnd]. constructor.
  - intros Hin. apply Ha. apply in_map_iff in Hin as (x & Hx & Hin).
    apply in_map_iff. exists x. split; [|exact Hin].
    apply Hfiner; [right; exact Hin|left; reflexivity|exact Hx].
  - apply IH; [|exact Hnd]. intros x y Hx Hy. apply Hfiner; right; assumption.
Qed.

Lemma portfolio_agg_keys_distinct (features : list FeatureRecord) :
  List.NoDup (map key_of_segment (gold_portfolio_agg features)).
Proof.
  unfold gold_portfolio_agg. eapply Permutation_NoDup.
  - apply Permutation_map. symmetry. apply order_by_score_permutation.
  - rewrite grouped_keys. apply NoDup_ListNoDup, NoDup_remove_dups.
Qed.

(** X18.  [portfolio] over any segment table returns exactly the segments
    that meet the filters which are given and not empty, on the property
    type and on the priority, in the order of the average retrofit score;
    without a filter it returns every segment. *)
Theorem portfolio_selects_and_orders
  (s : Store) (segments : list PortfolioSegment) (property_type priority : option string) :
  agg_table s = Some segments ->
  exists answer,
    portfolio s property_type priority = inr answer
    /\ (forall row,
          In row answer <->
          In row segments
          /\ (truthy property_type = true -> Segment.property_type row = property_type)
          /\ (truthy priority = true -> Some (Segment.retrofit_priority row) = priority))
    /\ ordered (fun a b => score_before (Segment.avg_retrofit_score a)
                                        (Segment.avg_retrofit_score b))
               answer
    /\ (truthy property_type = false -> truthy priority = false ->
        Permutation answer segments).
Proof.
  intros Htable. unfold portfolio. rewrite Htable. cbn [query_table].
  eexists. split; [reflexivity|]. split; [|split].
  - intros row. rewrite in_order_by_score, filter_In, portfolio_where_true. reflexivity.
  - rewrite order_by_score_order_by. apply ordered_order_by.
    intros a b. apply score_before_asym.
  - intros Hpt Hpr. rewrite order_by_score_permutation, filter_all; [reflexivity|].
    intros row. unfold portfolio_where. rewrite Hpt, Hpr. reflexivity.
Qed.

(** X19.  Over the segment table of the pipeline, [portfolio] returns no
    segment twice: the answers differ in property type, age band or
    priority, and when both filters are given they differ in the age band. *)
Theorem portfolio_segments_are_distinct
  (s : Store) (features : list FeatureRecord) (property_type priority : option string)
  (answer : list PortfolioSegment) :
  agg_table s = Some (gold_portfolio_agg features) ->
  portfolio s property_type priority = inr answer ->
  List.NoDup (map key_of_segment answer)
  /\ (truthy property_type = true -> truthy priority = true ->
      List.NoDup (map Segment.construction_age_band answer)).
Proof.
  intros Htable. unfold portfolio. rewrite Htable. cbn [query_table].
  intros [= <-].
  assert (Hkeys : List.NoDup
                    (map key_of_segment
                       (order_by_score
                          (List.filter (portfolio_where property_type priority)
                                       (gold_portfolio_agg features))))).
  { eapply Permutation_NoDup.
    - apply Permutation_map. symmetry. apply order_by_score_permutation.
    - apply NoDup_map_filter, portfolio_agg_keys_distinct. }
  split; [exact Hkeys|].
  intros Hpt Hpr. revert Hkeys. apply NoDup_map_finer.
  intros a b Ha Hb Hband.
  apply in_order_by_score, filter_In in Ha as [_ Ha], Hb as [_ Hb].
  apply portfolio_where_true in Ha as [Hapt Hapr], Hb as [Hbpt Hbpr].
  specialize (Hapt Hpt). specialize (Hapr Hpr).
  specialize (Hbpt Hpt). specialize (Hbpr Hpr).
  assert (Hrp : Segment.retrofit_priority a = Segment.retrofit_priority b) by congruence.
  assert (Htype : Segment.property_type a = Segment.property_type b) by congruence.
  unfold key_of_segment. rewrite Htype, Hband, Hrp. reflexivity.
Qed.

Lemma portfolio_selects_and_orders_witness :
  agg_table mixed_store = Some (gold_portfolio_agg mixed_features)
  /\ exists answer,
       portfolio mixed_store (Some "Flat") None = inr answer
       /\ (forall row,
             In row answer <->
             In row (gold_portfolio_agg mixed_features)
             /\ (truthy (Some "Flat") = true -> Segment.property_type row = Some "Flat")
             /\ (truthy None = true -> Some (Segment.retrofit_priority row) = None))
       /\ ordered (fun a b => score_before (Segment.avg_retrofit_score a)
                                           (Segment.avg_retrofit_score b))
                  answer
       /\ (truthy (Some "Flat") = false -> truthy None = false ->
           Permutation answer (gold_portfolio_agg mixed_features)).
Proof.
  split; [vm_compute; reflexivity|].
  apply (portfolio_selects_and_orders mixed_store (gold_portfolio_agg mixed_features)
           (Some "Flat") None).
  vm_compute. reflexivity.
Defined.

Lemma portfolio_segments_are_distinct_witness :
  agg_table mixed_store = Some (gold_portfolio_agg mixed_features)
  /\ portfolio mixed_store (Some "Flat") (Some "High")
     = inr (order_by_score
              (List.filter (portfolio_where (Some "Flat") (Some "High"))
                           (gold_portfolio_agg mixed_features)))
  /\ List.NoDup
       (map key_of_segment
          (order_by_score
             (List.filter (portfolio_where (Some "Flat") (Some "High"))
                          (gold_portfolio_agg mixed_features))))
  /\ (truthy (Some "Flat") = true -> truthy (Some "High") = true ->
      List.NoDup
        (map Segment.construction_age_band
           (order_by_score
              (List.filter (portfolio_where (Some "Flat") (Some "High"))
                           (gold_portfolio_agg mixed_features))))).
Proof.
  split; [vm_compute; reflexivity|]. split; [vm_compute; reflexivity|].
  apply (portfolio_segments_are_distinct mixed_store mixed_features
           (Some "Flat") (Some "High")); vm_compute; reflexivity.
Defined.

(** The segments of the mixed stock: all of them in the order of the
    average score, the flats, and the flats of High priority. *)
Example portfolio_example :
  let shown (answer : raised + list PortfolioSegment) :=
    match answer with
    | inr segments =>
      inr (map (fun t => (Segment.property_type t, Segment.retrofit_priority t,
                          Segment.property_count t)) segments)
    | inl e => inl e
    end in
  shown (portfolio mixed_store None None)
  = inr [ (Some "Flat", "High", 1); (Some "House", "High", 1);
          (Some "Flat", "Medium", 1); (Some "Flat", "Low", 1) ]
  /\ shown (portfolio mixed_store (Some "Flat") (Some "High"))
     = inr [ (Some "Flat", "High", 1) ]
  /\ shown (portfolio mixed_store (Some "flat") None) = inr []
  /\ shown (portfolio empty_store None None) = inl (QueryError CatalogException).
Proof. vm_compute. repeat split. Qed.

(** ** The headline figures *)

Lemma non_null_map_Some {A B : Type} (g : A -> B) (l : list A) :
  non_null (map (fun a => Some (g a)) l) = map g l.
Proof.
  unfold non_null. induction l as [|a l IH]; simpl; [reflexivity|]. f_equal. exact IH.
Qed.

Lemma priority_count_empty (label : string) : priority_count label [] = None.
Proof. reflexivity. Qed.

Lemma priority_count_value (label : string) (features : list FeatureRecord) :
  features <> [] ->
  priority_count label features
  = Some (sum_Z (map (fun f => if is_true3 (sql_eq (Some (Feature.retrofit_priority f)) label)
                               then 1 else 0)
                     features)).
Proof.
  intros Hne. unfold priority_count, SUM_integer.
  rewrite (non_null_map_Some
             (fun f => if is_true3 (sql_eq (Some (Feature.retrofit_priority f)) label)
                       then 1 else 0)).
  destruct features; [congruence|reflexivity].
Qed.

Lemma priority_of_cases (score : option Z) :
  priority_of score = "High" \/ priority_of score = "Medium" \/ priority_of score = "Low".
Proof.
  unfold priority_of.
  destruct (is_true3 (sql_ge score 20)), (is_true3 (sql_ge score 10)); auto.
Qed.

Lemma sum_Z_cons (x : Z) (xs : list Z) : sum_Z (x :: xs) = x + sum_Z xs.
Proof. reflexivity. Qed.

Lemma indicator_sums (features : list FeatureRecord) :
  (forall f, In f features ->
     Feature.retrofit_priority f = "High" \/ Feature.retrofit_priority f = "Medium"
     \/ Feature.retrofit_priority f = "Low") ->
  let count label :=
    sum_Z (map (fun f => if is_true3 (sql_eq (Some (Feature.retrofit_priority f)) label)
                         then 1 else 0)
               features) in
  0 <= count "High" /\ 0 <= count "Medium" /\ 0 <= count "Low"
  /\ count "High" + count "Medium" + count "Low" = COUNT_star features.
Proof.
  unfold COUNT_star. induction features as [|f features IH]; intros Hall; cbn zeta.
  - simpl. lia.
  - destruct IH as (Hh & Hm & Hl & Hsum); [intros; apply Hall; right; assumption|].
    rewrite !map_cons, !sum_Z_cons, length_cons.
    destruct (Hall f (or_introl eq_refl)) as [-> | [-> | ->]];
      repeat match goal with
             | |- context [is_true3 (sql_eq (Some ?a) ?b)] =>
               let v := eval vm_compute in (is_true3 (sql_eq (Some a) b)) in
               change (is_true3 (sql_eq (Some a) b)) with v
             end;
      lia.
Qed.

(** X20.  [summary_stats] over a feature table that [gold.run] built: the
    total is the number of rows; on an empty table the three priority counts
    and the two averages are NULL, not zero; on any other table the three
    counts are present, none is negative, they add up to the total, so every
    property is counted under exactly one priority, and both averages are
    present. *)
Theorem summary_stats_counts {letters : CaseFunctions} (s : Store) (clean : list CleanRecord) :
  features_table s = Some (gold_epc_features clean) ->
  exists stats,
    summary_stats s = inr stats
    /\ total_properties stats = COUNT_star (gold_epc_features clean)
    /\ (total_properties stats = 0 ->
        high_priority_count stats = None /\ medium_priority_count stats = None
        /\ low_priority_count stats = None
        /\ summary_avg_current_efficiency stats = None
        /\ summary_avg_retrofit_score stats = None)
    /\ (0 < total_properties stats ->
        exists high medium low,
          high_priority_count stats = Some high
          /\ medium_priority_count stats = Some medium
          /\ low_priority_count stats = Some low
          /\ 0 <= high /\ 0 <= medium /\ 0 <= low
          /\ high + medium + low = total_properties stats
          /\ summary_avg_current_efficiency stats <> None
          /\ summary_avg_retrofit_score stats <> None).
Proof.
  intros Htable. unfold summary_stats. rewrite Htable. cbn [query_table].
  set (features := gold_epc_features clean).
  eexists. split; [reflexivity|].
  cbn [total_properties high_priority_count medium_priority_count low_priority_count
       summary_avg_current_efficiency summary_avg_retrofit_score].
  split; [reflexivity|]. split.
  - unfold COUNT_star. intros Hzero.
    destruct features; [repeat split|simpl in Hzero; lia].
  - intros Hpos.
    assert (Hne : features <> []).
    { intros Heq. rewrite Heq in Hpos. unfold COUNT_star in Hpos. simpl in Hpos. lia. }
    assert (Hrows : forall f, In f features ->
              (exists ce, Feature.current_efficiency f = Some ce)
              /\ (exists score, Feature.retrofit_score f = Some score)
              /\ (Feature.retrofit_priority f = "High"
                  \/ Feature.retrofit_priority f = "Medium"
                  \/ Feature.retrofit_priority f = "Low")).
    { intros f Hf. apply in_gold_epc_features in Hf as (c & _ & [Hce Hpe] & ->).
      apply in_range_value in Hce as (ce & Hce & _), Hpe as (pe & Hpe & _).
      cbn [feature_row Feature.current_efficiency Feature.retrofit_score
           Feature.retrofit_priority].
      rewrite Hce, Hpe. split; [eauto|]. split; [simpl; eauto|]. apply priority_of_cases. }
    destruct (indicator_sums features) as (Hh & Hm & Hl & Hsum);
      [intros f Hf; apply Hrows, Hf|].
    rewrite !priority_count_value by exact Hne.
    do 3 eexists. split; [reflexivity|]. split; [reflexivity|]. split; [reflexivity|].
    split; [exact Hh|]. split; [exact Hm|]. split; [exact Hl|]. split; [exact Hsum|].
    split.
    + destruct (non_null_all_present Feature.current_efficiency features) as (vs & Hvs & Heq);
        [intros f Hf; apply Hrows, Hf|].
      rewrite (AVG_integer_all_present vs _ Heq); [discriminate|].
      intros ->. inversion Hvs; subst. congruence.
    + destruct (non_null_all_present Feature.retrofit_score features) as (vs & Hvs & Heq);
        [intros f Hf; apply Hrows, Hf|].
      rewrite (AVG_integer_all_present vs _ Heq); [discriminate|].
      intros ->. inversion Hvs; subst. congruence.
Qed.

Lemma summary_stats_counts_witness :
  features_table mixed_store
  = Some (gold_epc_features (letters := ascii_case) (silver_epc_clean (H := numeral_casts)
      (letters := ascii_case) mixed_stock))
  /\ exists stats,
       summary_stats mixed_store = inr stats
       /\ total_properties stats
          = COUNT_star (gold_epc_features (letters := ascii_case) (silver_epc_clean
              (H := numeral_casts) (letters := ascii_case) mixed_stock))
       /\ (total_properties stats = 0 ->
           high_priority_count stats = None /\ medium_priority_count stats = None
           /\ low_priority_count stats = None
           /\ summary_avg_current_efficiency stats = None
           /\ summary_avg_retrofit_score stats = None)
       /\ (0 < total_properties stats ->
           exists high medium low,
             high_priority_count stats = Some high
             /\ medium_priority_count stats = Some medium
             /\ low_priority_count stats = Some low
             /\ 0 <= high /\ 0 <= medium /\ 0 <= low
             /\ high + medium + low = total_properties stats
             /\ summary_avg_current_efficiency stats <> None
             /\ summary_avg_retrofit_score stats <> None).
Proof.
  split; [vm_compute; reflexivity|].
  apply (summary_stats_counts (letters := ascii_case) mixed_store
           (silver_epc_clean (H := numeral_casts) (letters := ascii_case) mixed_stock)).
  vm_compute. reflexivity.
Defined.

(** The figures of the mixed stock, and those of a pipeline run over a file
    without records. *)
Example summary_stats_example :
  summary_stats mixed_store
  = inr {| total_properties := 4;
           summary_avg_current_efficiency := Some (double_of_Z 52);
           summary_avg_retrofit_score := Some (double_of_Z 18);
           high_priority_count := Some 2;
           medium_priority_count := Some 1;
           low_priority_count := Some 1 |}
  /\ summary_stats
       (fst (run_pipeline (H := numeral_casts)
           (letters := ascii_case) "certificates.csv" "2024-03-01 08:00:00"
               (Some {| header := header flats_file; records := [] |}) empty_store))
     = inr {| total_properties := 0;
              summary_avg_current_efficiency := None;
              summary_avg_retrofit_score := None;
              high_priority_count := None;
              medium_priority_count := None;
              low_priority_count := None |}.
Proof. vm_compute. auto. Qed.

(** X21.  [health] answers exactly when the model loads, and then it always
    reports the model as loaded; the status is 'ok' exactly when the feature
    table can be counted, in which case the count is reported, and
    'degraded' with a count of zero otherwise. *)
Theorem health_reports_the_database
  {P : Type} (s : Store) (get_predictor : raised + P) :
  ((exists e, health s get_predictor = inl e) <-> exists e, get_predictor = inl e)
  /\ forall answer, health s get_predictor = inr answer ->
       model_loaded answer = true
       /\ (status answer = "ok" \/ status answer = "degraded")
       /\ (status answer = "ok" <-> db_connected answer = true)
       /\ (db_connected answer = true <->
           exists features, features_table s = Some features
                            /\ property_count answer = COUNT_star features)
       /\ (db_connected answer = false <->
           features_table s = None /\ property_count answer = 0).
Proof.
  unfold health.
  destruct get_predictor as [e|p], (features_table s) as [features|]; cbn [query_table].
  - split; [split; eauto|intros answer [=]].
  - split; [split; eauto|intros answer [=]].
  - split; [split; intros (e & [=])|].
    intros answer [= <-]. cbn. split; [reflexivity|]. split; [auto|].
    split; [tauto|]. split.
    + split; [eauto|reflexivity].
    + split; [discriminate|intros [[=] _]].
  - split; [split; intros (e & [=])|].
    intros answer [= <-]. cbn. split; [reflexivity|]. split; [auto|].
    split; [split; discriminate|]. split.
    + split; [discriminate|intros (features & [=] & _)].
    + split; auto.
Qed.

(** ** The predictor *)

Lemma nearest_even_bounds (num den k : Z) :
  0 <= num -> 0 < den -> num < k * den -> 0 <= nearest_even num den <= k.
Proof.
  intros Hnum Hden Hlt. unfold nearest_even. cbv zeta.
  assert (Hq : 0 <= num / den < k).
  { split; [apply Z.div_pos; lia|apply Z.div_lt_upper_bound; lia]. }
  destruct (2 * (num mod den) ?= den); [destruct (Z.even (num / den))|..]; lia.
Qed.

(** The clamp gives 0, 100, or its argument when that lies strictly between
    them. *)
Lemma clamp_cases (x : double) :
  py_max (S754_zero false) (py_min (double_of_Z 100) x) = S754_zero false
  \/ py_max (S754_zero false) (py_min (double_of_Z 100) x) = double_of_Z 100
  \/ (py_max (S754_zero false) (py_min (double_of_Z 100) x) = x
      /\ SFltb (S754_zero false) x = true /\ SFltb x (double_of_Z 100) = true).
Proof.
  unfold py_max, py_min. destruct (SFltb x (double_of_Z 100)) eqn:Hlt.
  - destruct (SFltb (S754_zero false) x) eqn:Hpos; auto.
  - right. left. vm_compute. reflexivity.
Qed.

Lemma mantissa_below_2_53 (m : positive) (e : Z) :
  bounded prec emax m e = true -> Zpos m < 2 ^ 53.
Proof.
  unfold bounded, canonical_mantissa, fexp, emin, prec, emax.
  intros [Hc _]%andb_true_iff. apply Z.eqb_eq in Hc. rewrite digits2_log2 in Hc.
  destruct (Z.log2_spec (Zpos m)) as [_ Hup]; [lia|].
  eapply Z.lt_le_trans; [exact Hup|]. apply Z.pow_le_mono_r; lia.
Qed.

Lemma below_hundred (m : positive) (e : Z) :
  bounded prec emax m e = true ->
  SFltb (S754_finite false m e) (double_of_Z 100) = true ->
  e < 0 /\ Zpos m * 100 < 10000 * 2 ^ (- e).
Proof.
  intros Hb Hlt. apply mantissa_below_2_53 in Hb.
  change (2 ^ 53) with 9007199254740992 in Hb.
  change (double_of_Z 100) with (S754_finite false 7036874417766400 (-46)) in Hlt.
  unfold SFltb, SFcompare in Hlt.
  destruct (Z.compare_spec e (-46)) as [-> | He | He]; try discriminate.
  - split; [lia|]. change (2 ^ (- -46)) with 70368744177664.
    rewrite Pos.compare_cont_spec in Hlt.
    destruct (Pos.compare_spec m 7036874417766400) as [-> | Hm | Hm];
      try discriminate.
    clear Hlt Hb. apply Pos2Z.pos_lt_pos in Hm. lia.
  - split; [lia|].
    assert (Hpow : 2 ^ 47 <= 2 ^ (- e)) by (apply Z.pow_le_mono_r; lia).
    change (2 ^ 47) with 140737488355328 in Hpow. lia.
Qed.

Lemma clamped_round (x : double) :
  valid_binary prec emax x = true ->
  exists n,
    0 <= n <= 10000
    /\ py_round (py_max (S754_zero false) (py_min (double_of_Z 100) x)) 2 = decimal n 2
    /\ (x = S754_nan -> n = 10000).
Proof.
  intros Hvalid. destruct (clamp_cases x) as [Hc | [Hc | (Hc & Hpos & Hlt)]]; rewrite Hc.
  - exists 0. split; [lia|]. split; [reflexivity|].
    intros ->. vm_compute in Hc. discriminate.
  - exists 10000. split; [lia|]. split; [vm_compute; reflexivity|auto].
  - destruct x as [s|s| |s m e]; try discriminate.
    + destruct s; discriminate.
    + destruct s; [discriminate|]. cbn [valid_binary] in Hvalid.
      destruct (below_hundred m e Hvalid Hlt) as [He Hm].
      exists (nearest_even (Zpos m * 100) (2 ^ (- e))).
      split; [|split; [|discriminate]].
      * apply nearest_even_bounds; [lia|apply Z.pow_pos_nonneg; lia|lia].
      * unfold py_round. change (10 ^ Z.of_nat 2) with 100.
        replace (0 <=? e) with false by (symmetry; apply Z.leb_gt; lia).
        cbn [cond_Zopp].
        destruct (Z.eqb_spec (nearest_even (Zpos m * 100) (2 ^ (- e))) 0) as [->|_];
          reflexivity.
Qed.

(** The comparisons of [predict] on every whole number of hundredths from
    0.00 to 100.00, by evaluation. *)
Lemma hundredths_compare (n : Z) :
  0 <= n <= 10000 ->
  SFleb (S754_zero false) (decimal n 2) = true
  /\ SFleb (decimal n 2) (double_of_Z 100) = true
  /\ SFleb (double_of_Z 20) (decimal n 2) = (2000 <=? n)
  /\ SFleb (double_of_Z 10) (decimal n 2) = (1000 <=? n).
Proof.
  intros Hn.
  assert (Htable :
            forallb (fun k : nat =>
                       let n := Z.of_nat k in
                       SFleb (S754_zero false) (decimal n 2)
                       && SFleb (decimal n 2) (double_of_Z 100)
                       && Bool.eqb (SFleb (double_of_Z 20) (decimal n 2)) (2000 <=? n)
                       && Bool.eqb (SFleb (double_of_Z 10) (decimal n 2)) (1000 <=? n))
                    (seq 0 (Z.to_nat 10001))
            = true) by (vm_compute; reflexivity).
  rewrite forallb_forall in Htable.
  assert (Hin : In (Z.to_nat n) (seq 0 (Z.to_nat 10001))) by (apply in_seq; lia).
  apply Htable in Hin. cbv zeta in Hin. rewrite Z2Nat.id in Hin by lia.
  apply andb_true_iff in Hin as [Hin H10].
  apply andb_true_iff in Hin as [Hin H20].
  apply andb_true_iff in Hin as [H0 H100].
  apply Bool.eqb_prop in H20, H10. auto.
Qed.

(** X22.  What [predict] returns for any float of the model: the score is a
    whole number of hundredths between 0.00 and 100.00, the double nearest to
    it, and the priority is High from 20.00, Medium from 10.00 and Low
    below; a NaN of the model is returned as the score 100.00. *)
Theorem predicted_score_is_clamped
  {Request : Type} (model : Request -> double) (request : Request) :
  valid_binary prec emax (model request) = true ->
  exists n,
    0 <= n <= 10000
    /\ predicted_score (predict model request) = decimal n 2
    /\ SFleb (S754_zero false) (predicted_score (predict model request)) = true
    /\ SFleb (predicted_score (predict model request)) (double_of_Z 100) = true
    /\ (predicted_priority (predict model request) = "High" <-> 2000 <= n)
    /\ (predicted_priority (predict model request) = "Medium" <-> 1000 <= n < 2000)
    /\ (predicted_priority (predict model request) = "Low" <-> n < 1000)
    /\ (model request = S754_nan -> n = 10000).
Proof.
  intros Hvalid. destruct (clamped_round (model request) Hvalid) as (n & Hn & Hscore & Hnan).
  destruct (hundredths_compare n Hn) as (H0 & H100 & H20 & H10).
  exists n. unfold predict. cbn [predicted_score predicted_priority]. rewrite Hscore.
  split; [exact Hn|]. split; [reflexivity|]. split; [exact H0|]. split; [exact H100|].
  rewrite H20, H10.
  destruct (Z.leb_spec 2000 n), (Z.leb_spec 1000 n);
    (split; [|split; [|split]]); try exact Hnan; split; intros; try discriminate; try lia;
    reflexivity.
Qed.

Lemma predicted_score_is_clamped_witness :
  valid_binary prec emax (decimal 2345678 5) = true
  /\ exists n,
       0 <= n <= 10000
       /\ predicted_score (predict (fun _ : unit => decimal 2345678 5) tt) = decimal n 2
       /\ SFleb (S754_zero false)
                (predicted_score (predict (fun _ : unit => decimal 2345678 5) tt)) = true
       /\ SFleb (predicted_score (predict (fun _ : unit => decimal 2345678 5) tt))
                (double_of_Z 100) = true
       /\ (predicted_priority (predict (fun _ : unit => decimal 2345678 5) tt) = "High"
           <-> 2000 <= n)
       /\ (predicted_priority (predict (fun _ : unit => decimal 2345678 5) tt) = "Medium"
           <-> 1000 <= n < 2000)
       /\ (predicted_priority (predict (fun _ : unit => decimal 2345678 5) tt) = "Low"
           <-> n < 1000)
       /\ (decimal 2345678 5 = S754_nan -> n = 10000).
Proof.
  split; [vm_compute; reflexivity|].
  apply (predicted_score_is_clamped (fun _ : unit => decimal 2345678 5) tt).
  vm_compute. reflexivity.
Defined.

(** Outputs of the model and what [predict] makes of them: 23.45678, a
    negative number, a number above 100, NaN, 19.995 and 9.995, whose doubles
    lie above and below the halfway point, and 0.125, which lies on it. *)
Example predict_example :
  map (fun x => let p := predict (fun _ : unit => x) tt in
                (predicted_score p, predicted_priority p))
      [ decimal 2345678 5; decimal (-35) 1; double_of_Z 250; S754_nan; decimal 19995 3;
        decimal 9995 3; decimal 125 3 ]
  = [ (decimal 2346 2, "High"); (S754_zero false, "Low"); (double_of_Z 100, "High");
      (double_of_Z 100, "High"); (double_of_Z 20, "High"); (decimal 999 2, "Low");
      (decimal 12 2, "Low") ].
Proof. vm_compute. reflexivity. Qed.

(** ** The dashboard *)

Lemma sum_of_indicators {A : Type} (p : A -> bool) (l : list A) :
  sum_Z (map (fun a => if p a then 1 else 0) l) = Z.of_nat (length (List.filter p l)).
Proof.
  induction l as [|a l IH]; [reflexivity|].
  rewrite map_cons, sum_Z_cons, IH. simpl. destruct (p a); simpl; lia.
Qed.

Lemma non_null_case {A : Type} (p : A -> bool) (l : list A) :
  non_null (map (fun a => if p a then Some 1 else None) l)
  = map (fun _ => 1) (List.filter p l).
Proof.
  unfold non_null. induction l as [|a l IH]; [reflexivity|].
  simpl. destruct (p a); simpl; [f_equal|]; exact IH.
Qed.

Lemma sum_of_ones {A : Type} (l : list A) :
  sum_Z (map (fun _ => 1) l) = Z.of_nat (length l).
Proof.
  induction l as [|a l IH]; [reflexivity|]. rewrite map_cons, sum_Z_cons, IH. simpl. lia.
Qed.

Lemma SUM_case_high_value (features : list FeatureRecord) :
  SUM_case_high features
  = match List.filter
            (fun f => is_true3 (sql_eq (Some (Feature.retrofit_priority f)) "High"))
            features with
    | [] => None
    | high => Some (Z.of_nat (length high))
    end.
Proof.
  unfold SUM_case_high, SUM_integer.
  rewrite (non_null_case
             (fun f => is_true3 (sql_eq (Some (Feature.retrofit_priority f)) "High"))).
  destruct (List.filter _ features) as [|f high]; [reflexivity|].
  rewrite <- sum_of_ones. reflexivity.
Qed.

(** X23.  The dashboard's [load_summary] and the service's [summary_stats]
    over the same feature table: the total and the two averages agree; the
    dashboard's count of High rows is NULL exactly when no row is of High
    priority, where the service reports 0 on a table that is not empty; when
    it is not NULL it is at least 1 and the two counts agree. *)
Theorem load_summary_and_summary_stats (s : Store) (features : list FeatureRecord) :
  features_table s = Some features ->
  exists shown stats,
    load_summary s = inr shown /\ summary_stats s = inr stats
    /\ Dashboard.total shown = total_properties stats
    /\ Dashboard.avg_efficiency shown = summary_avg_current_efficiency stats
    /\ Dashboard.avg_retrofit_score shown = summary_avg_retrofit_score stats
    /\ (Dashboard.high_count shown = None <->
        forall f, In f features -> Feature.retrofit_priority f <> "High")
    /\ (forall n, Dashboard.high_count shown = Some n ->
          1 <= n /\ high_priority_count stats = Some n)
    /\ (features <> [] -> Dashboard.high_count shown = None ->
        high_priority_count stats = Some 0).
Proof.
  intros Htable. unfold load_summary, summary_stats. rewrite Htable. cbn [query_table].
  do 2 eexists. split; [reflexivity|]. split; [reflexivity|].
  cbn [Dashboard.total Dashboard.avg_efficiency Dashboard.avg_retrofit_score
       Dashboard.high_count total_properties summary_avg_current_efficiency
       summary_avg_retrofit_score high_priority_count].
  split; [reflexivity|]. split; [reflexivity|]. split; [reflexivity|].
  rewrite SUM_case_high_value.
  set (high := fun f => is_true3 (sql_eq (Some (Feature.retrofit_priority f)) "High")).
  assert (Hcount : features <> [] ->
            priority_count "High" features
            = Some (Z.of_nat (length (List.filter high features)))).
  { intros Hne. rewrite priority_count_value by exact Hne.
    rewrite (sum_of_indicators high). reflexivity. }
  split; [|split].
  - split.
    + intros Hnone f Hf Hp.
      assert (Hin : In f (List.filter high features)).
      { apply filter_In. split; [exact Hf|]. apply is_true3_sql_eq. congruence. }
      destruct (List.filter high features); [destruct Hin|discriminate].
    + intros Hall. replace (List.filter high features) with (@nil FeatureRecord);
        [reflexivity|].
      symmetry. apply filter_none. intros f Hf.
      destruct (high f) eqn:Hp; [|reflexivity].
      apply is_true3_sql_eq in Hp. destruct (Hall f Hf). congruence.
  - intros n Hn.
    destruct (List.filter high features) as [|f rest] eqn:Hfilter; [discriminate|].
    injection Hn as <-. split; [simpl; lia|].
    rewrite Hcount; [rewrite ?Hfilter; reflexivity|].
    intros ->. discriminate.
  - intros Hne Hnone. rewrite Hcount by exact Hne.
    destruct (List.filter high features); [reflexivity|discriminate].
Qed.

Lemma load_summary_and_summary_stats_witness :
  features_table flats_store = Some three_flats_features
  /\ exists shown stats,
       load_summary flats_store = inr shown /\ summary_stats flats_store = inr stats
       /\ Dashboard.total shown = total_properties stats
       /\ Dashboard.avg_efficiency shown = summary_avg_current_efficiency stats
       /\ Dashboard.avg_retrofit_score shown = summary_avg_retrofit_score stats
       /\ (Dashboard.high_count shown = None <->
           forall f, In f three_flats_features -> Feature.retrofit_priority f <> "High")
       /\ (forall n, Dashboard.high_count shown = Some n ->
             1 <= n /\ high_priority_count stats = Some n)
       /\ (three_flats_features <> [] -> Dashboard.high_count shown = None ->
           high_priority_count stats = Some 0).
Proof.
  split; [vm_compute; reflexivity|].
  apply (load_summary_and_summary_stats flats_store three_flats_features).
  vm_compute. reflexivity.
Defined.

(** The three flats are all of Low priority: the dashboard gets NULL for the
    number of High rows, the service 0. *)
Example high_count_of_the_flats :
  (exists shown, load_summary flats_store = inr shown
                 /\ Dashboard.total shown = 3 /\ Dashboard.high_count shown = None)
  /\ (exists stats, summary_stats flats_store = inr stats
                    /\ high_priority_count stats = Some 0).
Proof. split; eexists; (split; [vm_compute; reflexivity|]); vm_compute; auto. Qed.

(** X24.  [load_priority_dist] over any feature table: every priority that
    occurs has one row, with the number of feature rows of that priority,
    which is at least 1; the counts add up to the number of feature rows, and
    they never increase down the answer. *)
Theorem load_priority_dist_counts (s : Store) (features : list FeatureRecord) :
  features_table s = Some features ->
  exists dist,
    load_priority_dist s = inr dist
    /\ List.NoDup (map fst dist)
    /\ (forall f, In f features -> exists n, In (Feature.retrofit_priority f, n) dist)
    /\ (forall k n, In (k, n) dist ->
          1 <= n
          /\ n = COUNT_star (filter (fun f => Feature.retrofit_priority f = k) features))
    /\ sum_Z (map snd dist) = COUNT_star features
    /\ forall l1 a l2 b l3, dist = l1 ++ a :: l2 ++ b :: l3 -> snd b <= snd a.
Proof.
  intros Htable. unfold load_priority_dist. rewrite Htable. cbn [query_table].
  set (groups := map (fun k => (k, COUNT_star
                                     (filter (fun f => Feature.retrofit_priority f = k)
                                             features)))
                     (remove_dups (map Feature.retrofit_priority features))).
  pose proof (order_by_permutation (fun a b : string * Z => snd b <? snd a) groups) as Hperm.
  assert (Hkeys : map fst groups = remove_dups (map Feature.retrofit_priority features)).
  { unfold groups. rewrite map_map. apply map_id. }
  eexists. split; [reflexivity|]. split; [|split; [|split; [|split]]].
  - eapply Permutation_NoDup; [apply Permutation_map; symmetry; exact Hperm|].
    rewrite Hkeys. apply NoDup_ListNoDup, NoDup_remove_dups.
  - intros f Hf. eexists. eapply Permutation_in; [symmetry; exact Hperm|].
    unfold groups. apply in_map_iff. eexists. split; [reflexivity|].
    apply list_elem_of_In, elem_of_remove_dups, list_elem_of_In, in_map, Hf.
  - intros k n Hin. eapply Permutation_in in Hin; [|exact Hperm].
    unfold groups in Hin. apply in_map_iff in Hin as (k' & [= -> <-] & Hk).
    split; [|reflexivity].
    apply list_elem_of_In, elem_of_remove_dups, list_elem_of_In, in_map_iff in Hk
      as (f & Hkf & Hf).
    assert (Hin : f ∈ filter (fun g => Feature.retrofit_priority g = k) features).
    { apply list_elem_of_filter. split; [exact Hkf|apply list_elem_of_In, Hf]. }
    unfold COUNT_star. destruct (filter _ features); [inversion Hin|simpl; lia].
  - rewrite (sum_Z_permutation _ _ (Permutation_map snd Hperm)).
    unfold groups. rewrite map_map. cbn [snd]. unfold COUNT_star.
    apply (count_by_key Feature.retrofit_priority).
    + apply NoDup_remove_dups.
    + intros f Hf.
      apply elem_of_remove_dups, list_elem_of_In, in_map, list_elem_of_In, Hf.
  - intros l1 a l2 b l3 Heq.
    pose proof (ordered_order_by (fun a b : string * Z => snd b <? snd a) groups) as Hord.
    rewrite Heq in Hord. apply Z.ltb_ge.
    refine (ordered_apart (fun a b : string * Z => snd b <? snd a) _ l2 a b l3 _).
    + intros x y z. rewrite !Z.ltb_ge. lia.
    + apply (ordered_app_r _ l1). apply Hord.
      intros x y. rewrite Z.ltb_lt, Z.ltb_ge. lia.
Qed.

Lemma load_priority_dist_counts_witness :
  features_table mixed_store = Some mixed_features
  /\ exists dist,
       load_priority_dist mixed_store = inr dist
       /\ List.NoDup (map fst dist)
       /\ (forall f, In f mixed_features ->
             exists n, In (Feature.retrofit_priority f, n) dist)
       /\ (forall k n, In (k, n) dist ->
             1 <= n
             /\ n = COUNT_star (filter (fun f => Feature.retrofit_priority f = k)
                                       mixed_features))
       /\ sum_Z (map snd dist) = COUNT_star mixed_features
       /\ forall l1 a l2 b l3, dist = l1 ++ a :: l2 ++ b :: l3 -> snd b <= snd a.
Proof.
  split; [vm_compute; reflexivity|].
  apply (load_priority_dist_counts mixed_store mixed_features).
  vm_compute. reflexivity.
Defined.
